(** * Employee-management backend: storage accessors and request handlers

    A shallow embedding of [server/storage.ts], [shared/schema.ts], the route
    handlers of [server/routes.ts], [calculateWorkingHours] of
    [client/src/lib/utils.ts], [calculateSummary] of
    [client/src/pages/sales.tsx] and the page bar of
    [client/src/components/tables/DataTablePagination.tsx], together with
    the properties the specification states about them and further
    properties of the code.

    Conventions of the embedding:
    - a JavaScript [number] holding an id, a counter, a page or a limit is a
      [Z]; a [Date] is its [getTime()] value, a [Z] of milliseconds;
    - a monetary [number] (a [real] column) is a binary64 [float], with the
      IEEE operations JavaScript uses;
    - the difference of two time values and what is computed from it are
      integers that need not fit 53 bits: they are a [Z], and every
      operation rounds as binary64 does ([JS.Number]);
    - [null] and [undefined] are both [None];
    - a [Map<number, V>] is an association list in insertion order, which is
      the order [Map.prototype.values] iterates in;
    - an [async] method is a function from the store to a completion (a value
      or a thrown error) and the successor store;
    - the schemas [createInsertSchema] derives from the tables check a value
      by the type of its column. *)

From Stdlib Require Import ZArith List String Ascii Bool Lia Floats Uint63 DecimalString.
From Stdlib Require Import Sorting.Permutation Sorting.Sorted.
Import ListNotations.
Local Open Scope string_scope.
Local Open Scope list_scope.
Local Open Scope Z_scope.

(** ** The JavaScript runtime the code relies on *)

Module JS.

(** The outcome of a call: a value, or an exception carrying its message. *)
Inductive completion (A : Type) : Type :=
| Normal (a : A)
| Throw (message : string).
Arguments Normal {A} a.
Arguments Throw {A} message.

(** [ToBoolean] on strings and numbers. *)
Definition truthy_string (s : string) : bool := negb (String.eqb s "").

Definition truthy_opt_string (s : option string) : bool :=
  match s with Some s => truthy_string s | None => false end.

Definition truthy_number (x : float) : bool :=
  negb (PrimFloat.eqb x 0%float || PrimFloat.is_nan x).

(** [Number.prototype.toString] on an integer. *)
Definition string_of_Z (z : Z) : string := NilZero.string_of_int (Z.to_int z).

(** *** Numbers that hold integers

    A [number] is a binary64 float: 53 significant bits, results rounded to
    the nearest float, ties to the even one. Amounts are kept as primitive
    floats. Time values and their differences are integers; on them the
    arithmetic of the code is written out over [Z] with its rounding. The
    magnitudes met are far from overflow and underflow, which are left
    out. *)
Module Number.

(** [n / d] rounded to the nearest integer, ties to the even one, for
    [0 < d]. *)
Definition nearest (n d : Z) : Z :=
  let q := n / d in
  let r := n mod d in
  if 2 * r <? d then q
  else if d <? 2 * r then q + 1
  else if Z.even q then q else q + 1.

(** [a / b < 2 ^ e], for [0 < b]. *)
Definition below (a b e : Z) : bool :=
  if 0 <=? e then a <? b * 2 ^ e else a * 2 ^ (- e) <? b.

(** The binade of [a / b], for [0 < a] and [0 < b]: the [e] with
    [2 ^ e <= a / b < 2 ^ (e + 1)]. *)
Definition binade (a b : Z) : Z :=
  let e := Z.log2 a - Z.log2 b in
  if below a b e then e - 1 else e.

(** The float [a / b], for [0 <= a] and [0 < b], as its mantissa [m] of 53
    bits and its scale [s]: the float is [m / 2 ^ s]. *)
Definition quotient (a b : Z) : Z * Z :=
  if a =? 0 then (0, 0)
  else
    let s := 52 - binade a b in
    (if 0 <=? s then nearest (a * 2 ^ s) b else nearest a (b * 2 ^ (- s)), s).

(** [Math.floor(a / b)], for [0 < b]. *)
Definition floorDiv (a b : Z) : Z :=
  let '(m, s) := quotient (Z.abs a) b in
  if 0 <=? s
  then if 0 <=? a then m / 2 ^ s else - ((m + 2 ^ s - 1) / 2 ^ s)
  else Z.sgn a * (m * 2 ^ (- s)).

(** The float nearest to the integer [n]; it is an integer. *)
Definition round (n : Z) : Z :=
  let '(m, s) := quotient (Z.abs n) 1 in
  Z.sgn n * (if 0 <=? s then m / 2 ^ s else m * 2 ^ (- s)).

(** [a - b] *)
Definition sub (a b : Z) : Z := round (a - b).

(** [Number.isInteger(x)] *)
Definition isInteger (x : float) : bool :=
  match Prim2SF x with
  | S754_zero _ => true
  | S754_finite _ m e => if 0 <=? e then true else Z.pos m mod 2 ^ (- e) =? 0
  | _ => false
  end.

(** The integer [n] as a primitive float, for [0 <= n < 2 ^ 63], and the float
    [quotient] stands for. *)
Definition toFloat (n : Z) : float := PrimFloat.of_uint63 (Uint63.of_Z n).

Definition quotientFloat (a b : Z) : float :=
  let '(m, s) := quotient a b in Z.ldexp (toFloat m) (- s).

End Number.

(** The time values a [Date] can hold; a [Date] outside is invalid. *)
Definition timeValue (t : Z) : Prop := -8640000000000000 <= t <= 8640000000000000.

Section Array.
Context {A : Type}.

(** The clamping of a relative index by [Array.prototype.slice]. *)
Definition relative_index (len k : Z) : Z :=
  if k <? 0 then Z.max (len + k) 0 else Z.min k len.

(** [arr.slice(start, end)]. *)
Definition slice (arr : list A) (start end_ : Z) : list A :=
  let len := Z.of_nat (List.length arr) in
  let k := relative_index len start in
  let final := relative_index len end_ in
  firstn (Z.to_nat (final - k)) (skipn (Z.to_nat k) arr).

(** [arr.sort((a, b) => key(b) - key(a))]: the sort is stable, so an
    element goes in front of the first one whose key is not greater. *)
Fixpoint insert_desc (key : A -> Z) (x : A) (sorted : list A) : list A :=
  match sorted with
  | [] => [x]
  | y :: rest =>
      if key x <? key y then y :: insert_desc key x rest
      else x :: y :: rest
  end.

Definition sort_desc (key : A -> Z) (arr : list A) : list A :=
  fold_right (insert_desc key) [] arr.
End Array.

(** [Map<number, V>], in insertion order. *)
Module Map.
Definition t (V : Type) : Type := list (Z * V).

Definition empty {V : Type} : t V := [].

Fixpoint get {V : Type} (k : Z) (m : t V) : option V :=
  match m with
  | [] => None
  | (k', v) :: m' => if k' =? k then Some v else get k m'
  end.

(** [set] keeps the position of a key that is already present. *)
Fixpoint set {V : Type} (k : Z) (v : V) (m : t V) : t V :=
  match m with
  | [] => [(k, v)]
  | (k', v') :: m' =>
      if k' =? k then (k, v) :: m' else (k', v') :: set k v m'
  end.

Definition values {V : Type} (m : t V) : list V := map snd m.

Definition keys {V : Type} (m : t V) : list Z := map fst m.
End Map.

(** [String.prototype.toUpperCase], on the ASCII letters. *)
Definition upper_ascii (c : ascii) : ascii :=
  let n := nat_of_ascii c in
  if ((97 <=? n) && (n <=? 122))%nat then ascii_of_nat (n - 32) else c.

Definition toUpperCase (s : string) : string :=
  string_of_list_ascii (List.map upper_ascii (list_ascii_of_string s)).

(** [s.replace(/-/g, '')]. *)
Definition remove_hyphens (s : string) : string :=
  string_of_list_ascii
    (List.filter (fun c => negb (Ascii.eqb c "-")) (list_ascii_of_string s)).

(** [s.slice(start, end)]. *)
Definition String_slice (s : string) (start end_ : Z) : string :=
  string_of_list_ascii (slice (list_ascii_of_string s) start end_).

(** [s.startsWith(p)]. *)
Definition startsWith (s p : string) : bool := String.prefix p s.

(** *** [Date.prototype.toISOString] *)

Definition digit (n : Z) : ascii := ascii_of_nat (48 + Z.to_nat (n mod 10)).

Definition pad2 (n : Z) : list ascii := [digit (n / 10); digit n].
Definition pad3 (n : Z) : list ascii := digit (n / 100) :: pad2 n.
Definition pad4 (n : Z) : list ascii := digit (n / 1000) :: pad3 n.
Definition pad6 (n : Z) : list ascii :=
  digit (n / 100000) :: digit (n / 10000) :: pad4 n.

(** Day number since 1970-01-01 to the proleptic Gregorian year, month
    and day. *)
Definition civil_from_days (days : Z) : Z * Z * Z :=
  let z := days + 719468 in
  let era := z / 146097 in
  let doe := z - era * 146097 in
  let yoe := (doe - doe / 1460 + doe / 36524 - doe / 146096) / 365 in
  let doy := doe - (365 * yoe + yoe / 4 - yoe / 100) in
  let mp := (5 * doy + 2) / 153 in
  let d := doy - (153 * mp + 2) / 5 + 1 in
  let m := if mp <? 10 then mp + 3 else mp - 9 in
  let y := yoe + era * 400 in
  (if m <=? 2 then y + 1 else y, m, d).

(** The year of an ISO string: four digits from 0 to 9999, a sign and six
    digits outside. *)
Definition iso_year (y : Z) : list ascii :=
  if (0 <=? y) && (y <=? 9999) then pad4 y
  else (if y <? 0 then "-"%char else "+"%char) :: pad6 (Z.abs y).

Definition toISOString (ms : Z) : string :=
  let '(y, m, d) := civil_from_days (ms / 86400000) in
  let t := ms mod 86400000 in
  string_of_list_ascii
    (iso_year y ++ "-"%char :: pad2 m ++ "-"%char :: pad2 d
     ++ "T"%char :: pad2 (t / 3600000) ++ ":"%char :: pad2 (t / 60000 mod 60)
     ++ ":"%char :: pad2 (t / 1000 mod 60) ++ "."%char :: pad3 (t mod 1000)
     ++ ["Z"%char]).

(** *** The [nanoid] package

    [nanoid(size)] draws [size] bytes from the random pool and maps each
    to [urlAlphabet[byte & 63]]; the alphabet is [A-Za-z0-9_-], here in the
    order of nanoid 3. *)
Definition urlAlphabet : string :=
  "useandom-26T198340PX75pxJACKVERYMINDBUSHWOLF_GQZbfghjklqvwyzrict".

Definition nanoid (size : nat) (pool : nat -> Z) : string :=
  string_of_list_ascii
    (List.map
       (fun i => List.nth (Z.to_nat (Z.land (pool i) 63))
                   (list_ascii_of_string urlAlphabet) "u"%char)
       (List.seq 0 size)).

End JS.

Import JS.

(** Functions of the host whose result depends on the server's time zone,
    locale or on a library outside the repository. *)
Module Host.
Record t : Type := {
  (** [d.setHours(0, 0, 0, 0)] *)
  startOfDay : Z -> Z;
  (** [d.setDate(d.getDate() + 1)] *)
  nextDay : Z -> Z;
  (** [d.setHours(23, 59, 59, 999)] *)
  endOfDay : Z -> Z;
  (** [new Date(s).getTime()], [None] for an invalid date *)
  Date_parse : string -> option Z;
  (** [parseInt(s)], [None] for [NaN] *)
  parseInt : string -> option Z;
  (** date-fns [format(d, 'hh:mm a')] and [format(d, 'MMM dd, yyyy')] *)
  formatTime : Z -> string;
  formatDate : Z -> string;
  (** [Intl.NumberFormat('id-ID', { style: 'currency', currency: 'IDR', ... }).format] *)
  formatIDR : float -> string;
  (** [supabase.auth.getUser(token)]: the e-mail of the verified identity *)
  auth_getUser : string -> option string
}.
End Host.

(** ** The tables of [shared/schema.ts] *)

Module User.
Record t : Type := {
  id : Z; username : string; password : string; email : string;
  role : string; full_name : option string; avatar_url : option string;
  created_at : Z }.
End User.

Module InsertUser.
Record t : Type := {
  username : string; password : string; email : string;
  role : string; full_name : option string; avatar_url : option string }.
End InsertUser.

Module Attendance.
Record t : Type := {
  id : Z; user_id : Z; check_in : Z; check_out : option Z;
  note : option string; location : string; created_at : Z }.
End Attendance.

Module InsertAttendance.
Record t : Type := {
  user_id : Z; check_in : Z; check_out : option Z;
  note : option string; location : string }.
End InsertAttendance.

(** [Partial<InsertAttendance>]: [None] is an absent key. *)
Module PartialAttendance.
Record t : Type := {
  user_id : option Z; check_in : option Z; check_out : option (option Z);
  note : option (option string); location : option string }.
End PartialAttendance.

Module Sale.
Record t : Type := {
  id : Z; invoice_number : string; user_id : Z; customer_name : string;
  sale_date : Z; total_amount : float; tax_amount : float;
  discount_amount : float; payment_method : string;
  notes : option string; status : string; created_at : Z }.
End Sale.

Module InsertSale.
Record t : Type := {
  invoice_number : option string; user_id : Z; customer_name : string;
  sale_date : Z; total_amount : float; tax_amount : float;
  discount_amount : float; payment_method : string;
  notes : option string; status : string }.
End InsertSale.

Module SaleItem.
Record t : Type := {
  id : Z; sale_id : Z; product_id : Z; quantity : float;
  unit_price : float; created_at : Z }.
End SaleItem.

Module InsertSaleItem.
Record t : Type := {
  sale_id : Z; product_id : Z; quantity : float; unit_price : float }.
End InsertSaleItem.

Module Product.
Record t : Type := {
  id : Z; name : string; description : option string; price : float;
  category_id : Z; sku : string; created_at : Z }.
End Product.

Module ProductCategory.
Record t : Type := {
  id : Z; name : string; description : option string; created_at : Z }.
End ProductCategory.

Module WorkReport.
Record t : Type := {
  id : Z; user_id : Z; title : string; report_type : string;
  department : string; tasks : string; outcomes : string;
  challenges : option string; next_steps : option string;
  status : string; created_at : Z }.
End WorkReport.

Module InsertWorkReport.
Record t : Type := {
  user_id : Z; title : string; report_type : string;
  department : string; tasks : string; outcomes : string;
  challenges : option string; next_steps : option string;
  status : string }.
End InsertWorkReport.

Module PartialWorkReport.
Record t : Type := {
  user_id : option Z; title : option string; report_type : option string;
  department : option string; tasks : option string;
  outcomes : option string; challenges : option (option string);
  next_steps : option (option string); status : option string }.
End PartialWorkReport.

(** [{ ...row, ...data }]: a key present in [data] overrides the row's. *)
Definition spread {A : Type} (old : A) (new : option A) : A :=
  match new with Some v => v | None => old end.

(** ** [class MemStorage implements IStorage] *)

Module MemStorage.

Record t : Type := {
  users : Map.t User.t;
  attendance : Map.t Attendance.t;
  sales : Map.t Sale.t;
  saleItems : Map.t (list SaleItem.t);
  products : Map.t Product.t;
  productCategories : Map.t ProductCategory.t;
  workReports : Map.t WorkReport.t;
  userIdCounter : Z;
  attendanceIdCounter : Z;
  saleIdCounter : Z;
  saleItemIdCounter : Z;
  productIdCounter : Z;
  categoryIdCounter : Z;
  reportIdCounter : Z }.

(** The writes a method makes to [this]. *)
Definition with_users (m : Map.t User.t) (c : Z) (this : t) : t :=
  {| users := m; userIdCounter := c;
     attendance := attendance this; sales := sales this;
     saleItems := saleItems this; products := products this;
     productCategories := productCategories this;
     workReports := workReports this;
     attendanceIdCounter := attendanceIdCounter this;
     saleIdCounter := saleIdCounter this;
     saleItemIdCounter := saleItemIdCounter this;
     productIdCounter := productIdCounter this;
     categoryIdCounter := categoryIdCounter this;
     reportIdCounter := reportIdCounter this |}.

Definition with_attendance (m : Map.t Attendance.t) (c : Z) (this : t) : t :=
  {| attendance := m; attendanceIdCounter := c;
     users := users this; sales := sales this;
     saleItems := saleItems this; products := products this;
     productCategories := productCategories this;
     workReports := workReports this;
     userIdCounter := userIdCounter this;
     saleIdCounter := saleIdCounter this;
     saleItemIdCounter := saleItemIdCounter this;
     productIdCounter := productIdCounter this;
     categoryIdCounter := categoryIdCounter this;
     reportIdCounter := reportIdCounter this |}.

Definition with_sales (m : Map.t Sale.t) (c : Z) (this : t) : t :=
  {| sales := m; saleIdCounter := c;
     users := users this; attendance := attendance this;
     saleItems := saleItems this; products := products this;
     productCategories := productCategories this;
     workReports := workReports this;
     userIdCounter := userIdCounter this;
     attendanceIdCounter := attendanceIdCounter this;
     saleItemIdCounter := saleItemIdCounter this;
     productIdCounter := productIdCounter this;
     categoryIdCounter := categoryIdCounter this;
     reportIdCounter := reportIdCounter this |}.

Definition with_saleItems (m : Map.t (list SaleItem.t)) (c : Z) (this : t) : t :=
  {| saleItems := m; saleItemIdCounter := c;
     users := users this; attendance := attendance this;
     sales := sales this; products := products this;
     productCategories := productCategories this;
     workReports := workReports this;
     userIdCounter := userIdCounter this;
     attendanceIdCounter := attendanceIdCounter this;
     saleIdCounter := saleIdCounter this;
     productIdCounter := productIdCounter this;
     categoryIdCounter := categoryIdCounter this;
     reportIdCounter := reportIdCounter this |}.

Definition with_workReports (m : Map.t WorkReport.t) (c : Z) (this : t) : t :=
  {| workReports := m; reportIdCounter := c;
     users := users this; attendance := attendance this;
     sales := sales this; saleItems := saleItems this;
     products := products this;
     productCategories := productCategories this;
     userIdCounter := userIdCounter this;
     attendanceIdCounter := attendanceIdCounter this;
     saleIdCounter := saleIdCounter this;
     saleItemIdCounter := saleItemIdCounter this;
     productIdCounter := productIdCounter this;
     categoryIdCounter := categoryIdCounter this |}.

(** *** [constructor] and [initializeSampleData] *)

Definition sampleCategories (now : Z) : list ProductCategory.t :=
  [ ProductCategory.Build_t 1 "Electronics" (Some "Electronic devices and gadgets") now;
    ProductCategory.Build_t 2 "Office Supplies" (Some "Office supplies and stationery") now;
    ProductCategory.Build_t 3 "Furniture" (Some "Office furniture and fixtures") now ].

Definition sampleProducts (now : Z) : list Product.t :=
  [ Product.Build_t 1 "Laptop" (Some "High-performance work laptop") 15000000 1 "ELEC-001" now;
    Product.Build_t 2 "Smartphone" (Some "Business smartphone") 8000000 1 "ELEC-002" now;
    Product.Build_t 3 "Tablet" (Some "Professional tablet") 5000000 1 "ELEC-003" now;
    Product.Build_t 4 "Paper Ream" (Some "500 sheets A4 paper") 50000 2 "SUPP-001" now;
    Product.Build_t 5 "Printer Ink" (Some "Black printer ink cartridge") 250000 2 "SUPP-002" now;
    Product.Build_t 6 "Stapler" (Some "Heavy duty stapler") 15000 2 "SUPP-003" now;
    Product.Build_t 7 "Office Chair" (Some "Ergonomic office chair") 800000 3 "FURN-001" now;
    Product.Build_t 8 "Desk" (Some "Executive office desk") 1200000 3 "FURN-002" now;
    Product.Build_t 9 "Filing Cabinet" (Some "3-drawer filing cabinet") 600000 3 "FURN-003" now ].

Definition new (now : Z) : t :=
  let categories := sampleCategories now in
  let productsList := sampleProducts now in
  {| users := Map.empty; attendance := Map.empty; sales := Map.empty;
     saleItems := Map.empty; workReports := Map.empty;
     productCategories :=
       fold_left (fun m c => Map.set (ProductCategory.id c) c m) categories Map.empty;
     products :=
       fold_left (fun m p => Map.set (Product.id p) p m) productsList Map.empty;
     userIdCounter := 1; attendanceIdCounter := 1; saleIdCounter := 1;
     saleItemIdCounter := 1; reportIdCounter := 1;
     categoryIdCounter := Z.of_nat (List.length categories) + 1;
     productIdCounter := Z.of_nat (List.length productsList) + 1 |}.

(** *** User management *)

Definition getUser (id : Z) (this : t) : option User.t :=
  Map.get id (users this).

Definition getUserByUsername (username : string) (this : t) : option User.t :=
  List.find (fun user => String.eqb (User.username user) username)
    (Map.values (users this)).

Definition getUserByEmail (email : string) (this : t) : option User.t :=
  List.find (fun user => String.eqb (User.email user) email)
    (Map.values (users this)).

Definition createUser (now : Z) (insertUser : InsertUser.t) (this : t)
  : User.t * t :=
  let id := userIdCounter this in
  let user :=
    {| User.id := id;
       User.username := InsertUser.username insertUser;
       User.password := InsertUser.password insertUser;
       User.email := InsertUser.email insertUser;
       User.role := InsertUser.role insertUser;
       User.full_name := InsertUser.full_name insertUser;
       User.avatar_url := InsertUser.avatar_url insertUser;
       User.created_at := now |} in
  (user, with_users (Map.set id user (users this)) (id + 1) this).

(** *** Attendance management *)

Definition getAttendanceById (id : Z) (this : t) : option Attendance.t :=
  Map.get id (attendance this).

Definition getAttendanceByUserId (userId page limit : Z) (this : t)
  : list Attendance.t * Z :=
  let records :=
    sort_desc Attendance.check_in
      (List.filter (fun record => Attendance.user_id record =? userId)
         (Map.values (attendance this))) in
  let totalCount := Z.of_nat (List.length records) in
  let startIndex := (page - 1) * limit in
  let paginatedRecords := slice records startIndex (startIndex + limit) in
  (paginatedRecords, totalCount).

Definition getTodayAttendanceByUserId (host : Host.t) (now : Z) (userId : Z)
    (this : t) : option Attendance.t :=
  let today := Host.startOfDay host now in
  let tomorrow := Host.nextDay host today in
  List.find
    (fun record =>
       let checkInDate := Attendance.check_in record in
       (Attendance.user_id record =? userId)
       && (today <=? checkInDate) && (checkInDate <? tomorrow))
    (Map.values (attendance this)).

Definition createAttendance (now : Z) (attendanceData : InsertAttendance.t)
    (this : t) : Attendance.t * t :=
  let id := attendanceIdCounter this in
  let record :=
    {| Attendance.id := id;
       Attendance.user_id := InsertAttendance.user_id attendanceData;
       Attendance.check_in := InsertAttendance.check_in attendanceData;
       Attendance.check_out := InsertAttendance.check_out attendanceData;
       Attendance.note := InsertAttendance.note attendanceData;
       Attendance.location := InsertAttendance.location attendanceData;
       Attendance.created_at := now |} in
  (record, with_attendance (Map.set id record (attendance this)) (id + 1) this).

Definition mergeAttendance (record : Attendance.t) (data : PartialAttendance.t)
  : Attendance.t :=
  {| Attendance.id := Attendance.id record;
     Attendance.user_id := spread (Attendance.user_id record) (PartialAttendance.user_id data);
     Attendance.check_in := spread (Attendance.check_in record) (PartialAttendance.check_in data);
     Attendance.check_out := spread (Attendance.check_out record) (PartialAttendance.check_out data);
     Attendance.note := spread (Attendance.note record) (PartialAttendance.note data);
     Attendance.location := spread (Attendance.location record) (PartialAttendance.location data);
     Attendance.created_at := Attendance.created_at record |}.

Definition updateAttendance (id : Z) (data : PartialAttendance.t) (this : t)
  : completion Attendance.t * t :=
  match Map.get id (attendance this) with
  | None =>
      (Throw ("Attendance record with id " ++ string_of_Z id ++ " not found"), this)
  | Some record =>
      let updated := mergeAttendance record data in
      (Normal updated,
       with_attendance (Map.set id updated (attendance this))
         (attendanceIdCounter this) this)
  end.

(** *** Sales management *)

Definition getSaleById (id : Z) (this : t) : option Sale.t :=
  Map.get id (sales this).

Definition getSalesByUserId (userId page limit : Z) (this : t)
  : list Sale.t * Z :=
  let salesList :=
    sort_desc Sale.created_at
      (List.filter (fun sale => Sale.user_id sale =? userId)
         (Map.values (sales this))) in
  let totalCount := Z.of_nat (List.length salesList) in
  let startIndex := (page - 1) * limit in
  let paginatedSales := slice salesList startIndex (startIndex + limit) in
  (paginatedSales, totalCount).

(** [salesList.reduce((sum, sale) => sum + Number(sale.total_amount), 0)] *)
Definition sumTotalAmount (salesList : list Sale.t) : float :=
  fold_left (fun sum sale => PrimFloat.add sum (Sale.total_amount sale))
    salesList 0%float.

Definition getDailySalesByDate (host : Host.t) (date : Z) (this : t)
  : float * Z :=
  let startDate := Host.startOfDay host date in
  let endDate := Host.endOfDay host date in
  let salesList :=
    List.filter
      (fun sale =>
         let saleDate := Sale.sale_date sale in
         (startDate <=? saleDate) && (saleDate <=? endDate))
      (Map.values (sales this)) in
  let totalSales := sumTotalAmount salesList in
  let transactions := Z.of_nat (List.length salesList) in
  (totalSales, transactions).

(** The invoice number [createSale] generates when none is provided. *)
Definition generatedInvoiceNumber (now : Z) (pool : nat -> Z) : string :=
  let dateStr := remove_hyphens (String_slice (toISOString now) 0 10) in
  "INV-" ++ dateStr ++ "-" ++ toUpperCase (nanoid 6 pool).

Definition createSale (now : Z) (pool : nat -> Z) (saleData : InsertSale.t)
    (this : t) : Sale.t * t :=
  let id := saleIdCounter this in
  let invoice_number :=
    if truthy_opt_string (InsertSale.invoice_number saleData)
    then match InsertSale.invoice_number saleData with
         | Some s => s
         | None => ""
         end
    else generatedInvoiceNumber now pool in
  let sale :=
    {| Sale.id := id;
       Sale.invoice_number := invoice_number;
       Sale.user_id := InsertSale.user_id saleData;
       Sale.customer_name := InsertSale.customer_name saleData;
       Sale.sale_date := InsertSale.sale_date saleData;
       Sale.total_amount := InsertSale.total_amount saleData;
       Sale.tax_amount := InsertSale.tax_amount saleData;
       Sale.discount_amount := InsertSale.discount_amount saleData;
       Sale.payment_method := InsertSale.payment_method saleData;
       Sale.notes := InsertSale.notes saleData;
       Sale.status := InsertSale.status saleData;
       Sale.created_at := now |} in
  (sale, with_sales (Map.set id sale (sales this)) (id + 1) this).

Definition getSaleItemsBySaleId (saleId : Z) (this : t) : list SaleItem.t :=
  match Map.get saleId (saleItems this) with
  | Some items => items
  | None => []
  end.

Definition createSaleItem (now : Z) (saleItem : InsertSaleItem.t) (this : t)
  : SaleItem.t * t :=
  let id := saleItemIdCounter this in
  let item :=
    {| SaleItem.id := id;
       SaleItem.sale_id := InsertSaleItem.sale_id saleItem;
       SaleItem.product_id := InsertSaleItem.product_id saleItem;
       SaleItem.quantity := InsertSaleItem.quantity saleItem;
       SaleItem.unit_price := InsertSaleItem.unit_price saleItem;
       SaleItem.created_at := now |} in
  let saleId := InsertSaleItem.sale_id saleItem in
  let existingItems := getSaleItemsBySaleId saleId this in
  (item,
   with_saleItems (Map.set saleId (existingItems ++ [item]) (saleItems this))
     (id + 1) this).

(** *** Product management *)

Definition getProductById (id : Z) (this : t) : option Product.t :=
  Map.get id (products this).

Definition getProductsByCategory (categoryId : Z) (this : t) : list Product.t :=
  List.filter (fun product => Product.category_id product =? categoryId)
    (Map.values (products this)).

Definition getProductCategories (this : t) : list ProductCategory.t :=
  Map.values (productCategories this).

(** *** Work report management *)

Definition getWorkReportById (id : Z) (this : t) : option WorkReport.t :=
  Map.get id (workReports this).

Definition getWorkReportsByUserId (userId page limit : Z) (this : t)
  : list WorkReport.t * Z :=
  let reports :=
    sort_desc WorkReport.created_at
      (List.filter (fun report => WorkReport.user_id report =? userId)
         (Map.values (workReports this))) in
  let totalCount := Z.of_nat (List.length reports) in
  let startIndex := (page - 1) * limit in
  let paginatedReports := slice reports startIndex (startIndex + limit) in
  (paginatedReports, totalCount).

Definition createWorkReport (now : Z) (reportData : InsertWorkReport.t)
    (this : t) : WorkReport.t * t :=
  let id := reportIdCounter this in
  let report :=
    {| WorkReport.id := id;
       WorkReport.user_id := InsertWorkReport.user_id reportData;
       WorkReport.title := InsertWorkReport.title reportData;
       WorkReport.report_type := InsertWorkReport.report_type reportData;
       WorkReport.department := InsertWorkReport.department reportData;
       WorkReport.tasks := InsertWorkReport.tasks reportData;
       WorkReport.outcomes := InsertWorkReport.outcomes reportData;
       WorkReport.challenges := InsertWorkReport.challenges reportData;
       WorkReport.next_steps := InsertWorkReport.next_steps reportData;
       WorkReport.status := InsertWorkReport.status reportData;
       WorkReport.created_at := now |} in
  (report, with_workReports (Map.set id report (workReports this)) (id + 1) this).

Definition mergeWorkReport (report : WorkReport.t) (data : PartialWorkReport.t)
  : WorkReport.t :=
  {| WorkReport.id := WorkReport.id report;
     WorkReport.user_id := spread (WorkReport.user_id report) (PartialWorkReport.user_id data);
     WorkReport.title := spread (WorkReport.title report) (PartialWorkReport.title data);
     WorkReport.report_type := spread (WorkReport.report_type report) (PartialWorkReport.report_type data);
     WorkReport.department := spread (WorkReport.department report) (PartialWorkReport.department data);
     WorkReport.tasks := spread (WorkReport.tasks report) (PartialWorkReport.tasks data);
     WorkReport.outcomes := spread (WorkReport.outcomes report) (PartialWorkReport.outcomes data);
     WorkReport.challenges := spread (WorkReport.challenges report) (PartialWorkReport.challenges data);
     WorkReport.next_steps := spread (WorkReport.next_steps report) (PartialWorkReport.next_steps data);
     WorkReport.status := spread (WorkReport.status report) (PartialWorkReport.status data);
     WorkReport.created_at := WorkReport.created_at report |}.

Definition updateWorkReport (id : Z) (data : PartialWorkReport.t) (this : t)
  : completion WorkReport.t * t :=
  match Map.get id (workReports this) with
  | None =>
      (Throw ("Work report with id " ++ string_of_Z id ++ " not found"), this)
  | Some report =>
      let updated := mergeWorkReport report data in
      (Normal updated,
       with_workReports (Map.set id updated (workReports this))
         (reportIdCounter this) this)
  end.

End MemStorage.

(** ** [client/src/lib/utils.ts] *)

Module Utils.

(** An argument of type [string | Date], or a missing one. *)
Inductive DateArg : Type :=
| DateObj (ms : Z)
| DateStr (s : string)
| Missing.

Definition truthy (d : DateArg) : bool :=
  match d with
  | DateObj _ => true
  | DateStr s => truthy_string s
  | Missing => false
  end.

(** [typeof d === 'string' ? new Date(d) : d], then [getTime()]:
    [None] is [NaN]. *)
Definition getTime (host : Host.t) (d : DateArg) : option Z :=
  match d with
  | DateObj ms => Some ms
  | DateStr s => Host.Date_parse host s
  | Missing => None
  end.

(** [formatTime], on the [Date | null] values the server passes. *)
Definition formatTime (host : Host.t) (date : option Z) : string :=
  match date with
  | None => ""
  | Some ms => Host.formatTime host ms
  end.

(** The difference of the two time values, the quotients handed to
    [Math.floor] and the remainder are numbers: each is rounded as
    [Number] rounds it. The remainder [%] of two integers is exact. *)
Definition calculateWorkingHours (host : Host.t) (checkIn checkOut : DateArg)
  : string :=
  if negb (truthy checkIn) || negb (truthy checkOut) then "-- hrs -- mins"
  else
    match getTime host checkIn, getTime host checkOut with
    | Some checkInTime, Some checkOutTime =>
        let diffInMs := Number.sub checkOutTime checkInTime in
        let diffInHours := Number.floorDiv diffInMs (1000 * 60 * 60) in
        let diffInMinutes :=
          Number.floorDiv (Z.rem diffInMs (1000 * 60 * 60)) (1000 * 60) in
        (string_of_Z diffInHours ++ " hrs "
           ++ string_of_Z diffInMinutes ++ " mins")%string
    | _, _ => "NaN hrs NaN mins"
    end.

Definition ofOption (d : option Z) : DateArg :=
  match d with Some ms => DateObj ms | None => Missing end.

End Utils.

(** ** [server/routes.ts] *)

Module Routes.

(** [UserProfile]. The handlers read the id back with
    [parseInt(user.id)], the inverse of the [user.id.toString()] of
    [validateSession]: the profile keeps the integer. *)
Module UserProfile.
Record t : Type := {
  id : Z; username : string; role : string;
  avatar_url : option string; full_name : option string;
  email : string }.
End UserProfile.

(** The JSON bodies of the responses. *)
Inductive Body : Type :=
| Message (message : string)
| UserRow (user : User.t)
| Stats (totalSales attendance target workCompleted : string)
| CheckedIn (id : Z) (checkInTime message : string)
| CheckedOut (id : Z) (checkOutTime workingHours message : string)
| SaleRecorded (id : Z) (invoiceNumber : string) (totalAmount : float)
    (message : string)
| ReportSubmitted (id : Z) (title status message : string).

Record Response : Type := { status : Z; json : Body }.

(** The successive values of [new Date()] during one request. *)
Definition Clock : Type := nat -> Z.

(** The text of a [ZodError]; its wording is Zod's and plays no role. *)
Definition zodError : string := "ZodError".

Definition validateSession (host : Host.t) (authorization : option string)
    (storage : MemStorage.t) : option UserProfile.t :=
  match authorization with
  | None => None
  | Some authHeader =>
      if negb (startsWith authHeader "Bearer ") then None
      else
        let token :=
          String.substring 7 (String.length authHeader - 7) authHeader in
        match Host.auth_getUser host token with
        | None => None
        | Some email =>
            match MemStorage.getUserByEmail email storage with
            | None => None
            | Some user =>
                Some {| UserProfile.id := User.id user;
                        UserProfile.username := User.username user;
                        UserProfile.role := User.role user;
                        UserProfile.avatar_url := User.avatar_url user;
                        UserProfile.full_name := User.full_name user;
                        UserProfile.email := User.email user |}
            end
        end
  end.

Definition protectedRoute (host : Host.t)
    (handler : UserProfile.t -> MemStorage.t -> Response * MemStorage.t)
    (authorization : option string) (storage : MemStorage.t)
  : Response * MemStorage.t :=
  match validateSession host authorization storage with
  | None => ({| status := 401; json := Message "Unauthorized access" |}, storage)
  | Some user => handler user storage
  end.

(** *** [POST /api/users] *)

(** The request body, before validation. *)
Module UserBody.
Record t : Type := {
  username : option string; password : option string;
  email : option string; role : option string;
  full_name : option string; avatar_url : option string }.
End UserBody.

(** The [enum] of the [role] column. *)
Definition roleEnum : list string := ["admin"; "karyawan"].

Definition insertUserSchema_parse (body : UserBody.t)
  : completion InsertUser.t :=
  match UserBody.username body, UserBody.password body,
        UserBody.email body, UserBody.role body with
  | Some username, Some password, Some email, Some role =>
      if List.existsb (String.eqb role) roleEnum
      then Normal {| InsertUser.username := username;
                     InsertUser.password := password;
                     InsertUser.email := email;
                     InsertUser.role := role;
                     InsertUser.full_name := UserBody.full_name body;
                     InsertUser.avatar_url := UserBody.avatar_url body |}
      else Throw zodError
  | _, _, _, _ => Throw zodError
  end.

Definition post_users (clock : Clock) (body : UserBody.t)
    (storage : MemStorage.t) : Response * MemStorage.t :=
  match insertUserSchema_parse body with
  | Throw message => ({| status := 400; json := Message message |}, storage)
  | Normal userData =>
      match MemStorage.getUserByEmail (InsertUser.email userData) storage with
      | Some _ =>
          ({| status := 400;
              json := Message "User with this email already exists" |}, storage)
      | None =>
          let (user, storage') :=
            MemStorage.createUser (clock 0%nat) userData storage in
          ({| status := 201; json := UserRow user |}, storage')
      end
  end.

(** *** [GET /api/dashboard/stats] *)

Definition get_dashboard_stats (host : Host.t) (clock : Clock)
    (user : UserProfile.t) (storage : MemStorage.t)
  : Response * MemStorage.t :=
  let today := clock 0%nat in
  let totalSales := fst (MemStorage.getDailySalesByDate host today storage) in
  ({| status := 200;
      json := Stats
        (Host.formatIDR host
           (if truthy_number totalSales then totalSales else 45750000%float))
        "97.8%" "85.2%" "42/50" |}, storage).

(** *** [POST /api/attendance]

    [insertAttendanceSchema.parse] is given an object whose fields have the
    types of the columns, and returns it. *)

Definition checkoutNote (note existing : option string) : option string :=
  match note with
  | Some n =>
      if truthy_string n then
        match existing with
        | Some e => if truthy_string e then Some (e ++ "; " ++ n)%string else Some n
        | None => Some n
        end
      else existing
  | None => existing
  end.

Definition post_attendance (host : Host.t) (clock : Clock)
    (attendanceType : string) (note : option string)
    (user : UserProfile.t) (storage : MemStorage.t)
  : Response * MemStorage.t :=
  let userId := UserProfile.id user in
  if String.eqb attendanceType "checkin" then
    match MemStorage.getTodayAttendanceByUserId host (clock 0%nat) userId storage with
    | Some _ =>
        ({| status := 400; json := Message "Already checked in today" |}, storage)
    | None =>
        let attendanceData :=
          {| InsertAttendance.user_id := userId;
             InsertAttendance.check_in := clock 1%nat;
             InsertAttendance.check_out := None;
             InsertAttendance.location := "Office - Jakarta Headquarters";
             InsertAttendance.note :=
               if truthy_opt_string note then note else None |} in
        let (record, storage') :=
          MemStorage.createAttendance (clock 2%nat) attendanceData storage in
        ({| status := 201;
            json := CheckedIn (Attendance.id record)
                      (Utils.formatTime host (Some (Attendance.check_in record)))
                      "Check-in successful" |}, storage')
    end
  else if String.eqb attendanceType "checkout" then
    match MemStorage.getTodayAttendanceByUserId host (clock 0%nat) userId storage with
    | None =>
        ({| status := 400;
            json := Message "No check-in record found for today" |}, storage)
    | Some existingRecord =>
        match Attendance.check_out existingRecord with
        | Some _ =>
            ({| status := 400; json := Message "Already checked out today" |},
             storage)
        | None =>
            let data :=
              {| PartialAttendance.user_id := None;
                 PartialAttendance.check_in := None;
                 PartialAttendance.location := None;
                 PartialAttendance.check_out := Some (Some (clock 1%nat));
                 PartialAttendance.note :=
                   Some (checkoutNote note (Attendance.note existingRecord)) |} in
            match MemStorage.updateAttendance (Attendance.id existingRecord)
                    data storage with
            | (Throw message, storage') =>
                ({| status := 400; json := Message message |}, storage')
            | (Normal updated, storage') =>
                ({| status := 200;
                    json := CheckedOut (Attendance.id updated)
                      (Utils.formatTime host (Attendance.check_out updated))
                      (Utils.calculateWorkingHours host
                         (Utils.DateObj (Attendance.check_in updated))
                         (Utils.ofOption (Attendance.check_out updated)))
                      "Check-out successful" |}, storage')
            end
        end
    end
  else ({| status := 400; json := Message "Invalid attendance type" |}, storage).


(** *** [POST /api/sales] *)

Module ProductItem.
Record t : Type := { productId : string; quantity : float; price : float }.
End ProductItem.

Module SalesFormData.
Record t : Type := {
  saleDate : string; customerName : string;
  productItems : list ProductItem.t; paymentMethod : string;
  notes : option string }.
End SalesFormData.

(** [productItems.reduce((sum, item) => sum + (item.price * item.quantity), 0)] *)
Definition subtotalOf (productItems : list ProductItem.t) : float :=
  fold_left
    (fun sum item =>
       PrimFloat.add sum
         (PrimFloat.mul (ProductItem.price item) (ProductItem.quantity item)))
    productItems 0%float.

Definition taxAmountOf (subtotal : float) : float :=
  PrimFloat.mul subtotal 0x1.c28f5c28f5c29p-4%float.

Definition discountAmount : float := 0%float.

Definition totalAmountOf (subtotal : float) : float :=
  PrimFloat.sub (PrimFloat.add subtotal (taxAmountOf subtotal)) discountAmount.

(** The invoice number the handler builds from the submitted sale date. *)
Definition invoiceNumberOf (saleDate : string) (pool : nat -> Z) : string :=
  ("INV-" ++ remove_hyphens saleDate ++ "-" ++ toUpperCase (nanoid 6 pool))%string.

(** [insertSaleSchema] and [insertSaleItemSchema] are the
    [createInsertSchema] of drizzle-zod on the tables of [shared/schema.ts].
    It derives the check of a column from its type: a [real] column takes a
    number from -8388608 to 8388607, an [integer] column an integer from
    -2147483648 to 2147483647, a [timestamp] column a valid [Date]; [NaN] and
    the infinities are outside every range. *)
Definition zodReal (x : float) : bool :=
  PrimFloat.leb (-8388608)%float x && PrimFloat.leb x 8388607%float.

(** An [integer] column, on a number known to be an integer. *)
Definition zodInteger (n : Z) : bool := (-2147483648 <=? n) && (n <=? 2147483647).

(** An [integer] column, on any number. *)
Definition zodIntegerNumber (x : float) : bool :=
  Number.isInteger x
  && PrimFloat.leb (-2147483648)%float x && PrimFloat.leb x 2147483647%float.

(** [insertSaleSchema.parse]: [user_id] is an [integer] column, [sale_date]
    a [timestamp], the three amounts are [real]; the other fields are strings
    already. *)
Definition insertSaleSchema_parse (user_id : Z) (invoice_number customer_name : string)
    (sale_date : option Z) (total_amount tax_amount discount_amount : float)
    (payment_method : string) (notes : option string) (status : string)
  : completion InsertSale.t :=
  match sale_date with
  | None => Throw zodError
  | Some sale_date =>
      if zodInteger user_id
         && zodReal total_amount && zodReal tax_amount && zodReal discount_amount
      then Normal {| InsertSale.invoice_number := Some invoice_number;
                     InsertSale.user_id := user_id;
                     InsertSale.customer_name := customer_name;
                     InsertSale.sale_date := sale_date;
                     InsertSale.total_amount := total_amount;
                     InsertSale.tax_amount := tax_amount;
                     InsertSale.discount_amount := discount_amount;
                     InsertSale.payment_method := payment_method;
                     InsertSale.notes := notes;
                     InsertSale.status := status |}
      else Throw zodError
  end.

(** [insertSaleItemSchema.parse]: [sale_id], [product_id] and [quantity]
    are [integer] columns, [unit_price] is [real]. *)
Definition insertSaleItemSchema_parse (sale_id : Z) (product_id : option Z)
    (quantity unit_price : float) : completion InsertSaleItem.t :=
  match product_id with
  | None => Throw zodError
  | Some product_id =>
      if zodInteger sale_id && zodInteger product_id
         && zodIntegerNumber quantity && zodReal unit_price
      then Normal {| InsertSaleItem.sale_id := sale_id;
                     InsertSaleItem.product_id := product_id;
                     InsertSaleItem.quantity := quantity;
                     InsertSaleItem.unit_price := unit_price |}
      else Throw zodError
  end.

(** [productItems.map(item => ...createSaleItem(...))]: the items are
    validated and stored in order; the first invalid one throws and leaves
    the earlier ones stored. [n] counts the clock readings made so far. *)
Fixpoint createSaleItems (host : Host.t) (clock : Clock) (n : nat)
    (saleId : Z) (productItems : list ProductItem.t) (storage : MemStorage.t)
  : completion unit * MemStorage.t :=
  match productItems with
  | [] => (Normal tt, storage)
  | item :: rest =>
      match insertSaleItemSchema_parse saleId
              (Host.parseInt host (ProductItem.productId item))
              (ProductItem.quantity item) (ProductItem.price item) with
      | Throw message => (Throw message, storage)
      | Normal saleItemData =>
          let (_, storage') :=
            MemStorage.createSaleItem (clock n) saleItemData storage in
          createSaleItems host clock (S n) saleId rest storage'
      end
  end.

Definition post_sales (host : Host.t) (clock : Clock) (pool : nat -> Z)
    (body : SalesFormData.t) (user : UserProfile.t) (storage : MemStorage.t)
  : Response * MemStorage.t :=
  let productItems := SalesFormData.productItems body in
  let saleDate := SalesFormData.saleDate body in
  let userId := UserProfile.id user in
  let subtotal := subtotalOf productItems in
  let taxAmount := taxAmountOf subtotal in
  let totalAmount := totalAmountOf subtotal in
  match insertSaleSchema_parse userId (invoiceNumberOf saleDate pool)
          (SalesFormData.customerName body) (Host.Date_parse host saleDate)
          totalAmount taxAmount discountAmount
          (SalesFormData.paymentMethod body)
          (if truthy_opt_string (SalesFormData.notes body)
           then SalesFormData.notes body else None)
          "completed" with
  | Throw message => ({| status := 400; json := Message message |}, storage)
  | Normal saleData =>
      let (sale, storage1) :=
        MemStorage.createSale (clock 0%nat) (fun i => pool (6 + i)%nat)
          saleData storage in
      match createSaleItems host clock 1 (Sale.id sale) productItems storage1 with
      | (Throw message, storage2) =>
          ({| status := 400; json := Message message |}, storage2)
      | (Normal _, storage2) =>
          ({| status := 201;
              json := SaleRecorded (Sale.id sale) (Sale.invoice_number sale)
                        totalAmount "Sale recorded successfully" |}, storage2)
      end
  end.

(** *** [POST /api/reports]

    As for attendance, [insertWorkReportSchema.parse] returns the object it
    is given: the fields are strings and the status is in the enum. *)

Module WorkReportFormData.
Record t : Type := {
  title : string; reportType : string; department : string;
  tasks : string; outcomes : string;
  challenges : option string; nextSteps : option string }.
End WorkReportFormData.

Definition post_reports (clock : Clock) (body : WorkReportFormData.t)
    (user : UserProfile.t) (storage : MemStorage.t)
  : Response * MemStorage.t :=
  let reportData :=
    {| InsertWorkReport.user_id := UserProfile.id user;
       InsertWorkReport.title := WorkReportFormData.title body;
       InsertWorkReport.report_type := WorkReportFormData.reportType body;
       InsertWorkReport.department := WorkReportFormData.department body;
       InsertWorkReport.tasks := WorkReportFormData.tasks body;
       InsertWorkReport.outcomes := WorkReportFormData.outcomes body;
       InsertWorkReport.challenges :=
         if truthy_opt_string (WorkReportFormData.challenges body)
         then WorkReportFormData.challenges body else None;
       InsertWorkReport.next_steps :=
         if truthy_opt_string (WorkReportFormData.nextSteps body)
         then WorkReportFormData.nextSteps body else None;
       InsertWorkReport.status := "submitted" |} in
  let (report, storage') :=
    MemStorage.createWorkReport (clock 0%nat) reportData storage in
  ({| status := 201;
      json := ReportSubmitted (WorkReport.id report) (WorkReport.title report)
                (WorkReport.status report)
                "Work report submitted successfully" |}, storage').

(** *** The server as a transition system *)

Inductive Request : Type :=
| PostUsers (body : UserBody.t)
| GetDashboardStats (authorization : option string)
| PostAttendance (authorization : option string)
    (attendanceType : string) (note : option string)
| PostSales (authorization : option string) (body : SalesFormData.t)
| PostReports (authorization : option string) (body : WorkReportFormData.t).

Definition serve (host : Host.t) (clock : Clock) (pool : nat -> Z)
    (request : Request) (storage : MemStorage.t) : Response * MemStorage.t :=
  match request with
  | PostUsers body => post_users clock body storage
  | GetDashboardStats authorization =>
      protectedRoute host (get_dashboard_stats host clock) authorization storage
  | PostAttendance authorization attendanceType note =>
      protectedRoute host (post_attendance host clock attendanceType note)
        authorization storage
  | PostSales authorization body =>
      protectedRoute host (post_sales host clock pool body) authorization storage
  | PostReports authorization body =>
      protectedRoute host (post_reports clock body) authorization storage
  end.

(** The stores the server can be in: the freshly constructed one and every
    store a request leaves behind. *)
Inductive served (host : Host.t) : MemStorage.t -> Prop :=
| served_new (now : Z) : served host (MemStorage.new now)
| served_step (storage : MemStorage.t) (clock : Clock) (pool : nat -> Z)
    (request : Request) :
    served host storage ->
    served host (snd (serve host clock pool request storage)).

End Routes.

(** ** [class SupabaseStorage implements IStorage]

    The constructor keeps [drizzle(supabase)], with [drizzle] that of
    [drizzle-orm/neon-serverless] and [supabase] the client
    [server/supabase.ts] creates with supabase-js. The driver runs a query
    through the [query] method of the client it was given, and the
    supabase-js client has none: awaiting a query throws a [TypeError], for
    every query. The object holds the connection and no row; [server/storage.ts]
    exports [new MemStorage()] and does not construct this class. *)

Module SupabaseStorage.

(** [{ connection: { db } }] *)
Definition t : Type := unit.

Definition new : t := tt.

(** [await] on a query built from [this.connection.db]. *)
Definition await {A : Type} : completion A := Throw "client.query is not a function".

(** [db.update(table).set(data)] throws before there is a query when [data]
    has no value to set. *)
Definition set {A : Type} (noValues : bool) : completion A :=
  if noValues then Throw "No values to set" else await.

Definition getUser (id : Z) (this : t) : completion (option User.t) * t :=
  (await, this).

Definition getUserByUsername (username : string) (this : t)
  : completion (option User.t) * t := (await, this).

Definition getUserByEmail (email : string) (this : t)
  : completion (option User.t) * t := (await, this).

Definition createUser (user : InsertUser.t) (this : t)
  : completion (option User.t) * t := (await, this).

Definition getAttendanceById (id : Z) (this : t)
  : completion (option Attendance.t) * t := (await, this).

(** The page of records is awaited first, the count after it. *)
Definition getAttendanceByUserId (userId page limit : Z) (this : t)
  : completion (list Attendance.t * Z) * t :=
  let offset := (page - 1) * limit in
  (await, this).

Definition getTodayAttendanceByUserId (host : Host.t) (now userId : Z) (this : t)
  : completion (option Attendance.t) * t :=
  let today := Host.startOfDay host now in
  let tomorrow := Host.nextDay host today in
  (await, this).

Definition createAttendance (attendanceData : InsertAttendance.t) (this : t)
  : completion (option Attendance.t) * t := (await, this).

Definition noAttendanceValues (data : PartialAttendance.t) : bool :=
  match PartialAttendance.user_id data, PartialAttendance.check_in data,
        PartialAttendance.check_out data, PartialAttendance.note data,
        PartialAttendance.location data with
  | None, None, None, None, None => true
  | _, _, _, _, _ => false
  end.

Definition updateAttendance (id : Z) (data : PartialAttendance.t) (this : t)
  : completion (option Attendance.t) * t :=
  (set (noAttendanceValues data), this).

Definition getSaleById (id : Z) (this : t) : completion (option Sale.t) * t :=
  (await, this).

Definition getSalesByUserId (userId page limit : Z) (this : t)
  : completion (list Sale.t * Z) * t :=
  let offset := (page - 1) * limit in
  (await, this).

Definition getDailySalesByDate (host : Host.t) (date : Z) (this : t)
  : completion (float * Z) * t :=
  let startDate := Host.startOfDay host date in
  let endDate := Host.endOfDay host date in
  (await, this).

(** The invoice number is written into [saleData] before the insert is
    awaited. *)
Definition createSale (now : Z) (pool : nat -> Z) (sale : InsertSale.t) (this : t)
  : completion (option Sale.t) * t :=
  let invoice_number :=
    if truthy_opt_string (InsertSale.invoice_number sale)
    then InsertSale.invoice_number sale
    else Some (MemStorage.generatedInvoiceNumber now pool) in
  (await, this).

Definition createSaleItem (saleItem : InsertSaleItem.t) (this : t)
  : completion (option SaleItem.t) * t := (await, this).

Definition getSaleItemsBySaleId (saleId : Z) (this : t)
  : completion (list SaleItem.t) * t := (await, this).

Definition getProductById (id : Z) (this : t) : completion (option Product.t) * t :=
  (await, this).

Definition getProductsByCategory (categoryId : Z) (this : t)
  : completion (list Product.t) * t := (await, this).

Definition getProductCategories (this : t)
  : completion (list ProductCategory.t) * t := (await, this).

Definition getWorkReportById (id : Z) (this : t)
  : completion (option WorkReport.t) * t := (await, this).

Definition getWorkReportsByUserId (userId page limit : Z) (this : t)
  : completion (list WorkReport.t * Z) * t :=
  let offset := (page - 1) * limit in
  (await, this).

Definition createWorkReport (report : InsertWorkReport.t) (this : t)
  : completion (option WorkReport.t) * t := (await, this).

Definition noWorkReportValues (data : PartialWorkReport.t) : bool :=
  match PartialWorkReport.user_id data, PartialWorkReport.title data,
        PartialWorkReport.report_type data, PartialWorkReport.department data,
        PartialWorkReport.tasks data, PartialWorkReport.outcomes data,
        PartialWorkReport.challenges data, PartialWorkReport.next_steps data,
        PartialWorkReport.status data with
  | None, None, None, None, None, None, None, None, None => true
  | _, _, _, _, _, _, _, _, _ => false
  end.

Definition updateWorkReport (id : Z) (data : PartialWorkReport.t) (this : t)
  : completion (option WorkReport.t) * t :=
  (set (noWorkReportValues data), this).

End SupabaseStorage.

(** ** [interface IStorage]

    The calls of the interface and what their promise settles to, on each of
    the two classes that implement it. *)

Module IStorage.

Inductive Call : Type :=
| getUser (id : Z)
| getUserByUsername (username : string)
| getUserByEmail (email : string)
| createUser (user : InsertUser.t)
| getAttendanceById (id : Z)
| getAttendanceByUserId (userId page limit : Z)
| getTodayAttendanceByUserId (userId : Z)
| createAttendance (attendance : InsertAttendance.t)
| updateAttendance (id : Z) (data : PartialAttendance.t)
| getSaleById (id : Z)
| getSalesByUserId (userId page limit : Z)
| getDailySalesByDate (date : Z)
| createSale (sale : InsertSale.t)
| createSaleItem (saleItem : InsertSaleItem.t)
| getSaleItemsBySaleId (saleId : Z)
| getProductById (id : Z)
| getProductsByCategory (categoryId : Z)
| getProductCategories
| getWorkReportById (id : Z)
| getWorkReportsByUserId (userId page limit : Z)
| createWorkReport (report : InsertWorkReport.t)
| updateWorkReport (id : Z) (data : PartialWorkReport.t).

Inductive Value : Type :=
| AUser (user : option User.t)
| AnAttendance (record : option Attendance.t)
| AttendancePage (records : list Attendance.t) (totalCount : Z)
| ASale (sale : option Sale.t)
| SalesPage (sales : list Sale.t) (totalCount : Z)
| DailySales (totalSales : float) (transactions : Z)
| ASaleItem (item : option SaleItem.t)
| SaleItems (items : list SaleItem.t)
| AProduct (product : option Product.t)
| Products (products : list Product.t)
| Categories (categories : list ProductCategory.t)
| AWorkReport (report : option WorkReport.t)
| WorkReportsPage (reports : list WorkReport.t) (totalCount : Z).

(** A settled promise. *)
Definition Settled : Type := completion Value.

Definition settle {A : Type} (v : A -> Value) (c : completion A) : Settled :=
  match c with
  | Normal a => Normal (v a)
  | Throw e => Throw e
  end.

(** [now] is the value of [new Date()] during the call, [pool] the random
    pool [nanoid] draws from. *)
Definition onMemStorage (host : Host.t) (now : Z) (pool : nat -> Z)
    (call : Call) (this : MemStorage.t) : Settled * MemStorage.t :=
  match call with
  | getUser id => (Normal (AUser (MemStorage.getUser id this)), this)
  | getUserByUsername username =>
      (Normal (AUser (MemStorage.getUserByUsername username this)), this)
  | getUserByEmail email =>
      (Normal (AUser (MemStorage.getUserByEmail email this)), this)
  | createUser user =>
      let (u, this') := MemStorage.createUser now user this in
      (Normal (AUser (Some u)), this')
  | getAttendanceById id =>
      (Normal (AnAttendance (MemStorage.getAttendanceById id this)), this)
  | getAttendanceByUserId userId page limit =>
      let (records, totalCount) :=
        MemStorage.getAttendanceByUserId userId page limit this in
      (Normal (AttendancePage records totalCount), this)
  | getTodayAttendanceByUserId userId =>
      (Normal (AnAttendance
                 (MemStorage.getTodayAttendanceByUserId host now userId this)),
       this)
  | createAttendance data =>
      let (a, this') := MemStorage.createAttendance now data this in
      (Normal (AnAttendance (Some a)), this')
  | updateAttendance id data =>
      let (r, this') := MemStorage.updateAttendance id data this in
      (settle (fun a => AnAttendance (Some a)) r, this')
  | getSaleById id => (Normal (ASale (MemStorage.getSaleById id this)), this)
  | getSalesByUserId userId page limit =>
      let (sales, totalCount) :=
        MemStorage.getSalesByUserId userId page limit this in
      (Normal (SalesPage sales totalCount), this)
  | getDailySalesByDate date =>
      let (totalSales, transactions) :=
        MemStorage.getDailySalesByDate host date this in
      (Normal (DailySales totalSales transactions), this)
  | createSale sale =>
      let (s, this') := MemStorage.createSale now pool sale this in
      (Normal (ASale (Some s)), this')
  | createSaleItem saleItem =>
      let (i, this') := MemStorage.createSaleItem now saleItem this in
      (Normal (ASaleItem (Some i)), this')
  | getSaleItemsBySaleId saleId =>
      (Normal (SaleItems (MemStorage.getSaleItemsBySaleId saleId this)), this)
  | getProductById id =>
      (Normal (AProduct (MemStorage.getProductById id this)), this)
  | getProductsByCategory categoryId =>
      (Normal (Products (MemStorage.getProductsByCategory categoryId this)), this)
  | getProductCategories =>
      (Normal (Categories (MemStorage.getProductCategories this)), this)
  | getWorkReportById id =>
      (Normal (AWorkReport (MemStorage.getWorkReportById id this)), this)
  | getWorkReportsByUserId userId page limit =>
      let (reports, totalCount) :=
        MemStorage.getWorkReportsByUserId userId page limit this in
      (Normal (WorkReportsPage reports totalCount), this)
  | createWorkReport report =>
      let (r, this') := MemStorage.createWorkReport now report this in
      (Normal (AWorkReport (Some r)), this')
  | updateWorkReport id data =>
      let (r, this') := MemStorage.updateWorkReport id data this in
      (settle (fun r => AWorkReport (Some r)) r, this')
  end.

Definition onSupabaseStorage (host : Host.t) (now : Z) (pool : nat -> Z)
    (call : Call) (this : SupabaseStorage.t) : Settled * SupabaseStorage.t :=
  match call with
  | getUser id =>
      let (r, this') := SupabaseStorage.getUser id this in (settle AUser r, this')
  | getUserByUsername username =>
      let (r, this') := SupabaseStorage.getUserByUsername username this in
      (settle AUser r, this')
  | getUserByEmail email =>
      let (r, this') := SupabaseStorage.getUserByEmail email this in
      (settle AUser r, this')
  | createUser user =>
      let (r, this') := SupabaseStorage.createUser user this in
      (settle AUser r, this')
  | getAttendanceById id =>
      let (r, this') := SupabaseStorage.getAttendanceById id this in
      (settle AnAttendance r, this')
  | getAttendanceByUserId userId page limit =>
      let (r, this') := SupabaseStorage.getAttendanceByUserId userId page limit this in
      (settle (fun p => AttendancePage (fst p) (snd p)) r, this')
  | getTodayAttendanceByUserId userId =>
      let (r, this') :=
        SupabaseStorage.getTodayAttendanceByUserId host now userId this in
      (settle AnAttendance r, this')
  | createAttendance data =>
      let (r, this') := SupabaseStorage.createAttendance data this in
      (settle AnAttendance r, this')
  | updateAttendance id data =>
      let (r, this') := SupabaseStorage.updateAttendance id data this in
      (settle AnAttendance r, this')
  | getSaleById id =>
      let (r, this') := SupabaseStorage.getSaleById id this in (settle ASale r, this')
  | getSalesByUserId userId page limit =>
      let (r, this') := SupabaseStorage.getSalesByUserId userId page limit this in
      (settle (fun p => SalesPage (fst p) (snd p)) r, this')
  | getDailySalesByDate date =>
      let (r, this') := SupabaseStorage.getDailySalesByDate host date this in
      (settle (fun p => DailySales (fst p) (snd p)) r, this')
  | createSale sale =>
      let (r, this') := SupabaseStorage.createSale now pool sale this in
      (settle ASale r, this')
  | createSaleItem saleItem =>
      let (r, this') := SupabaseStorage.createSaleItem saleItem this in
      (settle ASaleItem r, this')
  | getSaleItemsBySaleId saleId =>
      let (r, this') := SupabaseStorage.getSaleItemsBySaleId saleId this in
      (settle SaleItems r, this')
  | getProductById id =>
      let (r, this') := SupabaseStorage.getProductById id this in
      (settle AProduct r, this')
  | getProductsByCategory categoryId =>
      let (r, this') := SupabaseStorage.getProductsByCategory categoryId this in
      (settle Products r, this')
  | getProductCategories =>
      let (r, this') := SupabaseStorage.getProductCategories this in
      (settle Categories r, this')
  | getWorkReportById id =>
      let (r, this') := SupabaseStorage.getWorkReportById id this in
      (settle AWorkReport r, this')
  | getWorkReportsByUserId userId page limit =>
      let (r, this') := SupabaseStorage.getWorkReportsByUserId userId page limit this in
      (settle (fun p => WorkReportsPage (fst p) (snd p)) r, this')
  | createWorkReport report =>
      let (r, this') := SupabaseStorage.createWorkReport report this in
      (settle AWorkReport r, this')
  | updateWorkReport id data =>
      let (r, this') := SupabaseStorage.updateWorkReport id data this in
      (settle AWorkReport r, this')
  end.

End IStorage.

(** ** What the specification says, in its own words *)

Module Spec.

(** [records[a : b]], the sub-list from index [a] up to index [b], with the
    usual reading of a bound outside [0 .. N]: a negative bound counts from
    the end, and both are clamped to the list. *)
Definition bound (N i : Z) : Z :=
  Z.max 0 (Z.min N (if i <? 0 then N + i else i)).

Definition range {A : Type} (records : list A) (a b : Z) : list A :=
  let N := Z.of_nat (List.length records) in
  firstn (Z.to_nat (bound N b - bound N a)) (skipn (Z.to_nat (bound N a)) records).

(** The answer to a paginated list request: [mine] are the user's records,
    [key] the primary timestamp. *)
Definition page {A : Type} (key : A -> Z) (mine : list A) (p l : Z)
    (records : list A) (totalCount : Z) : Prop :=
  let N := Z.of_nat (List.length mine) in
  exists sorted : list A,
    Permutation sorted mine
    /\ StronglySorted (fun a b => key a >= key b) sorted
    /\ totalCount = N
    /\ records = range sorted ((p - 1) * l) (Z.min N (p * l))
    /\ (1 <= p -> 0 <= l ->
        records = firstn (Z.to_nat (Z.min N (p * l) - (p - 1) * l))
                    (skipn (Z.to_nat ((p - 1) * l)) sorted)).

(** [INV-\d{8}-[A-Z0-9]{6}], matched against the whole string. *)
Definition isDigit (c : ascii) : bool :=
  let n := nat_of_ascii c in ((48 <=? n) && (n <=? 57))%nat.

Definition isUpper (c : ascii) : bool :=
  let n := nat_of_ascii c in ((65 <=? n) && (n <=? 90))%nat.

Definition invoiceShape (suffixChar : ascii -> bool) (s : string) : bool :=
  let cs := list_ascii_of_string s in
  String.eqb (string_of_list_ascii (firstn 4 cs)) "INV-"
  && (List.length cs =? 19)%nat
  && List.forallb isDigit (firstn 8 (skipn 4 cs))
  && List.forallb (Ascii.eqb "-") (firstn 1 (skipn 12 cs))
  && List.forallb suffixChar (skipn 13 cs).

Definition invoicePattern : string -> bool :=
  invoiceShape (fun c => isUpper c || isDigit c).

(** [INV-\d{8}-[A-Z0-9_-]{6}] *)
Definition urlSuffixChar (c : ascii) : bool :=
  isUpper c || isDigit c || Ascii.eqb c "_" || Ascii.eqb c "-".

Definition invoicePatternUrl : string -> bool := invoiceShape urlSuffixChar.

(** A note that is absent or empty is not provided. *)
Definition provided (s : option string) : option string :=
  match s with
  | Some EmptyString => None
  | other => other
  end.

(** The note of a record after check-out: the provided note appended to the
    existing one, joined with "; ". *)
Definition joinedNote (existing note : option string) : option string :=
  match provided note, provided existing with
  | Some n, Some e => Some (e ++ "; " ++ n)%string
  | Some n, None => Some n
  | None, _ => existing
  end.

(** [\d{4}-\d{2}-\d{2}], the form of the sale date the client submits. *)
Definition isoDate (s : string) : bool :=
  match list_ascii_of_string s with
  | [y1; y2; y3; y4; h1; m1; m2; h2; d1; d2] =>
      List.forallb isDigit [y1; y2; y3; y4; m1; m2; d1; d2]
      && Ascii.eqb h1 "-" && Ascii.eqb h2 "-"
  | _ => false
  end.

(** The sum of a list of amounts, added one after the other from the first
    on: the sum of [l ++ [x]] is the sum of [l], plus [x]. *)
Fixpoint sumBackwards (l : list float) : float :=
  match l with
  | [] => 0%float
  | x :: rest => PrimFloat.add (sumBackwards rest) x
  end.

Definition sumOf (l : list float) : float := sumBackwards (List.rev l).

(** The moment [t] is in the day of [day]. *)
Definition during (host : Host.t) (day t : Z) : bool :=
  (Host.startOfDay host day <=? t) && (t <=? Host.endOfDay host day).

(** "H hrs M mins" for a difference of [d] milliseconds: H is [d] divided
    by 3,600,000 and M the remainder divided by 60,000, both rounded
    down. *)
Definition workingHours (d : Z) : string :=
  (string_of_Z (d / 3600000) ++ " hrs "
     ++ string_of_Z (d mod 3600000 / 60000) ++ " mins")%string.

(** A not-found error: its message ends with " not found". *)
Fixpoint endsWith (ending s : string) : bool :=
  String.eqb s ending
  || match s with
     | EmptyString => false
     | String _ rest => endsWith ending rest
     end.

Definition notFound (message : string) : bool := endsWith " not found" message.

(** The call is an update of an id under which [this] has no record. *)
Definition updatesNoRecord (call : IStorage.Call) (this : MemStorage.t) : bool :=
  match call with
  | IStorage.updateAttendance id _ =>
      match Map.get id (MemStorage.attendance this) with Some _ => false | None => true end
  | IStorage.updateWorkReport id _ =>
      match Map.get id (MemStorage.workReports this) with Some _ => false | None => true end
  | _ => false
  end.


End Spec.

(** ** The maps the [create] methods fill *)

Module Corresponds.

(** A [Map] filled by a [create] method: every row sits under its own id,
    once, below the counter. *)
Definition keyed {V : Type} (id : V -> Z) (m : Map.t V) (counter : Z) : Prop :=
  Map.keys m = List.map id (Map.values m)
  /\ NoDup (Map.keys m)
  /\ Forall (fun k => k < counter) (Map.keys m).

End Corresponds.

(** ** A host, a clock and requests to run the definitions on *)

Module Fixture.

(** A server in UTC that knows one date and one token. *)
Definition host : Host.t :=
  {| Host.startOfDay := fun t => t - t mod 86400000;
     Host.nextDay := fun t => t + 86400000;
     Host.endOfDay := fun t => t - t mod 86400000 + 86399999;
     Host.Date_parse := fun s =>
       if String.eqb s "2024-01-15" then Some 1705276800000 else None;
     Host.parseInt := fun s =>
       if String.eqb s "1" then Some 1
       else if String.eqb s "4" then Some 4 else None;
     Host.formatTime := fun t =>
       (string_of_Z (t mod 86400000 / 3600000) ++ ":"
          ++ string_of_Z (t mod 3600000 / 60000))%string;
     Host.formatDate := fun t => string_of_Z (t / 86400000);
     Host.formatIDR := fun x => if PrimFloat.eqb x 45750000 then "Rp 45.750.000" else "Rp";
     Host.auth_getUser := fun token =>
       if String.eqb token "token-of-sari" then Some "sari@example.com" else None |}.

(** 2024-01-15T09:00:00Z and one second per reading. *)
Definition clock : Routes.Clock := fun n => 1705309200000 + 1000 * Z.of_nat n.

(** The same day at 17:30:00Z. *)
Definition evening : Routes.Clock := fun n => 1705339800000 + 1000 * Z.of_nat n.

Definition pool : nat -> Z := fun n => Z.of_nat n + 24.

Definition sari : Routes.UserBody.t :=
  {| Routes.UserBody.username := Some "sari";
     Routes.UserBody.password := Some "secret";
     Routes.UserBody.email := Some "sari@example.com";
     Routes.UserBody.role := Some "karyawan";
     Routes.UserBody.full_name := Some "Sari Dewi";
     Routes.UserBody.avatar_url := None |}.

Definition bearer : option string := Some "Bearer token-of-sari".

(** The store after the server started and [sari] registered. *)
Definition registered : MemStorage.t :=
  snd (Routes.serve host clock pool (Routes.PostUsers sari)
         (MemStorage.new 1705300000000)).

(** ... and after she checked in at 09:00. *)
Definition checkedIn : MemStorage.t :=
  snd (Routes.serve host clock pool
         (Routes.PostAttendance bearer "checkin" (Some "on site")) registered).

Definition sale : Routes.SalesFormData.t :=
  {| Routes.SalesFormData.saleDate := "2024-01-15";
     Routes.SalesFormData.customerName := "PT Maju";
     Routes.SalesFormData.productItems :=
       [ {| Routes.ProductItem.productId := "1";
            Routes.ProductItem.quantity := 2; Routes.ProductItem.price := 100 |};
         {| Routes.ProductItem.productId := "4";
            Routes.ProductItem.quantity := 1; Routes.ProductItem.price := 50 |} ];
     Routes.SalesFormData.paymentMethod := "cash";
     Routes.SalesFormData.notes := None |}.

End Fixture.

(** ** The handlers of [server/routes.ts] that only read *)

Module Reads.

(** The body [GET /api/attendance/today] answers with. *)
Module Today.
Record t : Type := {
  checkInTime : option string; checkOutTime : option string;
  workingHours : option string; status : string }.
End Today.

Definition get_attendance_today (host : Host.t) (clock : Routes.Clock)
    (user : Routes.UserProfile.t) (storage : MemStorage.t) : Today.t :=
  let userId := Routes.UserProfile.id user in
  match MemStorage.getTodayAttendanceByUserId host (clock 0%nat) userId storage with
  | None =>
      {| Today.checkInTime := None; Today.checkOutTime := None;
         Today.workingHours := None; Today.status := "Not Started" |}
  | Some record =>
      {| Today.checkInTime :=
           Some (Utils.formatTime host (Some (Attendance.check_in record)));
         Today.checkOutTime :=
           match Attendance.check_out record with
           | Some t => Some (Utils.formatTime host (Some t))
           | None => None
           end;
         Today.workingHours :=
           match Attendance.check_out record with
           | Some t =>
               Some (Utils.calculateWorkingHours host
                       (Utils.DateObj (Attendance.check_in record)) (Utils.DateObj t))
           | None => None
           end;
         Today.status :=
           match Attendance.check_out record with
           | Some _ => "Completed"
           | None => "In Progress"
           end |}
  end.

End Reads.

(** ** [client/src/pages/sales.tsx] *)

Module SalesPage.

Module Summary.
Record t : Type := { subtotal : float; tax : float; discount : float; total : float }.
End Summary.

(** [calculateSummary]; [None] is the [undefined] the form gives before it
    has items. *)
Definition calculateSummary (watchProductItems : option (list Routes.ProductItem.t))
  : Summary.t :=
  match watchProductItems with
  | None | Some [] =>
      {| Summary.subtotal := 0; Summary.tax := 0;
         Summary.discount := 0; Summary.total := 0 |}
  | Some items =>
      let subtotal :=
        fold_left
          (fun sum item =>
             PrimFloat.add sum
               (PrimFloat.mul (Routes.ProductItem.price item)
                  (Routes.ProductItem.quantity item)))
          items 0%float in
      let tax := PrimFloat.mul subtotal 0x1.c28f5c28f5c29p-4%float in
      let discount := 0%float in
      let total := PrimFloat.sub (PrimFloat.add subtotal tax) discount in
      {| Summary.subtotal := subtotal; Summary.tax := tax;
         Summary.discount := discount; Summary.total := total |}
  end.

End SalesPage.

(** ** [client/src/components/tables/DataTablePagination.tsx]

    The counts are integers below 2^53, and the page size is not 0, so that
    [Math.ceil(totalItems / pageSize)] is the integer ceiling. *)

Module DataTablePagination.

Definition totalPages (totalItems pageSize : Z) : Z := - (- totalItems / pageSize).

Definition startItem (currentPage pageSize : Z) : Z := (currentPage - 1) * pageSize + 1.

Definition endItem (totalItems currentPage pageSize : Z) : Z :=
  Z.min (currentPage * pageSize) totalItems.

(** An entry of the page bar: a page number or ['...']. *)
Inductive Entry : Type :=
| Page (n : Z)
| Ellipsis.

(** [for (let i = start; i <= end; i++) pages.push(i)] *)
Definition pagesFromTo (start end_ : Z) : list Entry :=
  List.map (fun k => Page (start + Z.of_nat k))
    (List.seq 0 (Z.to_nat (end_ - start + 1))).

Definition getPageNumbers (totalPages currentPage : Z) : list Entry :=
  let start := Z.max 2 (currentPage - 1) in
  let end_ := Z.min (totalPages - 1) (currentPage + 1) in
  [Page 1]
  ++ (if 2 <? start then [Ellipsis] else [])
  ++ pagesFromTo start end_
  ++ (if end_ <? totalPages - 1 then [Ellipsis] else [])
  ++ (if 1 <? totalPages then [Page totalPages] else []).

(** What the Previous and Next buttons pass to [onPageChange]. *)
Definition previousPage (currentPage : Z) : Z := Z.max 1 (currentPage - 1).

Definition nextPage (totalPages currentPage : Z) : Z :=
  Z.min totalPages (currentPage + 1).

End DataTablePagination.

(** ** The stores [MemStorage] can be in *)

Module Invariant.

(** Every row of the four keyed maps sits under its own id, once, below the
    counter of its map. *)
Definition wellKeyed (this : MemStorage.t) : Prop :=
  Corresponds.keyed User.id (MemStorage.users this) (MemStorage.userIdCounter this)
  /\ Corresponds.keyed Attendance.id (MemStorage.attendance this)
       (MemStorage.attendanceIdCounter this)
  /\ Corresponds.keyed Sale.id (MemStorage.sales this) (MemStorage.saleIdCounter this)
  /\ Corresponds.keyed WorkReport.id (MemStorage.workReports this)
       (MemStorage.reportIdCounter this).

(** The freshly constructed store, and what a call of the interface or a
    request to the server leaves behind. *)
Inductive reachable (host : Host.t) : MemStorage.t -> Prop :=
| reachable_new (now : Z) : reachable host (MemStorage.new now)
| reachable_call (this : MemStorage.t) (now : Z) (pool : nat -> Z)
    (call : IStorage.Call) :
    reachable host this ->
    reachable host (snd (IStorage.onMemStorage host now pool call this))
| reachable_request (this : MemStorage.t) (clock : Routes.Clock) (pool : nat -> Z)
    (request : Routes.Request) :
    reachable host this ->
    reachable host (snd (Routes.serve host clock pool request this)).

(** The items are grouped under the ids of sales that exist. *)
Definition itemsOfSales (this : MemStorage.t) : Prop :=
  Forall (fun k => k < MemStorage.saleIdCounter this)
    (Map.keys (MemStorage.saleItems this)).

(** No two users share an e-mail address. *)
Definition emailsDistinct (this : MemStorage.t) : Prop :=
  NoDup (List.map User.email (Map.values (MemStorage.users this))).

(** A product item that [insertSaleItemSchema.parse] accepts for the sale
    [saleId]: its product id is a number, the ids and the quantity are
    integers of the [integer] columns, the price is in the range of a [real]
    column. *)
Definition validItem (host : Host.t) (saleId : Z) (item : Routes.ProductItem.t)
  : bool :=
  match Host.parseInt host (Routes.ProductItem.productId item) with
  | Some productId =>
      Routes.zodInteger saleId && Routes.zodInteger productId
      && Routes.zodIntegerNumber (Routes.ProductItem.quantity item)
      && Routes.zodReal (Routes.ProductItem.price item)
  | None => false
  end.

(** What is kept of a product item: the product, the quantity, the price. *)
Definition submitted (host : Host.t) (item : Routes.ProductItem.t)
  : option Z * float * float :=
  (Host.parseInt host (Routes.ProductItem.productId item),
   Routes.ProductItem.quantity item, Routes.ProductItem.price item).

Definition stored (item : SaleItem.t) : option Z * float * float :=
  (Some (SaleItem.product_id item), SaleItem.quantity item, SaleItem.unit_price item).

(** The product items that are stored: those before the first one that
    [insertSaleItemSchema.parse] refuses. *)
Fixpoint accepted (host : Host.t) (saleId : Z) (items : list Routes.ProductItem.t)
  : list Routes.ProductItem.t :=
  match items with
  | [] => []
  | item :: rest =>
      if validItem host saleId item then item :: accepted host saleId rest else []
  end.

(** The subtotal of stored items, summed as the handler sums the submitted
    ones. *)
Definition subtotalOfStored (items : list SaleItem.t) : float :=
  fold_left
    (fun sum item =>
       PrimFloat.add sum (PrimFloat.mul (SaleItem.unit_price item) (SaleItem.quantity item)))
    items 0%float.

(** The sale [POST /api/sales] validates before it stores anything. *)
Definition parsedSale (host : Host.t) (pool : nat -> Z)
    (body : Routes.SalesFormData.t) (user : Routes.UserProfile.t)
  : completion InsertSale.t :=
  let subtotal := Routes.subtotalOf (Routes.SalesFormData.productItems body) in
  Routes.insertSaleSchema_parse (Routes.UserProfile.id user)
    (Routes.invoiceNumberOf (Routes.SalesFormData.saleDate body) pool)
    (Routes.SalesFormData.customerName body)
    (Host.Date_parse host (Routes.SalesFormData.saleDate body))
    (Routes.totalAmountOf subtotal) (Routes.taxAmountOf subtotal) Routes.discountAmount
    (Routes.SalesFormData.paymentMethod body)
    (if truthy_opt_string (Routes.SalesFormData.notes body)
     then Routes.SalesFormData.notes body else None)
    "completed".

(** What creating the row [r] does to the paginated lists: [listOf] is the
    list method, [owner] the user of a row, [key] its timestamp, [rows] the rows
    stored before. *)
Definition listedAfterCreate {A : Type}
    (listOf : Z -> Z -> Z -> MemStorage.t -> list A * Z)
    (owner key : A -> Z) (rows : list A) (r : A) (this this' : MemStorage.t) : Prop :=
  (forall userId page limit,
      userId <> owner r ->
      listOf userId page limit this' = listOf userId page limit this)
  /\ (forall page limit,
         snd (listOf (owner r) page limit this')
         = snd (listOf (owner r) page limit this) + 1)
  /\ ((forall old, In old rows -> owner old = owner r -> key old < key r) ->
      forall limit, 1 <= limit ->
      List.hd_error (fst (listOf (owner r) 1 limit this')) = Some r).

(** What the three paginated list methods compute from the rows of their
    map. *)
Definition paginateRows {A : Type} (owner key : A -> Z) (rows : list A)
    (userId page limit : Z) : list A * Z :=
  let records :=
    sort_desc key (List.filter (fun x => owner x =? userId) rows) in
  (slice records ((page - 1) * limit) ((page - 1) * limit + limit),
   Z.of_nat (List.length records)).

(** The pages of [records] for a limit: none is longer than the limit, pages
    1 to [n] put one after the other are the first [n * limit] records, all
    of them once [n * limit] reaches their number, and a page past the end is
    empty. *)
Definition paged {A : Type} (page : Z -> list A) (records : list A) (limit : Z)
  : Prop :=
  let N := Z.of_nat (List.length records) in
  (forall p, 1 <= p -> Z.of_nat (List.length (page p)) <= limit)
  /\ (forall n,
         List.concat (List.map (fun p => page (Z.of_nat p)) (List.seq 1 n))
         = firstn (n * Z.to_nat limit) records)
  /\ (forall n,
         N <= Z.of_nat n * limit ->
         List.concat (List.map (fun p => page (Z.of_nat p)) (List.seq 1 n)) = records)
  /\ (forall p, 1 <= p -> N <= (p - 1) * limit -> page p = []).

(** The page numbers of a page bar, in the order shown. *)
Definition pageNumbers (entries : list DataTablePagination.Entry) : list Z :=
  List.flat_map
    (fun entry =>
       match entry with
       | DataTablePagination.Page n => [n]
       | DataTablePagination.Ellipsis => []
       end) entries.

(** What the page bar shows for the answer of a list method asked for
    [currentPage] with [pageSize] as limit. *)
Definition showing {A : Type} (answer : list A * Z) (currentPage pageSize : Z) : Prop :=
  let totalItems := snd answer in
  let pages := DataTablePagination.totalPages totalItems pageSize in
  (pages - 1) * pageSize < totalItems <= pages * pageSize
  /\ (currentPage <= pages ->
      fst answer <> []
      /\ Z.of_nat (List.length (fst answer))
         = DataTablePagination.endItem totalItems currentPage pageSize
           - DataTablePagination.startItem currentPage pageSize + 1)
  /\ (pages < currentPage -> fst answer = [])
  /\ 1 <= DataTablePagination.previousPage currentPage <= currentPage
  /\ (currentPage <= pages ->
      currentPage <= DataTablePagination.nextPage pages currentPage <= pages).

(** The [Authorization] header of a request to a route wrapped in
    [protectedRoute]. *)
Definition credentials (request : Routes.Request) : option (option string) :=
  match request with
  | Routes.PostUsers _ => None
  | Routes.GetDashboardStats authorization
  | Routes.PostAttendance authorization _ _
  | Routes.PostSales authorization _
  | Routes.PostReports authorization _ => Some authorization
  end.

(** [{ ...first, ...second }] on partial data. *)
Definition later {A : Type} (first second : option A) : option A :=
  match second with
  | Some v => Some v
  | None => first
  end.

Definition bothAttendance (first second : PartialAttendance.t) : PartialAttendance.t :=
  {| PartialAttendance.user_id :=
       later (PartialAttendance.user_id first) (PartialAttendance.user_id second);
     PartialAttendance.check_in :=
       later (PartialAttendance.check_in first) (PartialAttendance.check_in second);
     PartialAttendance.check_out :=
       later (PartialAttendance.check_out first) (PartialAttendance.check_out second);
     PartialAttendance.note :=
       later (PartialAttendance.note first) (PartialAttendance.note second);
     PartialAttendance.location :=
       later (PartialAttendance.location first) (PartialAttendance.location second) |}.

Definition bothWorkReport (first second : PartialWorkReport.t) : PartialWorkReport.t :=
  {| PartialWorkReport.user_id :=
       later (PartialWorkReport.user_id first) (PartialWorkReport.user_id second);
     PartialWorkReport.title :=
       later (PartialWorkReport.title first) (PartialWorkReport.title second);
     PartialWorkReport.report_type :=
       later (PartialWorkReport.report_type first) (PartialWorkReport.report_type second);
     PartialWorkReport.department :=
       later (PartialWorkReport.department first) (PartialWorkReport.department second);
     PartialWorkReport.tasks :=
       later (PartialWorkReport.tasks first) (PartialWorkReport.tasks second);
     PartialWorkReport.outcomes :=
       later (PartialWorkReport.outcomes first) (PartialWorkReport.outcomes second);
     PartialWorkReport.challenges :=
       later (PartialWorkReport.challenges first) (PartialWorkReport.challenges second);
     PartialWorkReport.next_steps :=
       later (PartialWorkReport.next_steps first) (PartialWorkReport.next_steps second);
     PartialWorkReport.status :=
       later (PartialWorkReport.status first) (PartialWorkReport.status second) |}.

(** [{}] *)
Definition noAttendanceData : PartialAttendance.t :=
  PartialAttendance.Build_t None None None None None.

Definition noWorkReportData : PartialWorkReport.t :=
  PartialWorkReport.Build_t None None None None None None None None None.

End Invariant.

(** ** What a request leaves alone *)

Module Frame.

Definition users (a b : MemStorage.t) : Prop :=
  MemStorage.users a = MemStorage.users b
  /\ MemStorage.userIdCounter a = MemStorage.userIdCounter b.

Definition attendance (a b : MemStorage.t) : Prop :=
  MemStorage.attendance a = MemStorage.attendance b
  /\ MemStorage.attendanceIdCounter a = MemStorage.attendanceIdCounter b.

Definition sales (a b : MemStorage.t) : Prop :=
  MemStorage.sales a = MemStorage.sales b
  /\ MemStorage.saleIdCounter a = MemStorage.saleIdCounter b
  /\ MemStorage.saleItems a = MemStorage.saleItems b
  /\ MemStorage.saleItemIdCounter a = MemStorage.saleItemIdCounter b.

Definition workReports (a b : MemStorage.t) : Prop :=
  MemStorage.workReports a = MemStorage.workReports b
  /\ MemStorage.reportIdCounter a = MemStorage.reportIdCounter b.

Definition catalogue (a b : MemStorage.t) : Prop :=
  MemStorage.products a = MemStorage.products b
  /\ MemStorage.productIdCounter a = MemStorage.productIdCounter b
  /\ MemStorage.productCategories a = MemStorage.productCategories b
  /\ MemStorage.categoryIdCounter a = MemStorage.categoryIdCounter b.

End Frame.

(** ** A signed-in user and a sale with an item that is refused *)

Module Sample.

(** The profile [validateSession] gives for [Fixture.bearer]. *)
Definition sari : Routes.UserProfile.t :=
  {| Routes.UserProfile.id := 1; Routes.UserProfile.username := "sari";
     Routes.UserProfile.role := "karyawan"; Routes.UserProfile.avatar_url := None;
     Routes.UserProfile.full_name := Some "Sari Dewi";
     Routes.UserProfile.email := "sari@example.com" |}.

(** The product id of the second item is not a number. *)
Definition refusedSale : Routes.SalesFormData.t :=
  {| Routes.SalesFormData.saleDate := "2024-01-15";
     Routes.SalesFormData.customerName := "PT Maju";
     Routes.SalesFormData.productItems :=
       [ {| Routes.ProductItem.productId := "1";
            Routes.ProductItem.quantity := 2; Routes.ProductItem.price := 100 |};
         {| Routes.ProductItem.productId := "x";
            Routes.ProductItem.quantity := 1; Routes.ProductItem.price := 50 |} ];
     Routes.SalesFormData.paymentMethod := "cash";
     Routes.SalesFormData.notes := None |}.

End Sample.

(** * Properties *)

(** ** Facts about the runtime *)

Section MapFacts.
Context {V : Type}.
Implicit Types (m : Map.t V) (k : Z) (v : V).

Lemma Map_get_set_same k v m : Map.get k (Map.set k v m) = Some v.
Proof.
  induction m as [|[k' v'] m IH]; simpl.
  - now rewrite Z.eqb_refl.
  - destruct (k' =? k) eqn:E; simpl.
    + now rewrite Z.eqb_refl.
    + now rewrite E.
Qed.

Lemma Map_get_set_other k k' v m :
  k <> k' -> Map.get k' (Map.set k v m) = Map.get k' m.
Proof.
  intros Hne. induction m as [|[k0 v0] m IH]; simpl.
  - destruct (k =? k') eqn:E; [apply Z.eqb_eq in E; contradiction | reflexivity].
  - destruct (k0 =? k) eqn:E; simpl.
    + apply Z.eqb_eq in E. subst k0.
      destruct (k =? k') eqn:E'; [apply Z.eqb_eq in E'; contradiction | reflexivity].
    + now rewrite IH.
Qed.

Lemma Map_set_fresh k v m :
  ~ In k (Map.keys m) -> Map.set k v m = m ++ [(k, v)].
Proof.
  induction m as [|[k' v'] m IH]; simpl; intros Hn; [reflexivity|].
  destruct (k' =? k) eqn:E.
  - apply Z.eqb_eq in E. tauto.
  - rewrite IH by tauto. reflexivity.
Qed.

Lemma Map_keys_set_present k v m :
  In k (Map.keys m) -> Map.keys (Map.set k v m) = Map.keys m.
Proof.
  induction m as [|[k' v'] m IH]; simpl; intros Hin; [contradiction|].
  destruct (k' =? k) eqn:E; simpl.
  - apply Z.eqb_eq in E. now subst.
  - f_equal. apply IH. destruct Hin as [->|]; [|assumption].
    now rewrite Z.eqb_refl in E.
Qed.

Lemma Map_get_In k v m : Map.get k m = Some v -> In k (Map.keys m) /\ In v (Map.values m).
Proof.
  induction m as [|[k' v'] m IH]; simpl; [discriminate|].
  destruct (k' =? k) eqn:E.
  - apply Z.eqb_eq in E. intros [= ->]. auto.
  - intros H. destruct (IH H). auto.
Qed.

Lemma Map_get_None k m : ~ In k (Map.keys m) -> Map.get k m = None.
Proof.
  induction m as [|[k' v'] m IH]; simpl; [reflexivity|].
  intros Hn. destruct (k' =? k) eqn:E.
  - apply Z.eqb_eq in E. tauto.
  - apply IH. tauto.
Qed.

Variable id : V -> Z.

(** In a keyed map a row is found under its id. *)
Lemma keyed_get_In m c v :
  Corresponds.keyed id m c -> In v (Map.values m) -> Map.get (id v) m = Some v.
Proof.
  intros (Hk & Hnd & _). induction m as [|[k' v'] m IH]; simpl; [contradiction|].
  simpl in Hk. injection Hk as Hk' Hk. inversion Hnd as [|? ? Hnotin Hnd']; subst.
  intros [->|Hin].
  - now rewrite Z.eqb_refl.
  - destruct (id v' =? id v) eqn:E.
    + apply Z.eqb_eq in E. exfalso. apply Hnotin. rewrite E.
      rewrite Hk. now apply in_map.
    + now apply IH.
Qed.

Lemma keyed_get_id m c k v :
  Corresponds.keyed id m c -> Map.get k m = Some v -> id v = k.
Proof.
  intros (Hk & _). revert Hk. induction m as [|[k' v'] m IH]; simpl; [discriminate|].
  intros Hk. injection Hk as Hk' Hk.
  destruct (k' =? k) eqn:E.
  - apply Z.eqb_eq in E. intros [= ->]. congruence.
  - now apply IH.
Qed.

(** [create]: a row stored under the counter. *)
Lemma keyed_create m c v :
  Corresponds.keyed id m c -> id v = c ->
  Map.set c v m = m ++ [(c, v)] /\ Corresponds.keyed id (Map.set c v m) (c + 1).
Proof.
  intros (Hk & Hnd & Hlt) Hid.
  assert (Hfresh : ~ In c (Map.keys m)).
  { intros Hin. rewrite Forall_forall in Hlt. specialize (Hlt _ Hin). lia. }
  rewrite (Map_set_fresh _ _ _ Hfresh). split; [reflexivity|].
  unfold Corresponds.keyed, Map.keys, Map.values in *.
  rewrite !List.map_app. simpl. repeat split.
  - now rewrite Hk, Hid.
  - apply NoDup_app; [assumption | repeat constructor; simpl; tauto |].
    simpl. intros a Ha [<-|[]]. contradiction.
  - apply Forall_app. split.
    + eapply Forall_impl; [|exact Hlt]. simpl. intros. lia.
    + repeat constructor. lia.
Qed.

(** [update]: the row under an existing key replaced by one with the same id. *)
Lemma keyed_update m c k v v' :
  Corresponds.keyed id m c -> Map.get k m = Some v -> id v' = k ->
  Corresponds.keyed id (Map.set k v' m) c
  /\ Map.values (Map.set k v' m)
     = List.map (fun r => if id r =? k then v' else r) (Map.values m)
  /\ List.filter (fun r => id r =? k) (Map.values m) = [v].
Proof.
  intros Hkeyed Hget Hid.
  assert (Hin : In k (Map.keys m)) by (apply (Map_get_In _ _ _ Hget)).
  destruct Hkeyed as (Hk & Hnd & Hlt).
  assert (Hkeys := Map_keys_set_present k v' m Hin).
  assert (Hvals : Map.values (Map.set k v' m)
     = List.map (fun r => if id r =? k then v' else r) (Map.values m)
     /\ List.filter (fun r => id r =? k) (Map.values m) = [v]).
  { clear Hlt Hkeys Hin. revert Hk Hnd Hget.
    induction m as [|[k0 v0] m IH]; simpl; [discriminate|].
    intros Hk Hnd. injection Hk as Hk0 Hk. inversion Hnd as [|? ? Hnotin Hnd']; subst k0.
    destruct (id v0 =? k) eqn:E; simpl.
    - apply Z.eqb_eq in E. intros [= ->]. rewrite E in Hnotin.
      assert (Hrest : forall r, In r (Map.values m) -> (id r =? k) = false).
      { intros r Hr. apply Z.eqb_neq. intros Heq. apply Hnotin.
        rewrite Hk, <- Heq. now apply in_map. }
      split; f_equal.
      + rewrite <- (map_id (Map.values m)) at 1. apply map_ext_in.
        intros r Hr. now rewrite Hrest.
      + clear - Hrest. induction (Map.values m) as [|r l IHl]; [reflexivity|].
        simpl. rewrite Hrest by (now left). apply IHl. intros. apply Hrest. now right.
    - intros Hget. destruct (IH Hk Hnd' Hget) as [-> ->]. split; reflexivity. }
  destruct Hvals as [Hv Hf]. repeat split; try assumption.
  - rewrite Hkeys, Hv, Hk, map_map. apply map_ext_in. intros r _.
    destruct (id r =? k) eqn:E; [apply Z.eqb_eq in E; congruence | reflexivity].
  - now rewrite Hkeys.
  - now rewrite Hkeys.
Qed.
End MapFacts.

(** ** Numbers that hold integers *)

Section NumberFacts.

Lemma nearest_bounds (n d : Z) :
  0 < d -> n / d <= Number.nearest n d <= n / d + 1.
Proof.
  intros Hd. unfold Number.nearest.
  destruct (2 * (n mod d) <? d); [lia|].
  destruct (d <? 2 * (n mod d)); [lia|].
  destruct (Z.even (n / d)); lia.
Qed.

Lemma nearest_up (n d : Z) :
  0 < d -> Number.nearest n d <> n / d -> d <= 2 * (n mod d).
Proof.
  intros Hd. unfold Number.nearest.
  destruct (2 * (n mod d) <? d) eqn:Hlt; [congruence|].
  intros _. lia.
Qed.

Lemma nearest_exact (n d : Z) :
  0 < d -> n mod d = 0 -> Number.nearest n d = n / d.
Proof.
  intros Hd Hr. unfold Number.nearest. rewrite Hr.
  replace (2 * 0 <? d) with true by lia. reflexivity.
Qed.

Lemma binade_spec (a b : Z) :
  0 < a -> 0 < b ->
  (0 <= Number.binade a b /\
   b * 2 ^ Number.binade a b <= a < 2 * (b * 2 ^ Number.binade a b)) \/
  (Number.binade a b < 0 /\
   b <= a * 2 ^ (- Number.binade a b) < 2 * b).
Proof.
  intros Ha Hb.
  destruct (Z.log2_spec a Ha) as [Hal Hau].
  destruct (Z.log2_spec b Hb) as [Hbl Hbu].
  assert (Hla := Z.log2_nonneg a). assert (Hlb := Z.log2_nonneg b).
  rewrite Z.pow_succ_r in Hau, Hbu by assumption.
  unfold Number.binade, Number.below.
  set (la := Z.log2 a) in *. set (lb := Z.log2 b) in *.
  destruct (0 <=? la - lb) eqn:He0.
  - assert (Hpow : 2 ^ la = 2 ^ (la - lb) * 2 ^ lb).
    { rewrite <- Z.pow_add_r by lia. f_equal; lia. }
    assert (Hp : 0 < 2 ^ (la - lb)) by (apply Z.pow_pos_nonneg; lia).
    destruct (a <? b * 2 ^ (la - lb)) eqn:Ht.
    + destruct (Z.eq_dec (la - lb) 0) as [Hz|Hz].
      * right. rewrite Hz in *. change (- (0 - 1)) with 1.
        change (2 ^ 1) with 2. change (2 ^ 0) with 1 in *. lia.
      * left. split; [lia|].
        assert (Hs : 2 ^ (la - lb) = 2 * 2 ^ (la - lb - 1)).
        { rewrite <- Z.pow_succ_r by lia. f_equal. lia. }
        assert (0 < 2 ^ (la - lb - 1)) by (apply Z.pow_pos_nonneg; lia).
        nia.
    + left. split; [lia|]. nia.
  - assert (Hpow : 2 ^ lb = 2 ^ (- (la - lb)) * 2 ^ la).
    { rewrite <- Z.pow_add_r by lia. f_equal; lia. }
    assert (Hp : 0 < 2 ^ (- (la - lb))) by (apply Z.pow_pos_nonneg; lia).
    destruct (a * 2 ^ (- (la - lb)) <? b) eqn:Ht.
    + right. split; [lia|].
      assert (Hs : 2 ^ (- (la - lb - 1)) = 2 * 2 ^ (- (la - lb))).
      { rewrite <- Z.pow_succ_r by lia. f_equal. lia. }
      nia.
    + right. split; [lia|]. nia.
Qed.

(** Rounding the quotient to a mantissa finer than the divisor does not move
    its integer part. *)
Lemma nearest_floor (a b P g : Z) :
  0 <= a -> 0 < b -> 0 < P -> 0 < g ->
  a mod g = 0 -> b mod g = 0 -> b < 2 * g * P ->
  Number.nearest (a * P) b / P = a / b.
Proof.
  intros Ha Hb HP Hg Hag Hbg Hfine.
  assert (Hrg : (a mod b) mod g = 0).
  { apply Z.mod_divide in Hag; [|lia]. apply Z.mod_divide in Hbg; [|lia].
    apply Z.mod_divide; [lia|].
    rewrite Z.mod_eq by lia. apply Z.divide_sub_r; [assumption|].
    apply Z.divide_mul_l. assumption. }
  assert (Hr : a mod b <= b - g).
  { assert (0 <= a mod b < b) by (apply Z.mod_pos_bound; lia).
    apply Z.mod_divide in Hrg; [|lia]. apply Z.mod_divide in Hbg; [|lia].
    destruct Hrg as [x Hx]. destruct Hbg as [y Hy].
    assert (x < y) by nia. nia. }
  assert (Hab := Z.div_mod a b ltac:(lia)).
  assert (Hrb : 0 <= a mod b < b) by (apply Z.mod_pos_bound; lia).
  set (k := a / b) in *. set (r := a mod b) in *.
  assert (HaP : a * P = (k * P) * b + r * P) by nia.
  assert (Hq : (a * P) / b = k * P + (r * P) / b).
  { rewrite HaP. rewrite Z.add_comm. rewrite Z.div_add by lia. lia. }
  assert (Hm : (a * P) mod b = (r * P) mod b).
  { rewrite HaP. rewrite Z.add_comm. apply Z.mod_add. lia. }
  assert (HrP := Z.div_mod (r * P) b ltac:(lia)).
  assert (HrPb : 0 <= (r * P) mod b < b) by (apply Z.mod_pos_bound; lia).
  assert (HrPq : 0 <= (r * P) / b) by (apply Z.div_pos; nia).
  assert (Hbounds := nearest_bounds (a * P) b Hb).
  symmetry. apply Z.div_unique_pos with (r := Number.nearest (a * P) b - k * P); [|lia].
  split; [nia|].
  destruct (Z.eq_dec (Number.nearest (a * P) b) ((a * P) / b)) as [Heq|Hne].
  - rewrite Heq, Hq. nia.
  - apply nearest_up in Hne; [|assumption]. rewrite Hm in Hne. nia.
Qed.

Lemma quotient_scale (a b : Z) :
  0 < a -> 0 < b ->
  Number.quotient a b =
    (let s := 52 - Number.binade a b in
     (if 0 <=? s then Number.nearest (a * 2 ^ s) b
      else Number.nearest a (b * 2 ^ (- s)), s)).
Proof.
  intros Ha Hb. unfold Number.quotient.
  replace (a =? 0) with false by lia. reflexivity.
Qed.

(** [Math.floor(a / b)] is the integer quotient as long as [a] is below
    [2^53], or below [2^54] with [a] and [b] even. *)
Lemma floorDiv_exact (g a b : Z) :
  0 < g -> 0 <= a -> 0 < b ->
  a mod g = 0 -> b mod g = 0 -> a < g * 2 ^ 53 ->
  Number.floorDiv a b = a / b.
Proof.
  intros Hg Ha Hb Hag Hbg Hlt.
  destruct (Z.eq_dec a 0) as [->|Hnz].
  { reflexivity. }
  unfold Number.floorDiv. rewrite Z.abs_eq by lia.
  rewrite quotient_scale by lia. cbv zeta.
  assert (Hbg' : g <= b).
  { apply Z.mod_divide in Hbg; [|lia]. destruct Hbg as [y Hy].
    assert (0 < y) by nia. nia. }
  destruct (binade_spec a b ltac:(lia) Hb) as [[He [Hlo Hhi]]|[He [Hlo Hhi]]];
    set (e := Number.binade a b) in *.
  - assert (Hpe : 0 < 2 ^ e) by (apply Z.pow_pos_nonneg; lia).
    assert (He53 : e < 53).
    { destruct (Z_lt_le_dec e 53) as [|Hge]; [assumption|exfalso].
      assert (2 ^ 53 <= 2 ^ e) by (apply Z.pow_le_mono_r; lia). nia. }
    replace (0 <=? 52 - e) with true by lia.
    replace (0 <=? a) with true by lia.
    assert (HP : 0 < 2 ^ (52 - e)) by (apply Z.pow_pos_nonneg; lia).
    assert (Hprod : 2 ^ (52 - e) * 2 ^ e = 2 ^ 52).
    { rewrite <- Z.pow_add_r by lia. f_equal; lia. }
    change (2 ^ 53) with (2 * 2 ^ 52) in Hlt.
    apply nearest_floor with (g := g); first [assumption | lia | nia].
  - replace (0 <=? 52 - e) with true by lia.
    replace (0 <=? a) with true by lia.
    assert (HP : 0 < 2 ^ (52 - e)) by (apply Z.pow_pos_nonneg; lia).
    assert (Hpe : 0 < 2 ^ (- e)) by (apply Z.pow_pos_nonneg; lia).
    assert (Hprod : 2 ^ (52 - e) = 2 ^ 52 * 2 ^ (- e)).
    { rewrite <- Z.pow_add_r by lia. f_equal; lia. }
    change (2 ^ 53) with (2 * 2 ^ 52) in Hlt.
    apply nearest_floor with (g := g); first [assumption | lia | nia].
Qed.

Lemma floorDiv_small_negative (a b : Z) :
  - b < a < 0 -> Number.floorDiv a b = -1.
Proof.
  intros Hab.
  unfold Number.floorDiv. rewrite Z.abs_neq by lia.
  rewrite quotient_scale by lia. cbv zeta.
  destruct (binade_spec (- a) b ltac:(lia) ltac:(lia)) as [[He [Hlo Hhi]]|[He [Hlo Hhi]]];
    set (e := Number.binade (- a) b) in *.
  - assert (Hpe : 0 < 2 ^ e) by (apply Z.pow_pos_nonneg; lia). nia.
  - replace (0 <=? 52 - e) with true by lia.
    replace (0 <=? a) with false by lia.
    assert (Hpe : 0 < 2 ^ (- e)) by (apply Z.pow_pos_nonneg; lia).
    assert (Hprod : 2 ^ (52 - e) = 2 ^ 52 * 2 ^ (- e)).
    { rewrite <- Z.pow_add_r by lia. f_equal; lia. }
    set (P := 2 ^ (52 - e)) in *.
    assert (HP : 0 < P) by (unfold P; apply Z.pow_pos_nonneg; lia).
    assert (Hbounds := nearest_bounds (- a * P) b ltac:(lia)).
    assert (Hq1 : 1 <= (- a * P) / b).
    { apply Z.div_le_lower_bound; [lia|]. change (2 ^ 52) with 4503599627370496 in Hprod. nia. }
    assert (Hq2 : (- a * P) / b < P).
    { apply Z.div_lt_upper_bound; [lia|]. nia. }
    set (m := Number.nearest (- a * P) b) in *.
    assert ((m + P - 1) / P = 1); [|lia].
    symmetry. apply Z.div_unique_pos with (r := m - 1); lia.
Qed.

Lemma binade_one (a : Z) : 0 < a -> Number.binade a 1 = Z.log2 a.
Proof.
  intros Ha. unfold Number.binade, Number.below.
  change (Z.log2 1) with 0. rewrite Z.sub_0_r.
  assert (Hl := Z.log2_nonneg a).
  replace (0 <=? Z.log2 a) with true by lia.
  destruct (Z.log2_spec a Ha) as [Hlo _].
  replace (a <? 1 * 2 ^ Z.log2 a) with false by lia. reflexivity.
Qed.

(** An integer below [2^53] in magnitude is a number. *)
Lemma round_exact (n : Z) : Z.abs n < 2 ^ 53 -> Number.round n = n.
Proof.
  intros Hn. destruct (Z.eq_dec n 0) as [->|Hnz]; [reflexivity|].
  unfold Number.round. rewrite quotient_scale by lia. cbv zeta.
  rewrite binade_one by lia.
  assert (Hl : Z.log2 (Z.abs n) < 53) by (apply Z.log2_lt_pow2; lia).
  replace (0 <=? 52 - Z.log2 (Z.abs n)) with true by lia.
  assert (HP : 0 < 2 ^ (52 - Z.log2 (Z.abs n))) by (apply Z.pow_pos_nonneg; lia).
  rewrite nearest_exact by (try lia; apply Z.mod_1_r).
  rewrite Z.div_1_r, Z.div_mul by lia. lia.
Qed.

(** Between [2^53] and [2^54] the numbers are the even integers: an odd one
    is rounded to the neighbour that is a multiple of four. *)
Lemma round_coarse (n : Z) :
  2 ^ 53 <= n < 2 ^ 54 ->
  Number.round n =
    (if n mod 2 =? 0 then n else if n mod 4 =? 1 then n - 1 else n + 1).
Proof.
  intros Hn. unfold Number.round. rewrite Z.abs_eq by lia.
  rewrite quotient_scale by lia. cbv zeta.
  rewrite binade_one by lia.
  assert (Hl : Z.log2 n = 53) by (apply Z.log2_unique; [lia|]; exact Hn).
  rewrite Hl. change (0 <=? 52 - 53) with false. cbv iota.
  change (1 * 2 ^ (- (52 - 53))) with 2. change (2 ^ (- (52 - 53))) with 2.
  rewrite Z.sgn_pos by lia. rewrite Z.mul_1_l.
  unfold Number.nearest.
  assert (Hm2 := Z.mod_pos_bound n 2 ltac:(lia)).
  assert (Hm4 := Z.mod_pos_bound n 4 ltac:(lia)).
  assert (Hd2 := Z.div_mod n 2 ltac:(lia)).
  assert (Hd4 := Z.div_mod n 4 ltac:(lia)).
  destruct (n mod 2 =? 0) eqn:Hpar.
  - replace (2 * (n mod 2) <? 2) with true by lia. lia.
  - replace (2 * (n mod 2) <? 2) with false by lia.
    replace (2 <? 2 * (n mod 2)) with false by lia.
    destruct (Z.even (n / 2)) eqn:Hev.
    + apply Z.even_spec in Hev. destruct Hev as [x Hx].
      replace (n mod 4 =? 1) with true by lia. lia.
    + rewrite <- Z.negb_odd in Hev. apply negb_false_iff in Hev.
      apply Z.odd_spec in Hev. destruct Hev as [x Hx].
      replace (n mod 4 =? 1) with false by lia. lia.
Qed.


(** The difference of two time values: exact up to [2^53], and above it the
    nearest even integer, the multiple of four when there are two. *)
Lemma round_difference (d : Z) :
  0 <= d <= 17280000000000000 ->
  Number.round d
  = (if (2 ^ 53 <? d) && (d mod 4 =? 3) then d + 1
     else if (2 ^ 53 <? d) && (d mod 4 =? 1) then d - 1
     else d).
Proof.
  intros Hd. destruct (2 ^ 53 <? d) eqn:Hbig; cbn [andb].
  - rewrite round_coarse by (change (2 ^ 54) with 18014398509481984; lia).
    assert (Hm2 := Z.mod_pos_bound d 2 ltac:(lia)).
    assert (Hm4 := Z.mod_pos_bound d 4 ltac:(lia)).
    assert (Hd2 := Z.div_mod d 2 ltac:(lia)).
    assert (Hd4 := Z.div_mod d 4 ltac:(lia)).
    destruct (d mod 2 =? 0) eqn:Hpar.
    + replace (d mod 4 =? 3) with false by lia.
      replace (d mod 4 =? 1) with false by lia. reflexivity.
    + destruct (d mod 4 =? 1) eqn:H1.
      * replace (d mod 4 =? 3) with false by lia. reflexivity.
      * replace (d mod 4 =? 3) with true by lia. reflexivity.
  - destruct (Z.eq_dec d (2 ^ 53)) as [->|Hne]; [reflexivity|].
    apply round_exact. rewrite Z.abs_eq by lia. lia.
Qed.

(** [quotient] is the division of the machine on a sample of time
    values. *)
Lemma quotient_is_division :
  List.forallb
    (fun '(a, b) =>
       PrimFloat.eqb (Number.quotientFloat a b)
         (PrimFloat.div (Number.toFloat a) (Number.toFloat b)))
    [ (1, 3); (2, 3); (5, 1); (1, 60000); (59999, 60000); (3599999, 60000);
      (30600000, 3600000); (1705339800000, 3600000); (8639999999999999, 7);
      (9007199254740992, 3600000); (9007199254800000, 3600000);
      (17280000000000000, 3600000); (17280000000000000, 60000) ]
  = true.
Proof. vm_compute. reflexivity. Qed.

End NumberFacts.

(** ** Working hours *)

(** What [calculateWorkingHours] returns for two dates, the later one
    second: the hours and minutes of their difference as a number. *)
Lemma calculateWorkingHours_rounded (host : Host.t) (check_in check_out : Z) :
  0 <= check_out - check_in <= 17280000000000000 ->
  Utils.calculateWorkingHours host (Utils.DateObj check_in) (Utils.DateObj check_out)
  = Spec.workingHours (Number.round (check_out - check_in)).
Proof.
  intros Hd. unfold Utils.calculateWorkingHours, Spec.workingHours.
  cbn [Utils.truthy Utils.getTime negb orb]. cbv zeta.
  change (1000 * 60 * 60) with 3600000. change (1000 * 60) with 60000.
  unfold Number.sub. set (d := check_out - check_in) in *.
  assert (Hn : 0 <= Number.round d <= 17280000000000000
               /\ (Number.round d < 2 ^ 53 \/ Number.round d mod 2 = 0)).
  { rewrite round_difference by assumption.
    change (2 ^ 53) with 9007199254740992.
    assert (Hm4 := Z.mod_pos_bound d 4 ltac:(lia)).
    assert (Hd4 := Z.div_mod d 4 ltac:(lia)).
    destruct (9007199254740992 <? d) eqn:Hbig; cbn [andb].
    - destruct (d mod 4 =? 3) eqn:H3; [split; [lia|right; Z.div_mod_to_equations; lia]|].
      destruct (d mod 4 =? 1) eqn:H1; split; try lia;
        right; Z.div_mod_to_equations; lia.
    - split; [lia|]. destruct (Z.eq_dec d 9007199254740992) as [->|]; [now right|].
      left. lia. }
  set (n := Number.round d) in *. destruct Hn as [Hrange Hshape].
  assert (Hhours : Number.floorDiv n 3600000 = n / 3600000).
  { destruct Hshape as [Hsmall|Heven].
    - apply floorDiv_exact with (g := 1); first [lia | apply Z.mod_1_r].
    - apply floorDiv_exact with (g := 2);
        first [lia | reflexivity | change (2 ^ 53) with 9007199254740992; lia]. }
  assert (Hrem : Z.rem n 3600000 = n mod 3600000) by (apply Z.rem_mod_nonneg; lia).
  assert (Hminutes : Number.floorDiv (n mod 3600000) 60000 = n mod 3600000 / 60000).
  { assert (Hb := Z.mod_pos_bound n 3600000 ltac:(lia)).
    apply floorDiv_exact with (g := 1);
      first [lia | apply Z.mod_1_r | change (2 ^ 53) with 9007199254740992; lia]. }
  rewrite Hhours, Hrem, Hminutes. reflexivity.
Qed.

(** C5, amended — for two dates with check_out >= check_in,
    [calculateWorkingHours] returns "H hrs M mins" where H is the
    millisecond difference divided by 3,600,000 and M the remainder divided
    by 60,000, both rounded down, unless the difference is above 2^53 and one
    millisecond short of a full minute: such a difference is not a number,
    the subtraction gives the full minute, and the result is that of the
    difference plus one. 09:00 to 17:30 of the same day gives
    "8 hrs 30 mins". *)
Theorem calculateWorkingHours_H_hrs_M_mins (host : Host.t) (check_in check_out : Z) :
  timeValue check_in -> timeValue check_out -> check_in <= check_out ->
  let d := check_out - check_in in
  let result :=
    Utils.calculateWorkingHours host (Utils.DateObj check_in)
      (Utils.DateObj check_out) in
  (d <= 2 ^ 53 \/ d mod 60000 <> 59999 -> result = Spec.workingHours d)
  /\ (2 ^ 53 < d -> d mod 60000 = 59999 -> result = Spec.workingHours (d + 1))
  /\ (forall midnight,
         check_in = midnight + 9 * 3600000 ->
         check_out = midnight + 17 * 3600000 + 30 * 60000 ->
         result = "8 hrs 30 mins").
Proof.
  intros Hin Hout Hle d result. unfold timeValue in Hin, Hout.
  assert (Hd : 0 <= d <= 17280000000000000) by (subst d; lia).
  assert (Hresult : result = Spec.workingHours (Number.round d))
    by (apply calculateWorkingHours_rounded; exact Hd).
  rewrite Hresult, round_difference by exact Hd.
  change (2 ^ 53) with 9007199254740992.
  assert (Hm4 := Z.mod_pos_bound d 4 ltac:(lia)).
  assert (Hd4 := Z.div_mod d 4 ltac:(lia)).
  assert (Hm := Z.mod_pos_bound d 60000 ltac:(lia)).
  assert (Hdm := Z.div_mod d 60000 ltac:(lia)).
  split; [|split].
  - intros Hexact.
    destruct (9007199254740992 <? d) eqn:Hbig; cbn [andb]; [|reflexivity].
    destruct Hexact as [Hsmall|Hminute]; [lia|].
    unfold Spec.workingHours.
    destruct (d mod 4 =? 3) eqn:H3.
    + replace ((d + 1) / 3600000) with (d / 3600000)
        by (Z.div_mod_to_equations; lia).
      replace ((d + 1) mod 3600000 / 60000) with (d mod 3600000 / 60000)
        by (Z.div_mod_to_equations; lia).
      reflexivity.
    + destruct (d mod 4 =? 1) eqn:H1; [|reflexivity].
      replace ((d - 1) / 3600000) with (d / 3600000)
        by (Z.div_mod_to_equations; lia).
      replace ((d - 1) mod 3600000 / 60000) with (d mod 3600000 / 60000)
        by (Z.div_mod_to_equations; lia).
      reflexivity.
  - intros Hbig Hminute.
    replace (9007199254740992 <? d) with true by lia. cbn [andb].
    replace (d mod 4 =? 3) with true by (Z.div_mod_to_equations; lia).
    reflexivity.
  - intros midnight Hci Hco.
    replace d with 30600000 by (subst d; lia). reflexivity.
Qed.

Lemma calculateWorkingHours_H_hrs_M_mins_witness :
  Utils.calculateWorkingHours Fixture.host
    (Utils.DateObj (Fixture.clock 0%nat)) (Utils.DateObj (Fixture.evening 0%nat))
  = "8 hrs 30 mins".
Proof.
  destruct (calculateWorkingHours_H_hrs_M_mins Fixture.host
              (Fixture.clock 0%nat) (Fixture.evening 0%nat)) as (H & _).
  - unfold timeValue. vm_compute. split; discriminate.
  - unfold timeValue. vm_compute. split; discriminate.
  - vm_compute. discriminate.
  - rewrite H; [reflexivity|]. left. vm_compute. discriminate.
Defined.

(** C5 as stated fails: between the earliest date and one millisecond before
    the latest there are 4,799,999,999 hours and 59 minutes, and the result
    is a full hour more. *)
Lemma calculateWorkingHours_rounds :
  Utils.calculateWorkingHours Fixture.host
    (Utils.DateObj (-8640000000000000)) (Utils.DateObj 8639999999999999)
  = "4800000000 hrs 0 mins"
  /\ Spec.workingHours (8639999999999999 - -8640000000000000)
     = "4799999999 hrs 59 mins".
Proof. split; vm_compute; reflexivity. Qed.

(** ** Sales *)

Lemma sumBackwards_fold (l : list float) :
  Spec.sumBackwards l = fold_right (fun x sum => PrimFloat.add sum x) 0%float l.
Proof. induction l as [|x l IH]; simpl; [reflexivity | now rewrite IH]. Qed.

(** [reduce((sum, x) => sum + f(x), 0)] is the sum of the [f(x)] in the order
    of the list. *)
Lemma reduce_sumOf {A : Type} (f : A -> float) (l : list A) :
  fold_left (fun sum x => PrimFloat.add sum (f x)) l 0%float
  = Spec.sumOf (List.map f l).
Proof.
  unfold Spec.sumOf. rewrite sumBackwards_fold, fold_left_rev_right.
  generalize 0%float. induction l as [|x l IH]; intros acc; simpl;
    [reflexivity | apply IH].
Qed.

Lemma sumOf_snoc (l : list float) (x : float) :
  Spec.sumOf (l ++ [x]) = PrimFloat.add (Spec.sumOf l) x.
Proof. unfold Spec.sumOf. now rewrite rev_app_distr. Qed.

Lemma subtotalOf_sum (productItems : list Routes.ProductItem.t) :
  Routes.subtotalOf productItems
  = Spec.sumOf
      (List.map
         (fun item =>
            PrimFloat.mul (Routes.ProductItem.price item)
              (Routes.ProductItem.quantity item)) productItems).
Proof. apply reduce_sumOf. Qed.

Lemma sumTotalAmount_sum (salesList : list Sale.t) :
  MemStorage.sumTotalAmount salesList
  = Spec.sumOf (List.map Sale.total_amount salesList).
Proof. apply reduce_sumOf. Qed.

(** Storing the items of a sale touches nothing but the items. *)
Lemma createSaleItems_frame host clock saleId items :
  forall n storage,
    let storage' := snd (Routes.createSaleItems host clock n saleId items storage) in
    MemStorage.sales storage' = MemStorage.sales storage
    /\ MemStorage.users storage' = MemStorage.users storage
    /\ MemStorage.attendance storage' = MemStorage.attendance storage
    /\ MemStorage.attendanceIdCounter storage' = MemStorage.attendanceIdCounter storage.
Proof.
  induction items as [|item rest IH]; intros n storage; simpl; [tauto|].
  destruct (Routes.insertSaleItemSchema_parse _ _ _ _) as [d|e]; simpl; [|tauto].
  specialize (IH (S n) (snd (MemStorage.createSaleItem (clock n) d storage))).
  simpl in IH. exact IH.
Qed.

Lemma insertSaleSchema_parse_Normal u inv cust date total tax disc pay notes st d :
  Routes.insertSaleSchema_parse u inv cust date total tax disc pay notes st = Normal d ->
  InsertSale.total_amount d = total /\ InsertSale.tax_amount d = tax
  /\ InsertSale.discount_amount d = disc /\ InsertSale.invoice_number d = Some inv
  /\ InsertSale.user_id d = u.
Proof.
  unfold Routes.insertSaleSchema_parse. destruct date; [|discriminate].
  destruct (_ && _); [|discriminate]. intros [= <-]. simpl. tauto.
Qed.

(** C3 — the sale persisted by [POST /api/sales] has
    tax_amount = subtotal * 0.11, discount_amount = 0 and
    total_amount = subtotal + tax_amount - discount_amount, the subtotal being
    the sum of price * quantity over the submitted items, in their order;
    the items [{price:100, qty:2}, {price:50, qty:1}] give 250, 27.5 and
    277.5. The arithmetic is that of JavaScript numbers; the literal is the
    double nearest to 0.11. *)
Theorem post_sales_amounts (host : Host.t) (clock : Routes.Clock) (pool : nat -> Z)
    (body : Routes.SalesFormData.t) (user : Routes.UserProfile.t)
    (storage : MemStorage.t) :
  let subtotal :=
    Spec.sumOf
      (List.map
         (fun item =>
            PrimFloat.mul (Routes.ProductItem.price item)
              (Routes.ProductItem.quantity item))
         (Routes.SalesFormData.productItems body)) in
  let result := Routes.post_sales host clock pool body user storage in
  let computed (sale : Sale.t) :=
    Sale.tax_amount sale = PrimFloat.mul subtotal 0x1.c28f5c28f5c29p-4
    /\ Sale.discount_amount sale = 0%float
    /\ Sale.total_amount sale
       = PrimFloat.sub (PrimFloat.add subtotal (Sale.tax_amount sale))
           (Sale.discount_amount sale) in
  (forall id sale,
      Map.get id (MemStorage.sales (snd result)) = Some sale ->
      Map.get id (MemStorage.sales storage) = Some sale \/ computed sale)
  /\ (Routes.status (fst result) = 201 ->
      exists sale,
        Map.get (MemStorage.saleIdCounter storage) (MemStorage.sales (snd result))
        = Some sale
        /\ computed sale
        /\ Routes.json (fst result)
           = Routes.SaleRecorded (Sale.id sale) (Sale.invoice_number sale)
               (Sale.total_amount sale) "Sale recorded successfully")
  /\ (forall id1 id2,
         Routes.SalesFormData.productItems body
         = [ Routes.ProductItem.Build_t id1 2 100; Routes.ProductItem.Build_t id2 1 50 ] ->
         subtotal = 250%float
         /\ PrimFloat.mul subtotal 0x1.c28f5c28f5c29p-4 = 27.5%float
         /\ PrimFloat.sub (PrimFloat.add subtotal 27.5) 0 = 277.5%float).
Proof.
  intros subtotal result computed.
  assert (Hsub : subtotal = Routes.subtotalOf (Routes.SalesFormData.productItems body))
    by (symmetry; apply subtotalOf_sum).
  clearbody subtotal. subst subtotal.
  set (subtotal := Routes.subtotalOf (Routes.SalesFormData.productItems body)) in *.
  assert (Hrun :
    (snd result = storage /\ Routes.status (fst result) = 400)
    \/ exists sale,
        computed sale
        /\ MemStorage.sales (snd result)
           = Map.set (MemStorage.saleIdCounter storage) sale (MemStorage.sales storage)
        /\ (Routes.status (fst result) = 201 ->
            Routes.json (fst result)
            = Routes.SaleRecorded (Sale.id sale) (Sale.invoice_number sale)
                (Sale.total_amount sale) "Sale recorded successfully")).
  { subst result. unfold Routes.post_sales.
    destruct (Routes.insertSaleSchema_parse _ _ _ _ _ _ _ _ _ _) as [d|e] eqn:Hparse;
      [|left; split; reflexivity].
    apply insertSaleSchema_parse_Normal in Hparse.
    destruct Hparse as (Htotal & Htax & Hdisc & _).
    right. unfold MemStorage.createSale.
    match goal with
    | |- context [Routes.createSaleItems ?h ?c ?n ?i ?l ?s] =>
        pose proof (createSaleItems_frame h c i l n s) as Hframe;
        destruct (Routes.createSaleItems h c n i l s) as [[[]|e] storage2] eqn:Hitems
    end; simpl in Hframe; destruct Hframe as (Hsales & _); simpl in Hsales;
      eexists; (split; [|split; [exact Hsales|]]); simpl;
      try (intros _; rewrite Htotal; reflexivity); try discriminate;
      unfold computed; simpl; rewrite Htotal, Htax, Hdisc; repeat split. }
  split; [|split].
  - intros id sale Hget.
    destruct Hrun as [[Hsame _]|(new & Hnew & Hsales & _)];
      [rewrite Hsame in Hget; now left|].
    rewrite Hsales in Hget.
    destruct (Z.eq_dec (MemStorage.saleIdCounter storage) id) as [<-|Hne].
    + rewrite Map_get_set_same in Hget. injection Hget as <-. now right.
    + rewrite Map_get_set_other in Hget by assumption. now left.
  - intros H201. destruct Hrun as [[_ H400]|(new & Hnew & Hsales & Hjson)]; [congruence|].
    exists new. rewrite Hsales, Map_get_set_same. auto.
  - intros id1 id2 Hitems. subst subtotal. rewrite Hitems. repeat split.
Qed.

Lemma post_sales_amounts_witness :
  exists sale,
    Map.get 1 (MemStorage.sales
                 (snd (Routes.post_sales Fixture.host Fixture.clock Fixture.pool
                         Fixture.sale
                         (Routes.UserProfile.Build_t 1 "sari" "karyawan" None None
                            "sari@example.com")
                         Fixture.registered)))
    = Some sale
    /\ Sale.tax_amount sale = 27.5%float
    /\ Sale.discount_amount sale = 0%float
    /\ Sale.total_amount sale = 277.5%float.
Proof.
  destruct (post_sales_amounts Fixture.host Fixture.clock Fixture.pool Fixture.sale
              (Routes.UserProfile.Build_t 1 "sari" "karyawan" None None
                 "sari@example.com") Fixture.registered)
    as (_ & Hstored & Hexample).
  destruct (Hstored eq_refl) as (sale & Hget & (Htax & Hdisc & Htotal) & _).
  destruct (Hexample "1" "4" eq_refl) as (Hsub & H27 & H277).
  exists sale. split; [exact Hget|].
  rewrite Htotal, Hdisc, Htax, Hsub. repeat split.
Defined.

(** ** Dashboard *)

(** [getDailySalesByDate] gives the sum of the totals of the sales of the
    day, in the order they were stored, and their number. *)
Lemma getDailySalesByDate_sum (host : Host.t) (date : Z) (this : MemStorage.t) :
  let salesOfDay :=
    List.filter (fun sale => Spec.during host date (Sale.sale_date sale))
      (Map.values (MemStorage.sales this)) in
  MemStorage.getDailySalesByDate host date this
  = (Spec.sumOf (List.map Sale.total_amount salesOfDay),
     Z.of_nat (List.length salesOfDay)).
Proof.
  unfold MemStorage.getDailySalesByDate. cbv zeta.
  now rewrite sumTotalAmount_sum.
Qed.

(** C9 — when the sum of total_amount over today's sales is 0, in particular
    when there is no sale today, [GET /api/dashboard/stats] returns the
    formatted constant 45,750,000; when the sum is a number other than 0 it
    is that sum which is formatted and returned, and only then. Today's sales
    are the stored sales whose sale date is in the day of the request, and
    their totals are added in the order they were stored. *)
Theorem dashboard_totalSales_fallback (host : Host.t) (clock : Routes.Clock)
    (user : Routes.UserProfile.t) (storage : MemStorage.t) :
  let today := clock 0%nat in
  let salesOfToday :=
    List.filter (fun sale => Spec.during host today (Sale.sale_date sale))
      (Map.values (MemStorage.sales storage)) in
  let total := Spec.sumOf (List.map Sale.total_amount salesOfToday) in
  let response := fst (Routes.get_dashboard_stats host clock user storage) in
  let shown t := exists a g w, Routes.json response = Routes.Stats t a g w in
  (PrimFloat.eqb total 0 = true -> shown (Host.formatIDR host 45750000))
  /\ (salesOfToday = [] -> total = 0%float /\ shown (Host.formatIDR host 45750000))
  /\ (PrimFloat.eqb total 0 = false -> PrimFloat.is_nan total = false ->
      shown (Host.formatIDR host total))
  /\ (shown (Host.formatIDR host total) ->
      Host.formatIDR host total <> Host.formatIDR host 45750000 ->
      PrimFloat.eqb total 0 = false)
  /\ snd (Routes.get_dashboard_stats host clock user storage) = storage.
Proof.
  intros today salesOfToday total response shown.
  assert (Hjson :
    Routes.json response
    = Routes.Stats
        (Host.formatIDR host
           (if negb (PrimFloat.eqb total 0 || PrimFloat.is_nan total)
            then total else 45750000%float)) "97.8%" "85.2%" "42/50").
  { subst response. unfold Routes.get_dashboard_stats. cbv zeta.
    rewrite getDailySalesByDate_sum. reflexivity. }
  assert (Hzero : PrimFloat.eqb total 0 = true -> shown (Host.formatIDR host 45750000)).
  { intros Hz. unfold shown. rewrite Hjson, Hz. simpl. eauto. }
  split; [exact Hzero|]. split; [|split; [|split; [|reflexivity]]].
  - intros Hnone.
    assert (Htotal : total = 0%float) by (subst total; rewrite Hnone; reflexivity).
    split; [exact Htotal|]. apply Hzero. rewrite Htotal. reflexivity.
  - intros Hz Hnan. unfold shown. rewrite Hjson, Hz, Hnan. simpl. eauto.
  - intros (a & g & w & Heq) Hne. rewrite Hjson in Heq. injection Heq as Heq _ _ _.
    destruct (PrimFloat.eqb total 0); [|reflexivity].
    simpl in Heq. congruence.
Qed.

Lemma dashboard_totalSales_fallback_witness :
  (exists a g w,
      Routes.json (fst (Routes.get_dashboard_stats Fixture.host Fixture.clock
                          Sample.sari Fixture.registered))
      = Routes.Stats "Rp 45.750.000" a g w)
  /\ (exists a g w,
         Routes.json
           (fst (Routes.get_dashboard_stats Fixture.host Fixture.clock Sample.sari
                   (snd (Routes.post_sales Fixture.host Fixture.clock Fixture.pool
                           Fixture.sale Sample.sari Fixture.registered))))
         = Routes.Stats (Host.formatIDR Fixture.host 277.5) a g w).
Proof.
  split.
  - destruct (dashboard_totalSales_fallback Fixture.host Fixture.clock
                Sample.sari Fixture.registered) as (_ & H & _).
    exact (proj2 (H eq_refl)).
  - destruct (dashboard_totalSales_fallback Fixture.host Fixture.clock Sample.sari
                (snd (Routes.post_sales Fixture.host Fixture.clock Fixture.pool
                        Fixture.sale Sample.sari Fixture.registered)))
      as (_ & _ & H & _).
    exact (H eq_refl eq_refl).
Defined.

(** ** Paginated lists *)

Section Pagination.
Context {A : Type} (key : A -> Z).

Lemma insert_desc_Permutation x l : Permutation (insert_desc key x l) (x :: l).
Proof.
  induction l as [|y l IH]; simpl; [reflexivity|].
  destruct (key x <? key y); [|reflexivity].
  rewrite IH. apply perm_swap.
Qed.

Lemma sort_desc_Permutation l : Permutation (sort_desc key l) l.
Proof.
  induction l as [|x l IH]; simpl; [constructor|].
  rewrite insert_desc_Permutation. now constructor.
Qed.

Lemma insert_desc_sorted x l :
  StronglySorted (fun a b => key a >= key b) l ->
  StronglySorted (fun a b => key a >= key b) (insert_desc key x l).
Proof.
  induction 1 as [|y l Hs IH Hy]; simpl; [repeat constructor|].
  destruct (key x <? key y) eqn:E.
  - apply Z.ltb_lt in E. constructor; [assumption|].
    eapply Permutation_Forall.
    + symmetry. apply insert_desc_Permutation.
    + constructor; [lia|assumption].
  - apply Z.ltb_ge in E. constructor; [now constructor|].
    constructor; [lia|]. eapply Forall_impl; [|exact Hy]. simpl. intros. lia.
Qed.

Lemma sort_desc_sorted l : StronglySorted (fun a b => key a >= key b) (sort_desc key l).
Proof.
  induction l as [|x l IH]; simpl; [constructor|]. now apply insert_desc_sorted.
Qed.

Lemma relative_index_bound N i : 0 <= N -> relative_index N i = Spec.bound N i.
Proof.
  intros HN. unfold relative_index, Spec.bound. destruct (i <? 0) eqn:E.
  - apply Z.ltb_lt in E. lia.
  - apply Z.ltb_ge in E. lia.
Qed.

Lemma slice_range (l : list A) a b : slice l a b = Spec.range l a b.
Proof.
  unfold slice, Spec.range. cbv zeta.
  now rewrite !relative_index_bound by lia.
Qed.

Lemma bound_clamp N e : 0 <= N -> Spec.bound N (Z.min N e) = Spec.bound N e.
Proof.
  intros HN. unfold Spec.bound.
  destruct (e <? 0) eqn:E, (Z.min N e <? 0) eqn:E'; lia.
Qed.

(** What every paginated list method computes, against the specification. *)
Lemma paginate_page (mine : list A) (p l : Z) :
  let sorted := sort_desc key mine in
  let startIndex := (p - 1) * l in
  Spec.page key mine p l (slice sorted startIndex (startIndex + l))
    (Z.of_nat (List.length sorted)).
Proof.
  intros sorted startIndex. exists sorted.
  assert (Hperm := sort_desc_Permutation mine). fold sorted in Hperm.
  assert (Hlen : List.length sorted = List.length mine)
    by (now apply Permutation_length).
  set (N := Z.of_nat (List.length mine)).
  assert (Hrange : slice sorted startIndex (startIndex + l)
                   = Spec.range sorted ((p - 1) * l) (Z.min N (p * l))).
  { rewrite slice_range. unfold Spec.range. rewrite Hlen. fold N.
    rewrite bound_clamp by lia.
    now replace (startIndex + l) with (p * l) by (unfold startIndex; lia). }
  split; [exact Hperm|]. split; [apply sort_desc_sorted|].
  split; [now rewrite Hlen|]. split; [exact Hrange|].
  intros Hp Hl. rewrite Hrange. unfold Spec.range. rewrite Hlen. fold N.
  assert (Ha : 0 <= (p - 1) * l) by nia.
  assert (Hb : (p - 1) * l <= p * l) by nia.
  set (a := (p - 1) * l) in *. set (e := Z.min N (p * l)).
  assert (He : Spec.bound N e = e).
  { unfold Spec.bound, e. destruct (Z.min N (p * l) <? 0) eqn:E; [apply Z.ltb_lt in E|]; lia. }
  assert (Hba : Spec.bound N a = Z.min N a).
  { unfold Spec.bound. destruct (a <? 0) eqn:E; [apply Z.ltb_lt in E|]; lia. }
  rewrite He, Hba. destruct (Z_le_gt_dec a N) as [Hle|Hgt].
  - now rewrite Z.min_r by lia.
  - rewrite (skipn_all2 (n := Z.to_nat (Z.min N a))) by lia.
    rewrite (skipn_all2 (n := Z.to_nat a)) by lia.
    now rewrite !firstn_nil.
Qed.
End Pagination.

(** C2 — for every user id, page p and limit l, each paginated list method
    returns the sub-list records[(p-1)*l : min(N, p*l)] of the user's N
    records sorted descending by the primary timestamp (check_in for
    attendance, created_at for sales and work reports), with totalCount = N. *)
Theorem paginated_lists_page (userId p l : Z) (this : MemStorage.t) :
  Spec.page Attendance.check_in
    (List.filter (fun r => Attendance.user_id r =? userId)
       (Map.values (MemStorage.attendance this)))
    p l
    (fst (MemStorage.getAttendanceByUserId userId p l this))
    (snd (MemStorage.getAttendanceByUserId userId p l this))
  /\ Spec.page Sale.created_at
       (List.filter (fun s => Sale.user_id s =? userId)
          (Map.values (MemStorage.sales this)))
       p l
       (fst (MemStorage.getSalesByUserId userId p l this))
       (snd (MemStorage.getSalesByUserId userId p l this))
  /\ Spec.page WorkReport.created_at
       (List.filter (fun r => WorkReport.user_id r =? userId)
          (Map.values (MemStorage.workReports this)))
       p l
       (fst (MemStorage.getWorkReportsByUserId userId p l this))
       (snd (MemStorage.getWorkReportsByUserId userId p l this)).
Proof.
  repeat split; apply paginate_page.
Qed.

(** ** Attendance *)

Lemma updateAttendance_found id data this record :
  Map.get id (MemStorage.attendance this) = Some record ->
  MemStorage.updateAttendance id data this
  = (Normal (MemStorage.mergeAttendance record data),
     MemStorage.with_attendance
       (Map.set id (MemStorage.mergeAttendance record data) (MemStorage.attendance this))
       (MemStorage.attendanceIdCounter this) this).
Proof. intros H. unfold MemStorage.updateAttendance. now rewrite H. Qed.

(** The attendance map of a store the server can be in is keyed by id. *)
Lemma post_attendance_keyed host clock attendanceType note user storage :
  Corresponds.keyed Attendance.id (MemStorage.attendance storage)
    (MemStorage.attendanceIdCounter storage) ->
  let storage' :=
    snd (Routes.post_attendance host clock attendanceType note user storage) in
  Corresponds.keyed Attendance.id (MemStorage.attendance storage')
    (MemStorage.attendanceIdCounter storage').
Proof.
  intros Hkeyed. unfold Routes.post_attendance.
  destruct (String.eqb attendanceType "checkin").
  - destruct (MemStorage.getTodayAttendanceByUserId _ _ _ _); simpl; [assumption|].
    now apply keyed_create.
  - destruct (String.eqb attendanceType "checkout"); [|assumption].
    destruct (MemStorage.getTodayAttendanceByUserId _ _ _ _) as [r|] eqn:Hfind;
      simpl; [|assumption].
    destruct (Attendance.check_out r); simpl; [assumption|].
    apply find_some in Hfind. destruct Hfind as [Hin _].
    rewrite (updateAttendance_found _ _ _ _ (keyed_get_In _ _ _ _ Hkeyed Hin)).
    simpl. now apply (keyed_update Attendance.id _ _ _ r);
      [|apply (keyed_get_In _ _ _ _ Hkeyed Hin)|].
Qed.

Lemma served_attendance_keyed host storage :
  Routes.served host storage ->
  Corresponds.keyed Attendance.id (MemStorage.attendance storage)
    (MemStorage.attendanceIdCounter storage).
Proof.
  induction 1 as [now|storage clock pool request _ IH].
  - simpl. repeat split; constructor.
  - destruct request as [body|auth|auth ty note|auth body|auth body]; simpl.
    + unfold Routes.post_users.
      destruct (Routes.insertUserSchema_parse body); [|assumption].
      destruct (MemStorage.getUserByEmail _ _); assumption.
    + unfold Routes.protectedRoute.
      destruct (Routes.validateSession _ _ _); assumption.
    + unfold Routes.protectedRoute.
      destruct (Routes.validateSession _ _ _); [|assumption].
      now apply post_attendance_keyed.
    + unfold Routes.protectedRoute.
      destruct (Routes.validateSession _ _ _) as [user|]; [|assumption].
      unfold Routes.post_sales.
      destruct (Routes.insertSaleSchema_parse _ _ _ _ _ _ _ _ _ _) as [d|e];
        [|assumption].
      unfold MemStorage.createSale.
      match goal with
      | |- context [Routes.createSaleItems ?h ?c ?n ?i ?l ?s] =>
          pose proof (createSaleItems_frame h c i l n s) as Hframe;
          destruct (Routes.createSaleItems h c n i l s) as [[[]|e] storage2]
      end; simpl in Hframe; destruct Hframe as (_ & _ & Ha & Hc); simpl;
        rewrite Ha, Hc; assumption.
    + unfold Routes.protectedRoute.
      destruct (Routes.validateSession _ _ _); assumption.
Qed.

(** The today-record is an attendance row of the user with check_in in
    [start of today, start of tomorrow), and there is none when the lookup
    finds nothing. *)
Lemma getToday_Some host now userId storage r :
  MemStorage.getTodayAttendanceByUserId host now userId storage = Some r ->
  In r (Map.values (MemStorage.attendance storage))
  /\ Attendance.user_id r = userId
  /\ Host.startOfDay host now <= Attendance.check_in r
     < Host.nextDay host (Host.startOfDay host now).
Proof.
  unfold MemStorage.getTodayAttendanceByUserId. intros E.
  apply find_some in E. destruct E as [Hin Hp].
  apply andb_prop in Hp. destruct Hp as [Hp H3].
  apply andb_prop in Hp. destruct Hp as [H1 H2].
  split; [assumption|]. lia.
Qed.

Lemma getToday_None host now userId storage :
  MemStorage.getTodayAttendanceByUserId host now userId storage = None ->
  forall r, In r (Map.values (MemStorage.attendance storage)) ->
  ~ (Attendance.user_id r = userId
     /\ Host.startOfDay host now <= Attendance.check_in r
        < Host.nextDay host (Host.startOfDay host now)).
Proof.
  unfold MemStorage.getTodayAttendanceByUserId. intros E r Hin.
  apply (find_none _ _ E) in Hin. simpl in Hin.
  apply andb_false_iff in Hin. destruct Hin as [Hin|Hin];
    [apply andb_false_iff in Hin; destruct Hin as [Hin|Hin]|]; lia.
Qed.

Lemma checkoutNote_joined note existing :
  Routes.checkoutNote note existing = Spec.joinedNote existing note.
Proof.
  unfold Routes.checkoutNote, Spec.joinedNote, Spec.provided, truthy_string.
  destruct note as [[|c n]|]; simpl; try reflexivity; destruct existing as [[|c' e]|];
    reflexivity.
Qed.

(** What a request to check out does when the user has a today-record
    [record] that is still open. *)
Lemma post_attendance_checkout_open host clock note user storage record :
  Routes.served host storage ->
  MemStorage.getTodayAttendanceByUserId host (clock 0%nat)
    (Routes.UserProfile.id user) storage = Some record ->
  Attendance.check_out record = None ->
  let updated :=
    {| Attendance.id := Attendance.id record;
       Attendance.user_id := Attendance.user_id record;
       Attendance.check_in := Attendance.check_in record;
       Attendance.check_out := Some (clock 1%nat);
       Attendance.note := Routes.checkoutNote note (Attendance.note record);
       Attendance.location := Attendance.location record;
       Attendance.created_at := Attendance.created_at record |} in
  Map.get (Attendance.id record) (MemStorage.attendance storage) = Some record
  /\ Routes.post_attendance host clock "checkout" note user storage
     = ({| Routes.status := 200;
           Routes.json :=
             Routes.CheckedOut (Attendance.id record)
               (Utils.formatTime host (Some (clock 1%nat)))
               (Utils.calculateWorkingHours host
                  (Utils.DateObj (Attendance.check_in record))
                  (Utils.DateObj (clock 1%nat)))
               "Check-out successful" |},
        MemStorage.with_attendance
          (Map.set (Attendance.id record) updated (MemStorage.attendance storage))
          (MemStorage.attendanceIdCounter storage) storage).
Proof.
  intros Hserved Hfind Hopen updated.
  assert (Hkeyed := served_attendance_keyed host storage Hserved).
  assert (Hget : Map.get (Attendance.id record) (MemStorage.attendance storage)
                 = Some record).
  { apply find_some in Hfind. apply (keyed_get_In _ _ _ _ Hkeyed), Hfind. }
  split; [exact Hget|].
  unfold Routes.post_attendance. simpl String.eqb. cbv iota.
  rewrite Hfind, Hopen, (updateAttendance_found _ _ _ _ Hget). reflexivity.
Qed.

(** C4 — [POST /api/attendance]: a check-in fails with 400 "Already checked
    in today" exactly when the user has an attendance row with check_in in
    [start of today, start of tomorrow), and otherwise creates a record with
    check_in = now; a check-out fails with 400 when there is no today-record
    or when its check_out is set, and otherwise sets check_out = now and
    appends the provided note to the existing one, joined with "; "; a
    failure leaves the store unchanged. *)
Theorem post_attendance_rules (host : Host.t) (clock : Routes.Clock)
    (note : option string) (user : Routes.UserProfile.t) (storage : MemStorage.t) :
  Routes.served host storage ->
  let userId := Routes.UserProfile.id user in
  let today := Host.startOfDay host (clock 0%nat) in
  let tomorrow := Host.nextDay host today in
  let isToday r :=
    In r (Map.values (MemStorage.attendance storage))
    /\ Attendance.user_id r = userId
    /\ today <= Attendance.check_in r < tomorrow in
  let todayRecord :=
    MemStorage.getTodayAttendanceByUserId host (clock 0%nat) userId storage in
  let checkin := Routes.post_attendance host clock "checkin" note user storage in
  let checkout := Routes.post_attendance host clock "checkout" note user storage in
  let failure message := {| Routes.status := 400; Routes.json := Routes.Message message |} in
  ((exists r, isToday r) <-> exists r, todayRecord = Some r /\ isToday r)
  /\ (fst checkin = failure "Already checked in today" <-> exists r, isToday r)
  /\ ((~ exists r, isToday r) ->
      Routes.status (fst checkin) = 201
      /\ exists record,
          Map.get (MemStorage.attendanceIdCounter storage)
            (MemStorage.attendance (snd checkin)) = Some record
          /\ Attendance.user_id record = userId
          /\ Attendance.check_in record = clock 1%nat
          /\ Attendance.check_out record = None)
  /\ ((~ exists r, isToday r) ->
      fst checkout = failure "No check-in record found for today")
  /\ (forall r t,
         todayRecord = Some r -> Attendance.check_out r = Some t ->
         fst checkout = failure "Already checked out today")
  /\ (forall r,
         todayRecord = Some r -> Attendance.check_out r = None ->
         Routes.status (fst checkout) = 200
         /\ exists updated,
             Map.get (Attendance.id r) (MemStorage.attendance (snd checkout))
             = Some updated
             /\ Attendance.check_out updated = Some (clock 1%nat)
             /\ Attendance.note updated = Spec.joinedNote (Attendance.note r) note)
  /\ (forall attendanceType,
         let result :=
           Routes.post_attendance host clock attendanceType note user storage in
         Routes.status (fst result) = 400 -> snd result = storage).
Proof.
  intros Hserved userId today tomorrow isToday todayRecord checkin checkout failure.
  assert (Hsome : forall r, todayRecord = Some r -> isToday r).
  { intros r E. apply (getToday_Some host (clock 0%nat) userId storage r E). }
  assert (Hnone : todayRecord = None -> ~ exists r, isToday r).
  { intros E (r & Hin & Hr).
    apply (getToday_None host (clock 0%nat) userId storage E r Hin Hr). }
  assert (Hin400 : fst checkin = failure "Already checked in today"
                   <-> exists r, isToday r).
  { subst checkin. unfold Routes.post_attendance. simpl String.eqb. cbv iota.
    fold userId. fold todayRecord.
    destruct todayRecord as [r|] eqn:E; simpl.
    - split; [intros _; exists r; now apply Hsome | reflexivity].
    - split; [discriminate | intros Hex; now destruct (Hnone eq_refl)]. }
  split; [|split; [exact Hin400|split; [|split; [|split; [|split]]]]].
  - split; [|intros (r & _ & Hr); now exists r].
    intros Hex. destruct todayRecord as [r|] eqn:E.
    + exists r. split; [reflexivity | now apply Hsome].
    + now destruct (Hnone eq_refl).
  - intros Hno. subst checkin. unfold Routes.post_attendance.
    simpl String.eqb. cbv iota. fold userId. fold todayRecord.
    destruct todayRecord as [r|] eqn:E;
      [exfalso; apply Hno; exists r; now apply Hsome|].
    simpl. split; [reflexivity|]. eexists. rewrite Map_get_set_same.
    split; [reflexivity|]. simpl. auto.
  - intros Hno. subst checkout. unfold Routes.post_attendance.
    simpl String.eqb. cbv iota. fold userId. fold todayRecord.
    destruct todayRecord as [r|] eqn:E;
      [exfalso; apply Hno; exists r; now apply Hsome | reflexivity].
  - intros r t E Hout. subst checkout. unfold Routes.post_attendance.
    simpl String.eqb. cbv iota. fold userId. fold todayRecord.
    rewrite E, Hout. reflexivity.
  - intros r E Hopen.
    destruct (post_attendance_checkout_open host clock note user storage r
                Hserved E Hopen) as (_ & Hrun).
    subst checkout. rewrite Hrun. simpl. split; [reflexivity|].
    eexists. rewrite Map_get_set_same. split; [reflexivity|]. simpl.
    split; [reflexivity | apply checkoutNote_joined].
  - intros attendanceType. unfold Routes.post_attendance.
    destruct (String.eqb attendanceType "checkin").
    + fold userId. fold todayRecord. destruct todayRecord; simpl;
        [reflexivity | discriminate].
    + destruct (String.eqb attendanceType "checkout"); [|reflexivity].
      fold userId. fold todayRecord. destruct todayRecord as [r|] eqn:E; simpl;
        [|reflexivity].
      destruct (Attendance.check_out r) eqn:Hout; simpl; [reflexivity|].
      destruct (post_attendance_checkout_open host clock note user storage r
                  Hserved E Hout) as (Hget & _).
      rewrite (updateAttendance_found _ _ _ _ Hget). simpl. discriminate.
Qed.

Lemma post_attendance_rules_witness :
  fst (Routes.post_attendance Fixture.host Fixture.evening "checkin" None
         (Routes.UserProfile.Build_t 1 "sari" "karyawan" None None "sari@example.com")
         Fixture.checkedIn)
  = {| Routes.status := 400; Routes.json := Routes.Message "Already checked in today" |}.
Proof.
  apply (post_attendance_rules Fixture.host Fixture.evening None
           (Routes.UserProfile.Build_t 1 "sari" "karyawan" None None "sari@example.com")
           Fixture.checkedIn).
  - unfold Fixture.checkedIn, Fixture.registered. repeat apply Routes.served_step.
    apply Routes.served_new.
  - eexists. split; [left; reflexivity|]. vm_compute.
    repeat split; congruence.
Defined.

(** C10 — a successful check-out modifies only the check_out and note
    fields of the user's today-record: its id, user_id, check_in, location
    and created_at, and every other record in the store, are unchanged. *)
Theorem checkout_frame (host : Host.t) (clock : Routes.Clock)
    (note : option string) (user : Routes.UserProfile.t) (storage : MemStorage.t) :
  Routes.served host storage ->
  let result := Routes.post_attendance host clock "checkout" note user storage in
  let storage' := snd result in
  Routes.status (fst result) = 200 ->
  exists before after,
    MemStorage.getTodayAttendanceByUserId host (clock 0%nat)
      (Routes.UserProfile.id user) storage = Some before
    /\ Map.get (Attendance.id before) (MemStorage.attendance storage) = Some before
    /\ Map.get (Attendance.id before) (MemStorage.attendance storage') = Some after
    /\ Attendance.id after = Attendance.id before
    /\ Attendance.user_id after = Attendance.user_id before
    /\ Attendance.check_in after = Attendance.check_in before
    /\ Attendance.location after = Attendance.location before
    /\ Attendance.created_at after = Attendance.created_at before
    /\ (forall k, k <> Attendance.id before ->
          Map.get k (MemStorage.attendance storage')
          = Map.get k (MemStorage.attendance storage))
    /\ Map.keys (MemStorage.attendance storage')
       = Map.keys (MemStorage.attendance storage)
    /\ MemStorage.attendanceIdCounter storage' = MemStorage.attendanceIdCounter storage
    /\ MemStorage.users storage' = MemStorage.users storage
    /\ MemStorage.userIdCounter storage' = MemStorage.userIdCounter storage
    /\ MemStorage.sales storage' = MemStorage.sales storage
    /\ MemStorage.saleIdCounter storage' = MemStorage.saleIdCounter storage
    /\ MemStorage.saleItems storage' = MemStorage.saleItems storage
    /\ MemStorage.saleItemIdCounter storage' = MemStorage.saleItemIdCounter storage
    /\ MemStorage.products storage' = MemStorage.products storage
    /\ MemStorage.productIdCounter storage' = MemStorage.productIdCounter storage
    /\ MemStorage.productCategories storage' = MemStorage.productCategories storage
    /\ MemStorage.categoryIdCounter storage' = MemStorage.categoryIdCounter storage
    /\ MemStorage.workReports storage' = MemStorage.workReports storage
    /\ MemStorage.reportIdCounter storage' = MemStorage.reportIdCounter storage.
Proof.
  intros Hserved result storage' H200.
  destruct (MemStorage.getTodayAttendanceByUserId host (clock 0%nat)
              (Routes.UserProfile.id user) storage) as [before|] eqn:Hfind.
  2:{ exfalso. subst result. unfold Routes.post_attendance in H200.
      simpl String.eqb in H200. cbv iota in H200. rewrite Hfind in H200.
      discriminate. }
  destruct (Attendance.check_out before) eqn:Hout.
  { exfalso. subst result. unfold Routes.post_attendance in H200.
    simpl String.eqb in H200. cbv iota in H200. rewrite Hfind, Hout in H200.
    discriminate. }
  destruct (post_attendance_checkout_open host clock note user storage before
              Hserved Hfind Hout) as (Hget & Hrun).
  subst storage' result. rewrite Hrun. simpl.
  exists before. eexists. split; [reflexivity|]. split; [exact Hget|].
  rewrite Map_get_set_same. split; [reflexivity|]. simpl.
  repeat (split; [reflexivity|]).
  split; [intros k Hk; now apply Map_get_set_other|].
  split; [|repeat split].
  apply Map_keys_set_present. apply (Map_get_In _ _ _ Hget).
Qed.

Lemma checkout_frame_witness :
  exists before after,
    Map.get 1 (MemStorage.attendance Fixture.checkedIn) = Some before
    /\ Map.get 1 (MemStorage.attendance
                    (snd (Routes.post_attendance Fixture.host Fixture.evening
                            "checkout" (Some "left early")
                            (Routes.UserProfile.Build_t 1 "sari" "karyawan" None None
                               "sari@example.com")
                            Fixture.checkedIn))) = Some after
    /\ Attendance.check_in after = Attendance.check_in before
    /\ Attendance.note after = Some "on site; left early".
Proof.
  destruct (checkout_frame Fixture.host Fixture.evening (Some "left early")
              (Routes.UserProfile.Build_t 1 "sari" "karyawan" None None
                 "sari@example.com") Fixture.checkedIn)
    as (before & after & Hfind & Hget & Hget' & _ & _ & Hin & _).
  - unfold Fixture.checkedIn, Fixture.registered. repeat apply Routes.served_step.
    apply Routes.served_new.
  - reflexivity.
  - exists before, after.
    vm_compute in Hfind. injection Hfind as <-.
    split; [exact Hget|]. split; [exact Hget'|]. split; [exact Hin|].
    vm_compute in Hget'. injection Hget' as <-. reflexivity.
Defined.

(** ** Roles *)

Lemma Map_values_set_In {V : Type} k (v x : V) m :
  In x (Map.values (Map.set k v m)) -> x = v \/ In x (Map.values m).
Proof.
  induction m as [|[k' v'] m IH]; simpl.
  - intros [<-|[]]. now left.
  - destruct (k' =? k); simpl.
    + intros [<-|H]; auto.
    + intros [<-|H]; auto. destruct (IH H); auto.
Qed.

Lemma insertUserSchema_parse_role body userData :
  Routes.insertUserSchema_parse body = Normal userData ->
  InsertUser.role userData = "admin" \/ InsertUser.role userData = "karyawan".
Proof.
  unfold Routes.insertUserSchema_parse.
  destruct (Routes.UserBody.username body), (Routes.UserBody.password body),
    (Routes.UserBody.email body), (Routes.UserBody.role body) as [role|];
    try discriminate.
  destruct (List.existsb _ _) eqn:E; [|discriminate].
  intros [= <-]. simpl. unfold Routes.roleEnum in E. simpl in E.
  rewrite orb_false_r in E. apply orb_prop in E.
  destruct E as [E|E]; apply String.eqb_eq in E; auto.
Qed.

(** Only [POST /api/users] writes to the users. *)
Lemma serve_users host clock pool request storage :
  match request with
  | Routes.PostUsers _ => True
  | _ => MemStorage.users (snd (Routes.serve host clock pool request storage))
         = MemStorage.users storage
  end.
Proof.
  destruct request as [body|auth|auth ty note|auth body|auth body]; simpl;
    [exact I|..]; unfold Routes.protectedRoute;
    destruct (Routes.validateSession _ _ _) as [user|]; try reflexivity.
  - unfold Routes.post_attendance.
    destruct (String.eqb ty "checkin").
    + destruct (MemStorage.getTodayAttendanceByUserId _ _ _ _); reflexivity.
    + destruct (String.eqb ty "checkout"); [|reflexivity].
      destruct (MemStorage.getTodayAttendanceByUserId _ _ _ _) as [r|]; [|reflexivity].
      destruct (Attendance.check_out r); [reflexivity|].
      unfold MemStorage.updateAttendance.
      destruct (Map.get _ _); reflexivity.
  - unfold Routes.post_sales.
    destruct (Routes.insertSaleSchema_parse _ _ _ _ _ _ _ _ _ _) as [d|e];
      [|reflexivity].
    unfold MemStorage.createSale.
    match goal with
    | |- context [Routes.createSaleItems ?h ?c ?n ?i ?l ?s] =>
        pose proof (createSaleItems_frame h c i l n s) as Hframe;
        destruct (Routes.createSaleItems h c n i l s) as [[[]|e] storage2]
    end; simpl in Hframe; destruct Hframe as (_ & Hu & _); exact Hu.
Qed.

(** C8, amended — every user row of the store has role "admin" or
    "karyawan", the two values of the role column's enum: a user accepted by
    [POST /api/users] and a profile produced by session validation carry one
    of exactly these two. *)
Theorem roles_admin_or_karyawan (host : Host.t) (storage : MemStorage.t) :
  Routes.served host storage ->
  (forall user,
      In user (Map.values (MemStorage.users storage)) ->
      User.role user = "admin" \/ User.role user = "karyawan")
  /\ (forall clock body user storage',
         Routes.post_users clock body storage
         = ({| Routes.status := 201; Routes.json := Routes.UserRow user |}, storage') ->
         User.role user = "admin" \/ User.role user = "karyawan")
  /\ (forall authorization profile,
         Routes.validateSession host authorization storage = Some profile ->
         Routes.UserProfile.role profile = "admin"
         \/ Routes.UserProfile.role profile = "karyawan").
Proof.
  intros Hserved.
  assert (Hrows : forall user,
             In user (Map.values (MemStorage.users storage)) ->
             User.role user = "admin" \/ User.role user = "karyawan").
  { induction Hserved as [now|storage clock pool request _ IH]; [intros ? []|].
    pose proof (serve_users host clock pool request storage) as Hframe.
    destruct request as [body|auth|auth ty note|auth body|auth body];
      try (rewrite Hframe; exact IH).
    simpl. unfold Routes.post_users.
    destruct (Routes.insertUserSchema_parse body) as [d|e] eqn:Hparse; [|exact IH].
    destruct (MemStorage.getUserByEmail _ _); [exact IH|].
    simpl. intros user Hin. apply Map_values_set_In in Hin.
    destruct Hin as [->|Hin]; [|now apply IH].
    simpl. now apply (insertUserSchema_parse_role body). }
  split; [exact Hrows|]. split.
  - intros clock body user storage'. unfold Routes.post_users.
    destruct (Routes.insertUserSchema_parse body) as [d|e] eqn:Hparse; [|discriminate].
    destruct (MemStorage.getUserByEmail _ _); [discriminate|].
    simpl. intros [= <- _]. simpl. now apply (insertUserSchema_parse_role body).
  - intros authorization profile. unfold Routes.validateSession.
    destruct authorization as [authHeader|]; [|discriminate].
    destruct (negb _); [discriminate|].
    destruct (Host.auth_getUser host _) as [email|]; [|discriminate].
    destruct (MemStorage.getUserByEmail email storage) as [user|] eqn:Hfind;
      [|discriminate].
    intros [= <-]. simpl. apply Hrows.
    unfold MemStorage.getUserByEmail in Hfind. apply find_some in Hfind. tauto.
Qed.

Lemma roles_admin_or_karyawan_witness :
  exists profile,
    Routes.validateSession Fixture.host Fixture.bearer Fixture.registered = Some profile
    /\ (Routes.UserProfile.role profile = "admin"
        \/ Routes.UserProfile.role profile = "karyawan").
Proof.
  destruct (roles_admin_or_karyawan Fixture.host Fixture.registered) as (_ & _ & H).
  - unfold Fixture.registered. apply Routes.served_step, Routes.served_new.
  - eexists. split; [reflexivity|]. apply (H Fixture.bearer). reflexivity.
Defined.

(** C8 as stated fails: the server accepts a user whose role is "karyawan",
    which is neither "admin" nor "staff", hands that role out in the
    validated profile, and rejects the role "staff". *)
Lemma role_staff_counterexample :
  Routes.served Fixture.host Fixture.registered
  /\ (exists user,
         In user (Map.values (MemStorage.users Fixture.registered))
         /\ User.role user <> "admin" /\ User.role user <> "staff")
  /\ (exists profile,
         Routes.validateSession Fixture.host Fixture.bearer Fixture.registered
         = Some profile
         /\ Routes.UserProfile.role profile <> "admin"
         /\ Routes.UserProfile.role profile <> "staff")
  /\ Routes.status
       (fst (Routes.post_users Fixture.clock
               {| Routes.UserBody.username := Some "budi";
                  Routes.UserBody.password := Some "secret";
                  Routes.UserBody.email := Some "budi@example.com";
                  Routes.UserBody.role := Some "staff";
                  Routes.UserBody.full_name := None;
                  Routes.UserBody.avatar_url := None |}
               (MemStorage.new 1705300000000))) = 400.
Proof.
  split; [unfold Fixture.registered; apply Routes.served_step, Routes.served_new|].
  split; [|split; [|reflexivity]].
  - eexists. split; [left; reflexivity|]. split; discriminate.
  - eexists. split; [reflexivity|]. split; discriminate.
Qed.

(** ** Invoice numbers *)

Lemma civil_year_range days :
  days <= 2932896 -> fst (fst (civil_from_days days)) <= 9999.
Proof.
  intros H. unfold civil_from_days. cbv zeta.
  set (z := days + 719468).
  set (era := z / 146097).
  set (doe := z - era * 146097).
  set (yoe := (doe - doe / 1460 + doe / 36524 - doe / 146096) / 365).
  set (doy := doe - (365 * yoe + yoe / 4 - yoe / 100)).
  set (mp := (5 * doy + 2) / 153).
  simpl fst.
  assert (era <= 24) by (subst era z; Z.div_mod_to_equations; lia).
  assert (0 <= doe < 146097) by (subst doe era; Z.div_mod_to_equations; lia).
  assert (0 <= yoe <= 399) by (subst yoe; Z.div_mod_to_equations; lia).
  assert (0 <= doy <= 365) by (subst doy yoe; Z.div_mod_to_equations; lia).
  assert (0 <= mp) by (subst mp; Z.div_mod_to_equations; lia).
  destruct (mp <? 10) eqn:E1; simpl.
  - destruct (mp + 3 <=? 2) eqn:E2; lia.
  - destruct (mp - 9 <=? 2) eqn:E2; [|lia].
    assert (era = 24 -> doe <= 146036) by (subst doe z; lia).
    assert (306 <= doy) by (subst mp; Z.div_mod_to_equations; lia).
    assert (yoe = 399 -> doe >= 146037)
      by (subst doy yoe; Z.div_mod_to_equations; lia).
    lia.
Qed.

Lemma digit_cases n :
  exists k, (k < 10)%nat /\ digit n = ascii_of_nat (48 + k).
Proof.
  exists (Z.to_nat (n mod 10)). split; [|reflexivity].
  pose proof (Z.mod_pos_bound n 10). lia.
Qed.

Lemma isDigit_digit n : Spec.isDigit (digit n) = true.
Proof.
  destruct (digit_cases n) as (k & Hk & ->).
  do 10 (destruct k as [|k]; [reflexivity|]). lia.
Qed.

Lemma isDigit_not_hyphen c : Spec.isDigit c = true -> Ascii.eqb c "-" = false.
Proof.
  intros H. destruct (Ascii.eqb c "-") eqn:E; [|reflexivity].
  apply Ascii.eqb_eq in E. subst c. discriminate.
Qed.

Lemma string_of_list_ascii_app l1 l2 :
  string_of_list_ascii (l1 ++ l2)
  = (string_of_list_ascii l1 ++ string_of_list_ascii l2)%string.
Proof. induction l1 as [|c l1 IH]; simpl; [reflexivity | now rewrite IH]. Qed.

Lemma slice_prefix {A : Type} (l : list A) (n : nat) :
  (n <= List.length l)%nat -> slice l 0 (Z.of_nat n) = firstn n l.
Proof.
  intros Hn. unfold slice, relative_index. cbv zeta.
  replace (Z.of_nat n <? 0) with false by (symmetry; apply Z.ltb_ge; lia).
  change (0 <? 0) with false. cbv iota.
  rewrite (Z.min_l 0) by lia. rewrite Z.min_l by lia.
  rewrite Z.sub_0_r, Nat2Z.id. reflexivity.
Qed.

(** The date part of a generated invoice number: eight digits. Before the
    year 0 the ISO string starts with "-" and six digits of year, and the first
    ten characters end with the month. *)
Lemma dateStr_digits now :
  now < 253402300800000 ->
  exists ds,
    remove_hyphens (String_slice (toISOString now) 0 10) = string_of_list_ascii ds
    /\ List.length ds = 8%nat /\ List.forallb Spec.isDigit ds = true.
Proof.
  intros Hnow. unfold toISOString.
  assert (Hdays : now / 86400000 <= 2932896) by (Z.div_mod_to_equations; lia).
  pose proof (civil_year_range _ Hdays) as Hy.
  destruct (civil_from_days (now / 86400000)) as [[y m] d]. simpl in Hy.
  unfold iso_year.
  destruct (0 <=? y) eqn:Hsign.
  - replace (y <=? 9999) with true by lia. cbn [andb].
    unfold String_slice, remove_hyphens, pad4, pad3, pad2.
    rewrite !list_ascii_of_string_of_list_ascii. cbn [app].
    match goal with
    | |- context [slice ?l 0 10] =>
        change (slice l 0 10) with (slice l 0 (Z.of_nat 10));
        rewrite (slice_prefix l 10) by (cbn [List.length]; lia)
    end.
    cbn [firstn List.filter].
    rewrite !(isDigit_not_hyphen _ (isDigit_digit _)). cbn [negb Ascii.eqb Bool.eqb].
    eexists. split; [reflexivity|]. split; [reflexivity|].
    cbn [List.forallb]. now rewrite !isDigit_digit.
  - cbn [andb]. replace (y <? 0) with true by lia.
    unfold String_slice, remove_hyphens, pad6, pad4, pad3, pad2.
    rewrite !list_ascii_of_string_of_list_ascii. cbn [app].
    match goal with
    | |- context [slice ?l 0 10] =>
        change (slice l 0 10) with (slice l 0 (Z.of_nat 10));
        rewrite (slice_prefix l 10) by (cbn [List.length]; lia)
    end.
    cbn [firstn List.filter].
    rewrite !(isDigit_not_hyphen _ (isDigit_digit _)). cbn [negb Ascii.eqb Bool.eqb].
    eexists. split; [reflexivity|]. split; [reflexivity|].
    cbn [List.forallb]. now rewrite !isDigit_digit.
Qed.

(** The random part: six characters out of [A-Z0-9_-]. *)
Lemma nanoid_suffix pool :
  exists cs,
    toUpperCase (nanoid 6 pool) = string_of_list_ascii cs
    /\ List.length cs = 6%nat /\ List.forallb Spec.urlSuffixChar cs = true.
Proof.
  unfold toUpperCase, nanoid. rewrite list_ascii_of_string_of_list_ascii.
  eexists. split; [reflexivity|]. split; [now rewrite !List.length_map|].
  apply forallb_forall. intros c Hc. apply in_map_iff in Hc.
  destruct Hc as (c0 & <- & Hc0). apply in_map_iff in Hc0.
  destruct Hc0 as (i & <- & _).
  assert (Hall : List.forallb (fun a => Spec.urlSuffixChar (upper_ascii a))
                   (list_ascii_of_string urlAlphabet) = true) by reflexivity.
  rewrite forallb_forall in Hall. apply Hall, nth_In.
  change (List.length (list_ascii_of_string urlAlphabet)) with 64%nat.
  change 63 with (Z.ones 6). rewrite Z.land_ones by lia.
  pose proof (Z.mod_pos_bound (pool i) (2 ^ 6)). lia.
Qed.

Lemma invoiceShape_intro ok ds cs :
  List.length ds = 8%nat -> List.forallb Spec.isDigit ds = true ->
  List.length cs = 6%nat -> List.forallb ok cs = true ->
  Spec.invoiceShape ok
    ("INV-" ++ string_of_list_ascii ds ++ "-" ++ string_of_list_ascii cs)%string
  = true.
Proof.
  intros Hd Hds Hc Hcs.
  do 9 (destruct ds as [|? ds]; try discriminate).
  do 7 (destruct cs as [|? cs]; try discriminate).
  unfold Spec.invoiceShape. cbn -[Spec.isDigit] in *.
  rewrite Hds, Hcs. reflexivity.
Qed.

Lemma isoDate_digits saleDate :
  Spec.isoDate saleDate = true ->
  exists ds,
    remove_hyphens saleDate = string_of_list_ascii ds
    /\ List.length ds = 8%nat /\ List.forallb Spec.isDigit ds = true.
Proof.
  unfold Spec.isoDate, remove_hyphens.
  destruct (list_ascii_of_string saleDate)
    as [|y1 [|y2 [|y3 [|y4 [|h1 [|m1 [|m2 [|h2 [|d1 [|d2 [|]]]]]]]]]]];
    try discriminate.
  intros H. apply andb_prop in H. destruct H as [H Hh2].
  apply andb_prop in H. destruct H as [H Hh1].
  apply Ascii.eqb_eq in Hh1, Hh2. subst h1 h2.
  exists [y1; y2; y3; y4; m1; m2; d1; d2].
  split; [|split; [reflexivity | exact H]].
  cbn -[Spec.isDigit] in H.
  repeat (apply andb_prop in H; destruct H as [?D H]).
  cbn [List.filter].
  rewrite (isDigit_not_hyphen y1), (isDigit_not_hyphen y2), (isDigit_not_hyphen y3),
    (isDigit_not_hyphen y4), (isDigit_not_hyphen m1), (isDigit_not_hyphen m2),
    (isDigit_not_hyphen d1), (isDigit_not_hyphen d2) by assumption.
  reflexivity.
Qed.

(** A sale recorded by the handler carries the number the handler built. *)
Lemma post_sales_invoice_number host clock pool body user storage :
  let result := Routes.post_sales host clock pool body user storage in
  Routes.status (fst result) = 201 ->
  exists sale,
    Map.get (MemStorage.saleIdCounter storage) (MemStorage.sales (snd result))
    = Some sale
    /\ Sale.invoice_number sale
       = Routes.invoiceNumberOf (Routes.SalesFormData.saleDate body) pool.
Proof.
  intros result. subst result. unfold Routes.post_sales.
  destruct (Routes.insertSaleSchema_parse _ _ _ _ _ _ _ _ _ _) as [d|e] eqn:Hparse;
    [|discriminate].
  apply insertSaleSchema_parse_Normal in Hparse.
  destruct Hparse as (_ & _ & _ & Hinv & _).
  unfold MemStorage.createSale. rewrite Hinv.
  match goal with
  | |- context [Routes.createSaleItems ?h ?c ?n ?i ?l ?s] =>
      pose proof (createSaleItems_frame h c i l n s) as Hframe;
      destruct (Routes.createSaleItems h c n i l s) as [[[]|e] storage2]
  end; simpl in Hframe; destruct Hframe as (Hsales & _); simpl; [|discriminate].
  intros _. eexists. rewrite Hsales, Map_get_set_same. split; reflexivity.
Qed.

(** C6, amended — an invoice number generated by [createSale], for every
    clock a [Date] can hold before the year 10000, matches
    INV-\d{8}-[A-Z0-9_-]{6}; the one
    the [POST /api/sales] handler generates is "INV-", the submitted sale
    date without its hyphens, "-" and six characters out of [A-Z0-9_-], and
    matches that pattern when the sale date has the form YYYY-MM-DD. *)
Theorem invoice_number_shape (now : Z) (pool : nat -> Z) :
  -8640000000000000 <= now < 253402300800000 ->
  Spec.invoicePatternUrl (MemStorage.generatedInvoiceNumber now pool) = true
  /\ (forall saleData this,
         truthy_opt_string (InsertSale.invoice_number saleData) = false ->
         Sale.invoice_number (fst (MemStorage.createSale now pool saleData this))
         = MemStorage.generatedInvoiceNumber now pool)
  /\ (forall saleDate,
         exists cs,
           Routes.invoiceNumberOf saleDate pool
           = ("INV-" ++ remove_hyphens saleDate ++ "-" ++ string_of_list_ascii cs)%string
           /\ List.length cs = 6%nat
           /\ List.forallb Spec.urlSuffixChar cs = true)
  /\ (forall saleDate,
         Spec.isoDate saleDate = true ->
         Spec.invoicePatternUrl (Routes.invoiceNumberOf saleDate pool) = true)
  /\ (forall host clock body user storage,
         let result := Routes.post_sales host clock pool body user storage in
         Routes.status (fst result) = 201 ->
         exists sale,
           Map.get (MemStorage.saleIdCounter storage) (MemStorage.sales (snd result))
           = Some sale
           /\ Sale.invoice_number sale
              = Routes.invoiceNumberOf (Routes.SalesFormData.saleDate body) pool).
Proof.
  intros Hnow.
  destruct (dateStr_digits now (proj2 Hnow)) as (ds & Hds & Hlen & Hdigits).
  destruct (nanoid_suffix pool) as (cs & Hcs & Hclen & Hchars).
  split; [|split; [|split; [|split]]].
  - unfold MemStorage.generatedInvoiceNumber. cbv zeta. rewrite Hds, Hcs.
    now apply invoiceShape_intro.
  - intros saleData this Hfalsy. unfold MemStorage.createSale. rewrite Hfalsy.
    reflexivity.
  - intros saleDate. exists cs. unfold Routes.invoiceNumberOf. rewrite Hcs. auto.
  - intros saleDate Hiso.
    destruct (isoDate_digits saleDate Hiso) as (ds' & Hds' & Hlen' & Hdigits').
    unfold Routes.invoiceNumberOf. rewrite Hds', Hcs. now apply invoiceShape_intro.
  - intros host clock body user storage.
    apply post_sales_invoice_number.
Qed.

Lemma invoice_number_shape_witness :
  Spec.invoicePatternUrl
    (MemStorage.generatedInvoiceNumber 1705309200000 (fun _ => 44)) = true
  /\ Spec.invoicePatternUrl (Routes.invoiceNumberOf "2024-01-15" Fixture.pool) = true.
Proof.
  destruct (invoice_number_shape 1705309200000 (fun _ => 44)) as (H & _); [lia|].
  destruct (invoice_number_shape 1705309200000 Fixture.pool) as (_ & _ & _ & H' & _);
    [lia|].
  split; [exact H | exact (H' "2024-01-15" eq_refl)].
Defined.

(** C6 as stated fails: [nanoid] draws from an alphabet that contains "_"
    and "-", which upper-casing leaves alone, the handler copies whatever
    the client sent as sale date, and an ISO year past 9999 has a sign and
    six digits. *)
Lemma invoice_pattern_counterexample :
  MemStorage.generatedInvoiceNumber 1705309200000 (fun _ => 44) = "INV-20240115-______"
  /\ Spec.invoicePattern
       (MemStorage.generatedInvoiceNumber 1705309200000 (fun _ => 44)) = false
  /\ Sale.invoice_number
       (fst (MemStorage.createSale 1705309200000 (fun _ => 44)
               {| InsertSale.invoice_number := None; InsertSale.user_id := 1;
                  InsertSale.customer_name := "PT Maju";
                  InsertSale.sale_date := 1705276800000;
                  InsertSale.total_amount := 277.5; InsertSale.tax_amount := 27.5;
                  InsertSale.discount_amount := 0;
                  InsertSale.payment_method := "cash"; InsertSale.notes := None;
                  InsertSale.status := "completed" |}
               Fixture.registered))
     = "INV-20240115-______"
  /\ Routes.invoiceNumberOf "2024-01-15T10:30" Fixture.pool
     = "INV-20240115T10:30-JACKVE"
  /\ Spec.invoicePattern (Routes.invoiceNumberOf "2024-01-15T10:30" Fixture.pool)
     = false
  /\ MemStorage.generatedInvoiceNumber 253402300800000 Fixture.pool
     = "INV-+01000001-JACKVE".
Proof. repeat split; vm_compute; reflexivity. Qed.

(** ** Updates *)

Lemma endsWith_refl ending : Spec.endsWith ending ending = true.
Proof. destruct ending; simpl; [reflexivity|]. now rewrite Ascii.eqb_refl, String.eqb_refl. Qed.

Lemma endsWith_app ending s1 s2 :
  Spec.endsWith ending s2 = true -> Spec.endsWith ending (s1 ++ s2)%string = true.
Proof.
  intros H. induction s1 as [|c s1 IH]; [exact H|].
  cbn [String.append Spec.endsWith]. rewrite IH. apply orb_true_r.
Qed.

Lemma notFound_message what (id : Z) :
  Spec.notFound (what ++ string_of_Z id ++ " not found")%string = true.
Proof. unfold Spec.notFound. do 2 apply endsWith_app. apply endsWith_refl. Qed.

(** The updates of [SupabaseStorage]. *)
Lemma SupabaseStorage_update id attendanceData reportData db :
  (exists message,
      SupabaseStorage.updateAttendance id attendanceData db = (Throw message, db)
      /\ Spec.notFound message = false)
  /\ (exists message,
         SupabaseStorage.updateWorkReport id reportData db = (Throw message, db)
         /\ Spec.notFound message = false).
Proof.
  unfold SupabaseStorage.updateAttendance, SupabaseStorage.updateWorkReport,
    SupabaseStorage.set.
  split.
  - destruct (SupabaseStorage.noAttendanceValues attendanceData);
      eexists; split; reflexivity.
  - destruct (SupabaseStorage.noWorkReportValues reportData);
      eexists; split; reflexivity.
Qed.




(** ** The operations of the interface *)

(** Every operation of [SupabaseStorage] is rejected and leaves the object
    as it is. *)
Lemma onSupabaseStorage_rejects host now pool call db :
  exists message,
    IStorage.onSupabaseStorage host now pool call db = (Throw message, db)
    /\ Spec.notFound message = false.
Proof.
  destruct call; try (eexists; split; reflexivity).
  - simpl. unfold SupabaseStorage.set.
    destruct (SupabaseStorage.noAttendanceValues data); eexists; split; reflexivity.
  - simpl. unfold SupabaseStorage.set.
    destruct (SupabaseStorage.noWorkReportValues data); eexists; split; reflexivity.
Qed.

Lemma onMemStorage_settles host now pool call this :
  let mem := IStorage.onMemStorage host now pool call this in
  if Spec.updatesNoRecord call this
  then exists message,
         mem = (Throw message, this) /\ Spec.notFound message = true
  else exists value, fst mem = Normal value.
Proof.
  destruct call; cbn [Spec.updatesNoRecord IStorage.onMemStorage];
    try (eexists; reflexivity).
  - unfold MemStorage.updateAttendance.
    destruct (Map.get id (MemStorage.attendance this)); eexists;
      [reflexivity | split; [reflexivity|]].
    apply (notFound_message "Attendance record with id ").
  - unfold MemStorage.updateWorkReport.
    destruct (Map.get id (MemStorage.workReports this)); eexists;
      [reflexivity | split; [reflexivity|]].
    apply (notFound_message "Work report with id ").
Qed.

(** No call settles alike on the two classes. *)
Lemma backends_never_agree host now pool call this db :
  fst (IStorage.onMemStorage host now pool call this)
  <> fst (IStorage.onSupabaseStorage host now pool call db).
Proof.
  pose proof (onSupabaseStorage_rejects host now pool call db) as (e & -> & He).
  pose proof (onMemStorage_settles host now pool call this) as Hm. cbv zeta in Hm.
  cbn [fst]. destruct (Spec.updatesNoRecord call this).
  - destruct Hm as (message & -> & Hnf). cbn [fst]. intros [= ->]. congruence.
  - destruct Hm as (value & ->). discriminate.
Qed.



(** * Further properties of the code *)

(** ** Isolation of the requests *)

Lemma createSaleItems_touches_items host clock saleId items :
  forall n storage,
    let storage' := snd (Routes.createSaleItems host clock n saleId items storage) in
    Frame.users storage' storage /\ Frame.attendance storage' storage
    /\ Frame.workReports storage' storage /\ Frame.catalogue storage' storage
    /\ MemStorage.sales storage' = MemStorage.sales storage
    /\ MemStorage.saleIdCounter storage' = MemStorage.saleIdCounter storage.
Proof.
  induction items as [|item rest IH]; intros n storage; simpl.
  - unfold Frame.users, Frame.attendance, Frame.workReports, Frame.catalogue. tauto.
  - destruct (Routes.insertSaleItemSchema_parse _ _ _ _) as [d|e]; simpl.
    + specialize (IH (S n) (snd (MemStorage.createSaleItem (clock n) d storage))).
      simpl in IH. exact IH.
    + unfold Frame.users, Frame.attendance, Frame.workReports, Frame.catalogue. tauto.
Qed.

Lemma serve_frame (host : Host.t) (clock : Routes.Clock)
    (pool : nat -> Z) (request : Routes.Request) (storage : MemStorage.t) :
  let storage' := snd (Routes.serve host clock pool request storage) in
  Frame.catalogue storage' storage
  /\ match request with
     | Routes.PostUsers _ =>
         Frame.attendance storage' storage /\ Frame.sales storage' storage
         /\ Frame.workReports storage' storage
     | Routes.GetDashboardStats _ => storage' = storage
     | Routes.PostAttendance _ _ _ =>
         Frame.users storage' storage /\ Frame.sales storage' storage
         /\ Frame.workReports storage' storage
     | Routes.PostSales _ _ =>
         Frame.users storage' storage /\ Frame.attendance storage' storage
         /\ Frame.workReports storage' storage
     | Routes.PostReports _ _ =>
         Frame.users storage' storage /\ Frame.attendance storage' storage
         /\ Frame.sales storage' storage
     end.
Proof.
  assert (Hsame : Frame.catalogue storage storage /\ Frame.users storage storage
                  /\ Frame.attendance storage storage /\ Frame.sales storage storage
                  /\ Frame.workReports storage storage).
  { unfold Frame.catalogue, Frame.users, Frame.attendance, Frame.sales,
      Frame.workReports. tauto. }
  destruct request as [body|auth|auth ty note|auth body|auth body]; simpl.
  - unfold Routes.post_users.
    destruct (Routes.insertUserSchema_parse body); [|tauto].
    destruct (MemStorage.getUserByEmail _ _); [tauto|].
    simpl. unfold Frame.catalogue, Frame.attendance, Frame.sales, Frame.workReports.
    simpl. tauto.
  - unfold Routes.protectedRoute.
    destruct (Routes.validateSession _ _ _); simpl; tauto.
  - unfold Routes.protectedRoute.
    destruct (Routes.validateSession _ _ _) as [user|]; [|simpl; tauto].
    unfold Routes.post_attendance.
    destruct (String.eqb ty "checkin").
    + destruct (MemStorage.getTodayAttendanceByUserId _ _ _ _); simpl; [tauto|].
      unfold Frame.catalogue, Frame.users, Frame.sales, Frame.workReports.
      simpl. tauto.
    + destruct (String.eqb ty "checkout"); [|simpl; tauto].
      destruct (MemStorage.getTodayAttendanceByUserId _ _ _ _) as [r|]; [|simpl; tauto].
      destruct (Attendance.check_out r); [simpl; tauto|].
      unfold MemStorage.updateAttendance.
      destruct (Map.get _ _); simpl; [|tauto].
      unfold Frame.catalogue, Frame.users, Frame.sales, Frame.workReports.
      simpl. tauto.
  - unfold Routes.protectedRoute.
    destruct (Routes.validateSession _ _ _) as [user|]; [|simpl; tauto].
    unfold Routes.post_sales.
    destruct (Routes.insertSaleSchema_parse _ _ _ _ _ _ _ _ _ _) as [d|e];
      [|simpl; tauto].
    unfold MemStorage.createSale.
    match goal with
    | |- context [Routes.createSaleItems ?h ?c ?n ?i ?l ?s] =>
        pose proof (createSaleItems_touches_items h c i l n s) as Hframe;
        destruct (Routes.createSaleItems h c n i l s) as [[[]|e] storage2]
    end; simpl in Hframe; simpl; tauto.
  - unfold Routes.protectedRoute.
    destruct (Routes.validateSession _ _ _) as [user|]; [|simpl; tauto].
    unfold Routes.post_reports, MemStorage.createWorkReport. simpl.
    unfold Frame.catalogue, Frame.users, Frame.attendance, Frame.sales. simpl. tauto.
Qed.

(** X19 — a request changes at most the table it is about: none changes the
    products and categories; [POST /api/users] leaves attendance, sales, sale
    items and work reports as they were, [POST /api/attendance] the users,
    sales and work reports, [POST /api/sales] the users, attendance and work
    reports, [POST /api/reports] the users, attendance and sales; and
    [GET /api/dashboard/stats] changes nothing. The counters are part of
    the tables. *)
Theorem serve_touches_its_table (host : Host.t) (clock : Routes.Clock)
    (pool : nat -> Z) (request : Routes.Request) (storage : MemStorage.t) :
  let storage' := snd (Routes.serve host clock pool request storage) in
  Frame.catalogue storage' storage
  /\ match request with
     | Routes.PostUsers _ =>
         Frame.attendance storage' storage /\ Frame.sales storage' storage
         /\ Frame.workReports storage' storage
     | Routes.GetDashboardStats _ => storage' = storage
     | Routes.PostAttendance _ _ _ =>
         Frame.users storage' storage /\ Frame.sales storage' storage
         /\ Frame.workReports storage' storage
     | Routes.PostSales _ _ =>
         Frame.users storage' storage /\ Frame.attendance storage' storage
         /\ Frame.workReports storage' storage
     | Routes.PostReports _ _ =>
         Frame.users storage' storage /\ Frame.attendance storage' storage
         /\ Frame.sales storage' storage
     end.
Proof. exact (serve_frame host clock pool request storage). Qed.

(** ** Ids *)

Lemma wellKeyed_new now : Invariant.wellKeyed (MemStorage.new now).
Proof. unfold Invariant.wellKeyed, Corresponds.keyed. simpl. repeat split; constructor. Qed.

Lemma updateAttendance_keyed id data this :
  Corresponds.keyed Attendance.id (MemStorage.attendance this)
    (MemStorage.attendanceIdCounter this) ->
  let this' := snd (MemStorage.updateAttendance id data this) in
  Corresponds.keyed Attendance.id (MemStorage.attendance this')
    (MemStorage.attendanceIdCounter this').
Proof.
  intros Hk. unfold MemStorage.updateAttendance.
  destruct (Map.get id (MemStorage.attendance this)) as [r|] eqn:Hget; simpl;
    [|assumption].
  apply (keyed_update Attendance.id _ _ _ r); [assumption..|].
  simpl. exact (keyed_get_id Attendance.id _ _ _ _ Hk Hget).
Qed.

Lemma updateWorkReport_keyed id data this :
  Corresponds.keyed WorkReport.id (MemStorage.workReports this)
    (MemStorage.reportIdCounter this) ->
  let this' := snd (MemStorage.updateWorkReport id data this) in
  Corresponds.keyed WorkReport.id (MemStorage.workReports this')
    (MemStorage.reportIdCounter this').
Proof.
  intros Hk. unfold MemStorage.updateWorkReport.
  destruct (Map.get id (MemStorage.workReports this)) as [r|] eqn:Hget; simpl;
    [|assumption].
  apply (keyed_update WorkReport.id _ _ _ r); [assumption..|].
  simpl. exact (keyed_get_id WorkReport.id _ _ _ _ Hk Hget).
Qed.

Lemma onMemStorage_wellKeyed host now pool call this :
  Invariant.wellKeyed this ->
  Invariant.wellKeyed (snd (IStorage.onMemStorage host now pool call this)).
Proof.
  intros Hwk. pose proof Hwk as (Hu & Ha & Hs & Hr).
  destruct call; simpl; try exact Hwk.
  - (* createUser *)
    split; [|tauto]. simpl. now apply keyed_create.
  - (* createAttendance *)
    split; [exact Hu|]. split; [|tauto]. simpl. now apply keyed_create.
  - (* updateAttendance *)
    pose proof (updateAttendance_keyed id data this Ha) as Hk.
    unfold MemStorage.updateAttendance in *.
    destruct (Map.get id (MemStorage.attendance this)); simpl in *; [|exact Hwk].
    split; [exact Hu|]. split; [exact Hk|]. tauto.
  - (* createSale *)
    split; [exact Hu|]. split; [exact Ha|]. split; [|exact Hr].
    simpl. now apply keyed_create.
  - (* createWorkReport *)
    split; [exact Hu|]. split; [exact Ha|]. split; [exact Hs|].
    simpl. now apply keyed_create.
  - (* updateWorkReport *)
    pose proof (updateWorkReport_keyed id data this Hr) as Hk.
    unfold MemStorage.updateWorkReport in *.
    destruct (Map.get id (MemStorage.workReports this)); simpl in *; [|exact Hwk].
    split; [exact Hu|]. split; [exact Ha|]. split; [exact Hs|]. exact Hk.
Qed.

Lemma serve_wellKeyed host clock pool request this :
  Invariant.wellKeyed this ->
  Invariant.wellKeyed (snd (Routes.serve host clock pool request this)).
Proof.
  intros Hwk. pose proof Hwk as (Hu & Ha & Hs & Hr).
  pose proof (serve_frame host clock pool request this) as (_ & Hframe).
  destruct request as [body|auth|auth ty note|auth body|auth body].
  - destruct Hframe as ((Ha1 & Ha2) & (Hs1 & Hs2 & _) & (Hr1 & Hr2)).
    unfold Invariant.wellKeyed. rewrite Ha1, Ha2, Hs1, Hs2, Hr1, Hr2.
    split; [|tauto]. simpl. unfold Routes.post_users.
    destruct (Routes.insertUserSchema_parse body); [|exact Hu].
    destruct (MemStorage.getUserByEmail _ _); [exact Hu|].
    simpl. now apply keyed_create.
  - cbv zeta in Hframe. rewrite Hframe. exact Hwk.
  - destruct Hframe as ((Hu1 & Hu2) & (Hs1 & Hs2 & _) & (Hr1 & Hr2)).
    unfold Invariant.wellKeyed. rewrite Hu1, Hu2, Hs1, Hs2, Hr1, Hr2.
    split; [exact Hu|]. split; [|tauto].
    simpl. unfold Routes.protectedRoute.
    destruct (Routes.validateSession _ _ _); [|exact Ha].
    now apply post_attendance_keyed.
  - destruct Hframe as ((Hu1 & Hu2) & (Ha1 & Ha2) & (Hr1 & Hr2)).
    unfold Invariant.wellKeyed. rewrite Hu1, Hu2, Ha1, Ha2, Hr1, Hr2.
    split; [exact Hu|]. split; [exact Ha|]. split; [|exact Hr].
    simpl. unfold Routes.protectedRoute.
    destruct (Routes.validateSession _ _ _) as [user|]; [|exact Hs].
    unfold Routes.post_sales.
    destruct (Routes.insertSaleSchema_parse _ _ _ _ _ _ _ _ _ _) as [d|e];
      [|exact Hs].
    unfold MemStorage.createSale.
    match goal with
    | |- context [Routes.createSaleItems ?h ?c ?n ?i ?l ?s] =>
        pose proof (createSaleItems_touches_items h c i l n s) as Hitems;
        destruct (Routes.createSaleItems h c n i l s) as [[[]|e] storage2]
    end; simpl in Hitems; destruct Hitems as (_ & _ & _ & _ & Hs1 & Hs2); simpl;
      rewrite Hs1, Hs2; now apply keyed_create.
  - destruct Hframe as ((Hu1 & Hu2) & (Ha1 & Ha2) & (Hs1 & Hs2 & _)).
    unfold Invariant.wellKeyed. rewrite Hu1, Hu2, Ha1, Ha2, Hs1, Hs2.
    split; [exact Hu|]. split; [exact Ha|]. split; [exact Hs|].
    simpl. unfold Routes.protectedRoute.
    destruct (Routes.validateSession _ _ _) as [user|]; [|exact Hr].
    unfold Routes.post_reports, MemStorage.createWorkReport. simpl.
    now apply keyed_create.
Qed.

Lemma served_reachable host storage :
  Routes.served host storage -> Invariant.reachable host storage.
Proof.
  induction 1; [apply Invariant.reachable_new | now apply Invariant.reachable_request].
Qed.

Lemma keyed_ids {V : Type} (id : V -> Z) m c :
  Corresponds.keyed id m c ->
  NoDup (List.map id (Map.values m))
  /\ Forall (fun v => id v < c) (Map.values m).
Proof.
  intros (Hk & Hnd & Hlt). rewrite <- Hk. split; [exact Hnd|].
  rewrite Forall_forall in *. intros v Hv. apply Hlt. rewrite Hk. now apply in_map.
Qed.

Lemma reachable_keyed host this :
  Invariant.reachable host this -> Invariant.wellKeyed this.
Proof.
  induction 1.
  - apply wellKeyed_new.
  - now apply onMemStorage_wellKeyed.
  - now apply serve_wellKeyed.
Qed.

(** X1 — in every store [MemStorage] can reach, from the constructor by
    calls of the interface and requests to the server, [getUser],
    [getAttendanceById], [getSaleById] and [getWorkReportById] return a row
    whose id is the one asked for, no two rows of a map share an id, and
    every id is below the counter of its map. *)
Theorem reachable_wellKeyed (host : Host.t) (this : MemStorage.t) :
  Invariant.reachable host this ->
  (forall id user, MemStorage.getUser id this = Some user -> User.id user = id)
  /\ (forall id record,
         MemStorage.getAttendanceById id this = Some record -> Attendance.id record = id)
  /\ (forall id sale, MemStorage.getSaleById id this = Some sale -> Sale.id sale = id)
  /\ (forall id report,
         MemStorage.getWorkReportById id this = Some report -> WorkReport.id report = id)
  /\ (NoDup (List.map User.id (Map.values (MemStorage.users this)))
      /\ Forall (fun u => User.id u < MemStorage.userIdCounter this)
           (Map.values (MemStorage.users this)))
  /\ (NoDup (List.map Attendance.id (Map.values (MemStorage.attendance this)))
      /\ Forall (fun r => Attendance.id r < MemStorage.attendanceIdCounter this)
           (Map.values (MemStorage.attendance this)))
  /\ (NoDup (List.map Sale.id (Map.values (MemStorage.sales this)))
      /\ Forall (fun s => Sale.id s < MemStorage.saleIdCounter this)
           (Map.values (MemStorage.sales this)))
  /\ (NoDup (List.map WorkReport.id (Map.values (MemStorage.workReports this)))
      /\ Forall (fun r => WorkReport.id r < MemStorage.reportIdCounter this)
           (Map.values (MemStorage.workReports this)))
  /\ Invariant.wellKeyed this.
Proof.
  intros Hreach. pose proof (reachable_keyed host this Hreach) as Hwk.
  pose proof Hwk as (Hu & Ha & Hs & Hr).
  split; [intros id user; apply (keyed_get_id User.id _ _ _ _ Hu)|].
  split; [intros id r; apply (keyed_get_id Attendance.id _ _ _ _ Ha)|].
  split; [intros id s; apply (keyed_get_id Sale.id _ _ _ _ Hs)|].
  split; [intros id r; apply (keyed_get_id WorkReport.id _ _ _ _ Hr)|].
  split; [exact (keyed_ids User.id _ _ Hu)|].
  split; [exact (keyed_ids Attendance.id _ _ Ha)|].
  split; [exact (keyed_ids Sale.id _ _ Hs)|].
  split; [exact (keyed_ids WorkReport.id _ _ Hr)|].
  exact Hwk.
Qed.

Lemma reachable_wellKeyed_witness :
  NoDup (List.map Attendance.id (Map.values (MemStorage.attendance Fixture.checkedIn)))
  /\ Forall (fun r => Attendance.id r < MemStorage.attendanceIdCounter Fixture.checkedIn)
       (Map.values (MemStorage.attendance Fixture.checkedIn)).
Proof.
  apply (reachable_wellKeyed Fixture.host Fixture.checkedIn).
  unfold Fixture.checkedIn, Fixture.registered.
  repeat apply Invariant.reachable_request. apply Invariant.reachable_new.
Defined.

Section KeyedCreate.
Context {V : Type} (id : V -> Z).

Lemma keyed_create_get m c v :
  Corresponds.keyed id m c -> id v = c ->
  Map.get c m = None
  /\ Map.get c (Map.set c v m) = Some v
  /\ (forall k x, Map.get k m = Some x -> Map.get k (Map.set c v m) = Some x)
  /\ Map.values (Map.set c v m) = Map.values m ++ [v].
Proof.
  intros Hk Hid.
  assert (Hfresh : ~ In c (Map.keys m)).
  { destruct Hk as (_ & _ & Hlt). rewrite Forall_forall in Hlt.
    intros Hin. specialize (Hlt _ Hin). lia. }
  split; [now apply Map_get_None|]. split; [apply Map_get_set_same|]. split.
  - intros k x Hget. rewrite Map_get_set_other; [assumption|].
    intros <-. apply Map_get_In in Hget. tauto.
  - rewrite (Map_set_fresh _ _ _ Hfresh). unfold Map.values.
    now rewrite List.map_app.
Qed.
End KeyedCreate.

(** X2 — in a reachable store, a row that [createUser], [createAttendance],
    [createSale] or [createWorkReport] returns has an id under which nothing
    was stored, is what the get-by-id method returns afterwards, and every
    row that could be got before can still be got, unchanged. *)
Theorem create_then_get (host : Host.t) (now : Z) (pool : nat -> Z)
    (this : MemStorage.t) :
  Invariant.reachable host this ->
  (forall data,
      let created := MemStorage.createUser now data this in
      MemStorage.getUser (User.id (fst created)) this = None
      /\ MemStorage.getUser (User.id (fst created)) (snd created) = Some (fst created)
      /\ (forall id user, MemStorage.getUser id this = Some user ->
                          MemStorage.getUser id (snd created) = Some user))
  /\ (forall data,
         let created := MemStorage.createAttendance now data this in
         MemStorage.getAttendanceById (Attendance.id (fst created)) this = None
         /\ MemStorage.getAttendanceById (Attendance.id (fst created)) (snd created)
            = Some (fst created)
         /\ (forall id record,
                MemStorage.getAttendanceById id this = Some record ->
                MemStorage.getAttendanceById id (snd created) = Some record))
  /\ (forall data,
         let created := MemStorage.createSale now pool data this in
         MemStorage.getSaleById (Sale.id (fst created)) this = None
         /\ MemStorage.getSaleById (Sale.id (fst created)) (snd created)
            = Some (fst created)
         /\ (forall id sale,
                MemStorage.getSaleById id this = Some sale ->
                MemStorage.getSaleById id (snd created) = Some sale))
  /\ (forall data,
         let created := MemStorage.createWorkReport now data this in
         MemStorage.getWorkReportById (WorkReport.id (fst created)) this = None
         /\ MemStorage.getWorkReportById (WorkReport.id (fst created)) (snd created)
            = Some (fst created)
         /\ (forall id report,
                MemStorage.getWorkReportById id this = Some report ->
                MemStorage.getWorkReportById id (snd created) = Some report)).
Proof.
  intros Hreach. destruct (reachable_keyed host this Hreach) as (Hu & Ha & Hs & Hr).
  split; [|split; [|split]]; intros data created; subst created; simpl.
  - destruct (keyed_create_get User.id _ _
                (fst (MemStorage.createUser now data this)) Hu eq_refl)
      as (H1 & H2 & H3 & _). auto.
  - destruct (keyed_create_get Attendance.id _ _
                (fst (MemStorage.createAttendance now data this)) Ha eq_refl)
      as (H1 & H2 & H3 & _). auto.
  - destruct (keyed_create_get Sale.id _ _
                (fst (MemStorage.createSale now pool data this)) Hs eq_refl)
      as (H1 & H2 & H3 & _). auto.
  - destruct (keyed_create_get WorkReport.id _ _
                (fst (MemStorage.createWorkReport now data this)) Hr eq_refl)
      as (H1 & H2 & H3 & _). auto.
Qed.

Lemma create_then_get_witness :
  MemStorage.getAttendanceById 2 Fixture.checkedIn = None
  /\ exists record,
       MemStorage.getAttendanceById 2
         (snd (MemStorage.createAttendance 1705400000000
                 (InsertAttendance.Build_t 1 1705400000000 None None "Office")
                 Fixture.checkedIn)) = Some record
       /\ Attendance.check_in record = 1705400000000.
Proof.
  destruct (create_then_get Fixture.host 1705400000000 Fixture.pool Fixture.checkedIn)
    as (_ & H & _).
  - unfold Fixture.checkedIn, Fixture.registered.
    repeat apply Invariant.reachable_request. apply Invariant.reachable_new.
  - destruct (H (InsertAttendance.Build_t 1 1705400000000 None None "Office"))
      as (Hnone & Hsome & _).
    split; [exact Hnone|]. eexists. split; [exact Hsome | reflexivity].
Defined.

(** ** Lists after a create *)

Section ListAfterCreate.
Context {A : Type} (owner key : A -> Z).

Lemma sort_desc_newest (l : list A) (x : A) :
  (forall y, In y l -> key y < key x) ->
  sort_desc key (l ++ [x]) = x :: sort_desc key l.
Proof.
  intros Hnew. unfold sort_desc. rewrite fold_right_app. simpl.
  induction l as [|y l IH]; [reflexivity|]. simpl.
  rewrite IH by (intros; apply Hnew; now right). simpl.
  replace (key y <? key x) with true; [reflexivity|].
  symmetry. apply Z.ltb_lt. apply Hnew. now left.
Qed.

Lemma slice_head (x : A) (l : list A) (limit : Z) :
  1 <= limit -> List.hd_error (slice (x :: l) 0 (0 + limit)) = Some x.
Proof.
  intros Hl. unfold slice, relative_index. cbv zeta.
  change (0 <? 0) with false. cbv iota.
  replace (0 + limit <? 0) with false by (symmetry; apply Z.ltb_ge; lia).
  set (len := Z.of_nat (List.length (x :: l))).
  assert (Hlen : 1 <= len) by (subst len; simpl List.length; lia).
  rewrite (Z.min_l 0) by lia.
  destruct (Z.to_nat (Z.min (0 + limit) len - 0)) eqn:E; [lia|]. reflexivity.
Qed.

Lemma paginateRows_after_create (rows : list A) (r : A) :
  (forall userId page limit,
      userId <> owner r ->
      Invariant.paginateRows owner key (rows ++ [r]) userId page limit = Invariant.paginateRows owner key rows userId page limit)
  /\ (forall page limit,
         snd (Invariant.paginateRows owner key (rows ++ [r]) (owner r) page limit)
         = snd (Invariant.paginateRows owner key rows (owner r) page limit) + 1)
  /\ ((forall old, In old rows -> owner old = owner r -> key old < key r) ->
      forall limit, 1 <= limit ->
      List.hd_error (fst (Invariant.paginateRows owner key (rows ++ [r]) (owner r) 1 limit)) = Some r).
Proof.
  split; [|split].
  - intros userId page limit Hne. unfold Invariant.paginateRows.
    rewrite List.filter_app. simpl.
    replace (owner r =? userId) with false
      by (symmetry; apply Z.eqb_neq; congruence).
    now rewrite app_nil_r.
  - intros page limit. unfold Invariant.paginateRows. simpl.
    rewrite !(Permutation_length (sort_desc_Permutation key _)).
    rewrite List.filter_app. simpl. rewrite Z.eqb_refl.
    rewrite List.length_app. simpl. lia.
  - intros Hnew limit Hl. unfold Invariant.paginateRows. simpl.
    rewrite List.filter_app. simpl. rewrite Z.eqb_refl.
    rewrite sort_desc_newest.
    + now apply slice_head.
    + intros y Hy. apply filter_In in Hy. destruct Hy as [Hin Ho].
      apply Z.eqb_eq in Ho. now apply Hnew.
Qed.
End ListAfterCreate.

(** X3 — in a reachable store, creating an attendance record, a sale or a
    work report leaves the paginated lists of the other users as they were,
    raises the [totalCount] of its owner by one for every page and limit,
    and, when its timestamp is later than those of the owner's earlier rows,
    puts the new row first on page 1 for every limit of at least 1. *)
Theorem create_then_list (host : Host.t) (now : Z) (pool : nat -> Z)
    (this : MemStorage.t) :
  Invariant.reachable host this ->
  (forall data,
      let created := MemStorage.createAttendance now data this in
      Invariant.listedAfterCreate MemStorage.getAttendanceByUserId
        Attendance.user_id Attendance.check_in
        (Map.values (MemStorage.attendance this)) (fst created) this (snd created))
  /\ (forall data,
         let created := MemStorage.createSale now pool data this in
         Invariant.listedAfterCreate MemStorage.getSalesByUserId
           Sale.user_id Sale.created_at
           (Map.values (MemStorage.sales this)) (fst created) this (snd created))
  /\ (forall data,
         let created := MemStorage.createWorkReport now data this in
         Invariant.listedAfterCreate MemStorage.getWorkReportsByUserId
           WorkReport.user_id WorkReport.created_at
           (Map.values (MemStorage.workReports this)) (fst created) this (snd created)).
Proof.
  intros Hreach. destruct (reachable_keyed host this Hreach) as (Hu & Ha & Hs & Hr).
  split; [|split]; intros data created.
  - destruct (keyed_create_get Attendance.id _ _ (fst created) Ha eq_refl)
      as (_ & _ & _ & Hv).
    pose proof (paginateRows_after_create Attendance.user_id Attendance.check_in
                  (Map.values (MemStorage.attendance this)) (fst created)) as H.
    unfold Invariant.listedAfterCreate, MemStorage.getAttendanceByUserId.
    subst created. simpl in *. rewrite Hv. exact H.
  - destruct (keyed_create_get Sale.id _ _ (fst created) Hs eq_refl)
      as (_ & _ & _ & Hv).
    pose proof (paginateRows_after_create Sale.user_id Sale.created_at
                  (Map.values (MemStorage.sales this)) (fst created)) as H.
    unfold Invariant.listedAfterCreate, MemStorage.getSalesByUserId.
    subst created. simpl in *. rewrite Hv. exact H.
  - destruct (keyed_create_get WorkReport.id _ _ (fst created) Hr eq_refl)
      as (_ & _ & _ & Hv).
    pose proof (paginateRows_after_create WorkReport.user_id WorkReport.created_at
                  (Map.values (MemStorage.workReports this)) (fst created)) as H.
    unfold Invariant.listedAfterCreate, MemStorage.getWorkReportsByUserId.
    subst created. simpl in *. rewrite Hv. exact H.
Qed.

Lemma create_then_list_witness :
  snd (MemStorage.getAttendanceByUserId 1 1 10
         (snd (MemStorage.createAttendance 1705400000000
                 (InsertAttendance.Build_t 1 1705400000000 None None "Office")
                 Fixture.checkedIn)))
  = snd (MemStorage.getAttendanceByUserId 1 1 10 Fixture.checkedIn) + 1.
Proof.
  destruct (create_then_list Fixture.host 1705400000000 Fixture.pool Fixture.checkedIn)
    as (H & _).
  - unfold Fixture.checkedIn, Fixture.registered.
    repeat apply Invariant.reachable_request. apply Invariant.reachable_new.
  - destruct (H (InsertAttendance.Build_t 1 1705400000000 None None "Office"))
      as (_ & Hcount & _).
    exact (Hcount 1 10).
Defined.

(** ** The pages of a list *)

Lemma firstn_add_skipn {A : Type} (a b : nat) (l : list A) :
  firstn (a + b) l = firstn a l ++ firstn b (skipn a l).
Proof.
  revert l. induction a as [|a IH]; intros l; [reflexivity|].
  destruct l as [|x l]; simpl; [now rewrite firstn_nil | now rewrite IH].
Qed.

Lemma slice_window {A : Type} (l : list A) (page limit : Z) :
  1 <= page -> 0 <= limit ->
  slice l ((page - 1) * limit) ((page - 1) * limit + limit)
  = firstn (Z.to_nat limit) (skipn (Z.to_nat ((page - 1) * limit)) l).
Proof.
  intros Hp Hl.
  assert (Ho : 0 <= (page - 1) * limit) by nia.
  set (o := (page - 1) * limit) in *.
  unfold slice, relative_index. cbv zeta.
  replace (o <? 0) with false by (symmetry; apply Z.ltb_ge; lia).
  replace (o + limit <? 0) with false by (symmetry; apply Z.ltb_ge; lia).
  set (len := Z.of_nat (List.length l)).
  destruct (Z_le_gt_dec o len) as [Hle|Hgt].
  - rewrite (Z.min_l o) by lia.
    destruct (Z_le_gt_dec (o + limit) len) as [Hle'|Hgt'].
    + rewrite Z.min_l by lia. f_equal. lia.
    + rewrite Z.min_r by lia.
      assert (Hlen : List.length (skipn (Z.to_nat o) l) = Z.to_nat (len - o))
        by (rewrite List.length_skipn; subst len; lia).
      replace (len - o) with (Z.of_nat (List.length (skipn (Z.to_nat o) l))) by lia.
      rewrite Nat2Z.id, firstn_all, firstn_all2 by lia. reflexivity.
  - rewrite (skipn_all2 (n := Z.to_nat o)) by (subst len; lia).
    rewrite (skipn_all2 (n := Z.to_nat (Z.min o len))) by (subst len; lia).
    now rewrite !firstn_nil.
Qed.

Lemma paginateRows_paged {A : Type} (owner key : A -> Z) (rows : list A)
    (userId limit : Z) :
  0 <= limit ->
  Invariant.paged
    (fun p => fst (Invariant.paginateRows owner key rows userId p limit))
    (sort_desc key (List.filter (fun x => owner x =? userId) rows)) limit.
Proof.
  intros Hl. unfold Invariant.paged, Invariant.paginateRows. cbv zeta. simpl fst.
  set (records := sort_desc key (List.filter (fun x => owner x =? userId) rows)).
  assert (Hconcat : forall n,
    List.concat
      (List.map (fun p => slice records ((Z.of_nat p - 1) * limit)
                            ((Z.of_nat p - 1) * limit + limit)) (List.seq 1 n))
    = firstn (n * Z.to_nat limit) records).
  { induction n as [|n IH]; [reflexivity|].
    rewrite seq_S, List.map_app, concat_app, IH.
    change (1 + n)%nat with (S n). cbn [List.map List.concat].
    rewrite app_nil_r, slice_window by lia.
    replace (Z.to_nat ((Z.of_nat (S n) - 1) * limit)) with (n * Z.to_nat limit)%nat
      by nia.
    rewrite <- firstn_add_skipn. f_equal. lia. }
  split; [|split; [exact Hconcat|split]].
  - intros p Hp. rewrite slice_window by assumption.
    rewrite List.length_firstn. lia.
  - intros n Hn. rewrite Hconcat. apply firstn_all2. nia.
  - intros p Hp Hn. rewrite slice_window by assumption.
    rewrite skipn_all2 by nia. apply firstn_nil.
Qed.

(** X4 — for a limit that is not negative, the pages of
    [getAttendanceByUserId], [getSalesByUserId] and [getWorkReportsByUserId]
    partition the user's rows in descending order of time: no page is longer
    than the limit, pages 1 to n one after the other are the first n × limit
    rows, all of them once n × limit reaches their number, and a page past
    the end is empty. *)
Theorem pages_partition (userId limit : Z) (this : MemStorage.t) :
  0 <= limit ->
  Invariant.paged
    (fun p => fst (MemStorage.getAttendanceByUserId userId p limit this))
    (sort_desc Attendance.check_in
       (List.filter (fun r => Attendance.user_id r =? userId)
          (Map.values (MemStorage.attendance this)))) limit
  /\ Invariant.paged
       (fun p => fst (MemStorage.getSalesByUserId userId p limit this))
       (sort_desc Sale.created_at
          (List.filter (fun s => Sale.user_id s =? userId)
             (Map.values (MemStorage.sales this)))) limit
  /\ Invariant.paged
       (fun p => fst (MemStorage.getWorkReportsByUserId userId p limit this))
       (sort_desc WorkReport.created_at
          (List.filter (fun r => WorkReport.user_id r =? userId)
             (Map.values (MemStorage.workReports this)))) limit.
Proof.
  intros Hl. split; [|split].
  - exact (paginateRows_paged Attendance.user_id Attendance.check_in _ userId limit Hl).
  - exact (paginateRows_paged Sale.user_id Sale.created_at _ userId limit Hl).
  - exact (paginateRows_paged WorkReport.user_id WorkReport.created_at _ userId limit Hl).
Qed.

Lemma pages_partition_witness :
  Invariant.paged
    (fun p => fst (MemStorage.getAttendanceByUserId 1 p 10 Fixture.checkedIn))
    (sort_desc Attendance.check_in
       (List.filter (fun r => Attendance.user_id r =? 1)
          (Map.values (MemStorage.attendance Fixture.checkedIn)))) 10.
Proof. apply (pages_partition 1 10 Fixture.checkedIn). lia. Defined.

(** ** Updates, one after the other *)

Lemma Map_set_set {V : Type} k (v1 v2 : V) m :
  Map.set k v2 (Map.set k v1 m) = Map.set k v2 m.
Proof.
  induction m as [|[k' v'] m IH]; simpl.
  - now rewrite Z.eqb_refl.
  - destruct (k' =? k) eqn:E; simpl.
    + now rewrite Z.eqb_refl.
    + now rewrite E, IH.
Qed.

Lemma Map_set_get_same {V : Type} k (v : V) m :
  Map.get k m = Some v -> Map.set k v m = m.
Proof.
  induction m as [|[k' v'] m IH]; simpl; [discriminate|].
  destruct (k' =? k) eqn:E.
  - apply Z.eqb_eq in E. intros [= ->]. now subst.
  - intros H. now rewrite IH.
Qed.

Lemma spread_later {A : Type} (old : A) (first second : option A) :
  spread (spread old first) second = spread old (Invariant.later first second).
Proof. destruct second; reflexivity. Qed.

(** X5 — [updateAttendance] and [updateWorkReport]: two updates of the same
    id, one after the other, answer and leave the store as one update with
    [{ ...first, ...second }] does, whether or not the id exists; and an update
    with no field returns the row as it is and leaves the store unchanged. *)
Theorem updates_compose (id : Z) (this : MemStorage.t) :
  (forall first second,
      MemStorage.updateAttendance id second
        (snd (MemStorage.updateAttendance id first this))
      = MemStorage.updateAttendance id (Invariant.bothAttendance first second) this)
  /\ (forall record,
         MemStorage.getAttendanceById id this = Some record ->
         MemStorage.updateAttendance id Invariant.noAttendanceData this
         = (Normal record, this))
  /\ (forall first second,
         MemStorage.updateWorkReport id second
           (snd (MemStorage.updateWorkReport id first this))
         = MemStorage.updateWorkReport id (Invariant.bothWorkReport first second) this)
  /\ (forall report,
         MemStorage.getWorkReportById id this = Some report ->
         MemStorage.updateWorkReport id Invariant.noWorkReportData this
         = (Normal report, this)).
Proof.
  split; [|split; [|split]].
  - intros first second. unfold MemStorage.updateAttendance.
    destruct (Map.get id (MemStorage.attendance this)) as [r|] eqn:Hget; simpl.
    + rewrite Map_get_set_same, Map_set_set.
      unfold MemStorage.mergeAttendance, Invariant.bothAttendance. simpl.
      now rewrite !spread_later.
    + now rewrite Hget.
  - intros record Hget. unfold MemStorage.getAttendanceById in Hget.
    unfold MemStorage.updateAttendance. rewrite Hget.
    assert (Hmerge : MemStorage.mergeAttendance record Invariant.noAttendanceData
                     = record) by (destruct record; reflexivity).
    rewrite Hmerge, (Map_set_get_same _ _ _ Hget). destruct this; reflexivity.
  - intros first second. unfold MemStorage.updateWorkReport.
    destruct (Map.get id (MemStorage.workReports this)) as [r|] eqn:Hget; simpl.
    + rewrite Map_get_set_same, Map_set_set.
      unfold MemStorage.mergeWorkReport, Invariant.bothWorkReport. simpl.
      now rewrite !spread_later.
    + now rewrite Hget.
  - intros report Hget. unfold MemStorage.getWorkReportById in Hget.
    unfold MemStorage.updateWorkReport. rewrite Hget.
    assert (Hmerge : MemStorage.mergeWorkReport report Invariant.noWorkReportData
                     = report) by (destruct report; reflexivity).
    rewrite Hmerge, (Map_set_get_same _ _ _ Hget). destruct this; reflexivity.
Qed.

Lemma updates_compose_witness :
  exists record,
    MemStorage.getAttendanceById 1 Fixture.checkedIn = Some record
    /\ MemStorage.updateAttendance 1 Invariant.noAttendanceData Fixture.checkedIn
       = (Normal record, Fixture.checkedIn).
Proof.
  eexists. split; [vm_compute; reflexivity|].
  apply (updates_compose 1 Fixture.checkedIn). vm_compute. reflexivity.
Defined.

(** ** Users and their e-mail addresses *)

Lemma NoDup_map_inj {A B : Type} (f : A -> B) (l : list A) x y :
  NoDup (List.map f l) -> In x l -> In y l -> f x = f y -> x = y.
Proof.
  induction l as [|a l IH]; simpl; [tauto|].
  intros Hnd [<-|Hx] [<-|Hy] Hf; inversion Hnd; subst; auto.
  - exfalso. apply H1. rewrite Hf. now apply in_map.
  - exfalso. apply H1. rewrite <- Hf. now apply in_map.
Qed.

Lemma NoDup_snoc {A : Type} (l : list A) (x : A) :
  NoDup l -> ~ In x l -> NoDup (l ++ [x]).
Proof.
  intros Hnd Hx. apply (Permutation_NoDup (l := x :: l)).
  - apply Permutation_cons_append.
  - now constructor.
Qed.

Lemma getUserByEmail_None email storage :
  MemStorage.getUserByEmail email storage = None ->
  ~ In email (List.map User.email (Map.values (MemStorage.users storage))).
Proof.
  intros Hnone Hin. apply in_map_iff in Hin. destruct Hin as (u & He & Hu).
  pose proof (find_none _ _ Hnone u Hu) as Hf. simpl in Hf.
  rewrite He, String.eqb_refl in Hf. discriminate.
Qed.

Lemma served_keyed host storage :
  Routes.served host storage -> Invariant.wellKeyed storage.
Proof. intros H. apply (reachable_keyed host). now apply served_reachable. Qed.

Lemma served_emailsDistinct host storage :
  Routes.served host storage -> Invariant.emailsDistinct storage.
Proof.
  induction 1 as [now|storage clock pool request Hserved IH].
  - constructor.
  - unfold Invariant.emailsDistinct in *.
    pose proof (serve_users host clock pool request storage) as Husers.
    destruct request as [body| | | | ]; try (rewrite Husers; exact IH).
    simpl. unfold Routes.post_users.
    destruct (Routes.insertUserSchema_parse body) as [data|]; [|exact IH].
    destruct (MemStorage.getUserByEmail _ _) eqn:Hfind; [exact IH|].
    destruct (served_keyed host storage Hserved) as (Hu & _).
    destruct (keyed_create_get User.id _ _
                (fst (MemStorage.createUser (clock 0%nat) data storage)) Hu eq_refl)
      as (_ & _ & _ & Hv).
    simpl in *. rewrite Hv, List.map_app. simpl.
    apply NoDup_snoc; [exact IH|]. now apply getUserByEmail_None.
Qed.

Lemma getUserByEmail_In storage user :
  Invariant.emailsDistinct storage ->
  In user (Map.values (MemStorage.users storage)) ->
  MemStorage.getUserByEmail (User.email user) storage = Some user.
Proof.
  intros Hnd Hin. unfold MemStorage.getUserByEmail.
  destruct (List.find _ _) as [found|] eqn:Hfind.
  - apply find_some in Hfind. destruct Hfind as [Hf He].
    apply String.eqb_eq in He. f_equal.
    exact (NoDup_map_inj User.email _ _ _ Hnd Hf Hin He).
  - pose proof (find_none _ _ Hfind user Hin) as Hf. simpl in Hf.
    rewrite String.eqb_refl in Hf. discriminate.
Qed.

(** X6 — in every store the server can be in, no two users share an e-mail
    address: [getUserByEmail] returns a user exactly when that user is stored
    with that address, and [POST /api/users] with the address of a stored
    user answers 400 "User with this email already exists" and changes
    nothing. *)
Theorem emails_unique (host : Host.t) (storage : MemStorage.t) :
  Routes.served host storage ->
  Invariant.emailsDistinct storage
  /\ (forall email user,
         MemStorage.getUserByEmail email storage = Some user
         <-> In user (Map.values (MemStorage.users storage))
             /\ User.email user = email)
  /\ (forall clock body userData user,
         Routes.insertUserSchema_parse body = Normal userData ->
         In user (Map.values (MemStorage.users storage)) ->
         User.email user = InsertUser.email userData ->
         Routes.post_users clock body storage
         = ({| Routes.status := 400;
               Routes.json := Routes.Message "User with this email already exists" |},
            storage)).
Proof.
  intros Hserved. pose proof (served_emailsDistinct host storage Hserved) as Hnd.
  split; [exact Hnd|]. split.
  - intros email user. split.
    + intros Hfind. apply find_some in Hfind. destruct Hfind as [Hin He].
      split; [exact Hin | now apply String.eqb_eq].
    + intros [Hin <-]. now apply getUserByEmail_In.
  - intros clock body userData user Hparse Hin He.
    unfold Routes.post_users. rewrite Hparse, <- He.
    now rewrite (getUserByEmail_In storage user Hnd Hin).
Qed.

Lemma emails_unique_witness :
  Invariant.emailsDistinct Fixture.checkedIn
  /\ Routes.post_users Fixture.evening Fixture.sari Fixture.checkedIn
     = ({| Routes.status := 400;
           Routes.json := Routes.Message "User with this email already exists" |},
        Fixture.checkedIn).
Proof.
  destruct (emails_unique Fixture.host Fixture.checkedIn) as (Hnd & _ & Hdup).
  - unfold Fixture.checkedIn, Fixture.registered.
    repeat apply Routes.served_step. apply Routes.served_new.
  - split; [exact Hnd|].
    eapply Hdup; [reflexivity | left; reflexivity | reflexivity].
Defined.

(** ** Sessions *)

Lemma substring_all (s : string) : String.substring 0 (String.length s) s = s.
Proof. induction s as [|c s IH]; simpl; [reflexivity | now rewrite IH]. Qed.

Lemma bearer_token (token : string) :
  startsWith ("Bearer " ++ token) "Bearer " = true
  /\ String.substring 7 (String.length ("Bearer " ++ token) - 7) ("Bearer " ++ token)
     = token.
Proof.
  split.
  - unfold startsWith. simpl. now destruct token.
  - simpl. rewrite Nat.sub_0_r. apply substring_all.
Qed.

Lemma validateSession_bearer host token email user storage :
  Host.auth_getUser host token = Some email ->
  MemStorage.getUserByEmail email storage = Some user ->
  Routes.validateSession host (Some ("Bearer " ++ token)%string) storage
  = Some {| Routes.UserProfile.id := User.id user;
            Routes.UserProfile.username := User.username user;
            Routes.UserProfile.role := User.role user;
            Routes.UserProfile.avatar_url := User.avatar_url user;
            Routes.UserProfile.full_name := User.full_name user;
            Routes.UserProfile.email := User.email user |}.
Proof.
  intros Hauth Hfind. unfold Routes.validateSession.
  destruct (bearer_token token) as [Hstarts Htoken].
  now rewrite Hstarts, Htoken, Hauth, Hfind.
Qed.

Lemma validateSession_unknown host token email storage :
  Host.auth_getUser host token = Some email ->
  MemStorage.getUserByEmail email storage = None ->
  Routes.validateSession host (Some ("Bearer " ++ token)%string) storage = None.
Proof.
  intros Hauth Hfind. unfold Routes.validateSession.
  destruct (bearer_token token) as [Hstarts Htoken].
  now rewrite Hstarts, Htoken, Hauth, Hfind.
Qed.

Lemma find_only {A : Type} (p : A -> bool) (l : list A) (v : A) :
  In v l -> p v = true -> (forall x, In x l -> p x = true -> x = v) ->
  List.find p l = Some v.
Proof.
  intros Hin Hp Honly. destruct (List.find p l) as [x|] eqn:Hfind.
  - apply find_some in Hfind. f_equal. now apply Honly.
  - rewrite (find_none _ _ Hfind v Hin) in Hp. discriminate.
Qed.

Lemma Map_values_set_new {V : Type} k (v : V) m : In v (Map.values (Map.set k v m)).
Proof.
  pose proof (Map_get_set_same k v m) as H. apply Map_get_In in H. tauto.
Qed.

(** X7 — when [POST /api/users] answers 201, the body is the stored user,
    whose e-mail address is the submitted one and was not registered before;
    the user is found by e-mail and by id afterwards, and a header
    "Bearer <token>" whose token the identity provider resolves to that
    address, refused by [validateSession] before, now gives the profile of
    that user. *)
Theorem register_then_authenticate (host : Host.t) (clock : Routes.Clock)
    (body : Routes.UserBody.t) (storage : MemStorage.t) :
  let result := Routes.post_users clock body storage in
  Routes.status (fst result) = 201 ->
  exists user,
    Routes.json (fst result) = Routes.UserRow user
    /\ Some (User.email user) = Routes.UserBody.email body
    /\ MemStorage.getUserByEmail (User.email user) storage = None
    /\ MemStorage.getUserByEmail (User.email user) (snd result) = Some user
    /\ MemStorage.getUser (User.id user) (snd result) = Some user
    /\ forall token,
         Host.auth_getUser host token = Some (User.email user) ->
         Routes.validateSession host (Some ("Bearer " ++ token)%string) storage = None
         /\ Routes.validateSession host (Some ("Bearer " ++ token)%string) (snd result)
            = Some {| Routes.UserProfile.id := User.id user;
                      Routes.UserProfile.username := User.username user;
                      Routes.UserProfile.role := User.role user;
                      Routes.UserProfile.avatar_url := User.avatar_url user;
                      Routes.UserProfile.full_name := User.full_name user;
                      Routes.UserProfile.email := User.email user |}.
Proof.
  intros result. subst result. unfold Routes.post_users.
  destruct (Routes.insertUserSchema_parse body) as [data|] eqn:Hparse;
    [|simpl; discriminate].
  destruct (MemStorage.getUserByEmail (InsertUser.email data) storage) eqn:Hfind;
    [simpl; discriminate|].
  intros _. simpl.
  set (user := fst (MemStorage.createUser (clock 0%nat) data storage)).
  exists user.
  assert (Hafter : MemStorage.getUserByEmail (InsertUser.email data)
                     (snd (MemStorage.createUser (clock 0%nat) data storage))
                   = Some user).
  { unfold MemStorage.getUserByEmail. simpl. apply find_only.
    - apply Map_values_set_new.
    - simpl. apply String.eqb_refl.
    - intros x Hx Hpx. apply Map_values_set_In in Hx. destruct Hx as [Hx|Hx]; [exact Hx|].
      pose proof (find_none _ _ Hfind x Hx) as Hf. simpl in Hf. congruence. }
  split; [reflexivity|]. split.
  { unfold Routes.insertUserSchema_parse in Hparse.
    destruct (Routes.UserBody.username body), (Routes.UserBody.password body),
      (Routes.UserBody.email body), (Routes.UserBody.role body); try discriminate.
    destruct (List.existsb _ _); [|discriminate]. now injection Hparse as <-. }
  split; [exact Hfind|]. split; [exact Hafter|]. split.
  { unfold MemStorage.getUser. simpl. apply Map_get_set_same. }
  intros token Hauth. split.
  - exact (validateSession_unknown host token _ _ Hauth Hfind).
  - exact (validateSession_bearer host token _ user _ Hauth Hafter).
Qed.

Lemma register_then_authenticate_witness :
  exists user,
    MemStorage.getUserByEmail (User.email user) Fixture.registered = Some user
    /\ User.username user = "sari".
Proof.
  destruct (register_then_authenticate Fixture.host Fixture.clock Fixture.sari
              (MemStorage.new 1705300000000)) as (user & Hjson & _ & _ & Hfind & _).
  - reflexivity.
  - exists user. split; [exact Hfind|].
    injection Hjson as <-. reflexivity.
Defined.

Lemma handlers_not_401 host clock pool :
  (forall body storage, Routes.status (fst (Routes.post_users clock body storage)) <> 401)
  /\ (forall user storage,
         Routes.status (fst (Routes.get_dashboard_stats host clock user storage)) <> 401)
  /\ (forall ty note user storage,
         Routes.status (fst (Routes.post_attendance host clock ty note user storage))
         <> 401)
  /\ (forall body user storage,
         Routes.status (fst (Routes.post_sales host clock pool body user storage)) <> 401)
  /\ (forall body user storage,
         Routes.status (fst (Routes.post_reports clock body user storage)) <> 401).
Proof.
  split; [|split; [|split; [|split]]].
  - intros body storage. unfold Routes.post_users.
    destruct (Routes.insertUserSchema_parse body); [|simpl; lia].
    destruct (MemStorage.getUserByEmail _ _); simpl; lia.
  - intros user storage. simpl. lia.
  - intros ty note user storage. unfold Routes.post_attendance.
    destruct (String.eqb ty "checkin").
    + destruct (MemStorage.getTodayAttendanceByUserId _ _ _ _); simpl; lia.
    + destruct (String.eqb ty "checkout"); [|simpl; lia].
      destruct (MemStorage.getTodayAttendanceByUserId _ _ _ _) as [r|]; [|simpl; lia].
      destruct (Attendance.check_out r); [simpl; lia|].
      destruct (MemStorage.updateAttendance _ _ _) as [[u|e] s]; simpl; lia.
  - intros body user storage. unfold Routes.post_sales.
    destruct (Routes.insertSaleSchema_parse _ _ _ _ _ _ _ _ _ _); [|simpl; lia].
    destruct (MemStorage.createSale _ _ _ _) as [sale s1].
    destruct (Routes.createSaleItems _ _ _ _ _ _) as [[[]|e] s2]; simpl; lia.
  - intros body user storage. simpl. lia.
Qed.

(** X8 — the server answers 401 exactly to a request to a protected route
    for which [validateSession] gives no user, the answer is then
    "Unauthorized access" and the store is unchanged; [validateSession] gives
    no user when the header is missing, when it does not start with
    "Bearer ", when the identity provider refuses the token, and when no
    user has the address it returns. *)
Theorem unauthorized_iff_no_session (host : Host.t) (clock : Routes.Clock)
    (pool : nat -> Z) (request : Routes.Request) (storage : MemStorage.t) :
  let result := Routes.serve host clock pool request storage in
  (Routes.status (fst result) = 401
   <-> exists authorization,
         Invariant.credentials request = Some authorization
         /\ Routes.validateSession host authorization storage = None)
  /\ (Routes.status (fst result) = 401 ->
      result = ({| Routes.status := 401;
                   Routes.json := Routes.Message "Unauthorized access" |}, storage))
  /\ Routes.validateSession host None storage = None
  /\ (forall header,
         startsWith header "Bearer " = false ->
         Routes.validateSession host (Some header) storage = None)
  /\ (forall token,
         Host.auth_getUser host token = None ->
         Routes.validateSession host (Some ("Bearer " ++ token)%string) storage = None)
  /\ (forall token email,
         Host.auth_getUser host token = Some email ->
         MemStorage.getUserByEmail email storage = None ->
         Routes.validateSession host (Some ("Bearer " ++ token)%string) storage = None).
Proof.
  destruct (handlers_not_401 host clock pool) as (Hu & Hd & Ha & Hs & Hr).
  assert (Hprotected : forall handler authorization,
    (forall user s, Routes.status (fst (handler user s)) <> 401) ->
    let result := Routes.protectedRoute host handler authorization storage in
    (Routes.status (fst result) = 401
     <-> Routes.validateSession host authorization storage = None)
    /\ (Routes.status (fst result) = 401 ->
        result = ({| Routes.status := 401;
                     Routes.json := Routes.Message "Unauthorized access" |}, storage))).
  { intros handler authorization Hh. unfold Routes.protectedRoute.
    destruct (Routes.validateSession host authorization storage) as [user|]; simpl.
    - split; [split; [intros H; now apply Hh in H | discriminate]|].
      intros H. now apply Hh in H.
    - split; [tauto | reflexivity]. }
  intros result.
  assert (Hresult :
    (Routes.status (fst result) = 401
     <-> exists authorization,
           Invariant.credentials request = Some authorization
           /\ Routes.validateSession host authorization storage = None)
    /\ (Routes.status (fst result) = 401 ->
        result = ({| Routes.status := 401;
                     Routes.json := Routes.Message "Unauthorized access" |}, storage))).
  { subst result. destruct request as [body|a|a ty note|a body|a body]; simpl.
    - split; [split|]; intros H.
      + now apply Hu in H.
      + destruct H as (a & Ha' & _). discriminate.
      + now apply Hu in H.
    - destruct (Hprotected (Routes.get_dashboard_stats host clock) a (Hd)) as [H1 H2].
      split; [|exact H2]. rewrite H1. split; [intros H; eauto|].
      intros (a' & [= <-] & H). exact H.
    - destruct (Hprotected (Routes.post_attendance host clock ty note) a (Ha ty note))
        as [H1 H2].
      split; [|exact H2]. rewrite H1. split; [intros H; eauto|].
      intros (a' & [= <-] & H). exact H.
    - destruct (Hprotected (Routes.post_sales host clock pool body) a (Hs body))
        as [H1 H2].
      split; [|exact H2]. rewrite H1. split; [intros H; eauto|].
      intros (a' & [= <-] & H). exact H.
    - destruct (Hprotected (Routes.post_reports clock body) a (Hr body)) as [H1 H2].
      split; [|exact H2]. rewrite H1. split; [intros H; eauto|].
      intros (a' & [= <-] & H). exact H. }
  destruct Hresult as [H1 H2].
  split; [exact H1|]. split; [exact H2|]. split; [reflexivity|]. split; [|split].
  - intros header Hh. unfold Routes.validateSession. now rewrite Hh.
  - intros token Hauth. unfold Routes.validateSession.
    destruct (bearer_token token) as [Hstarts Htoken].
    now rewrite Hstarts, Htoken, Hauth.
  - intros token email. apply validateSession_unknown.
Qed.

Lemma unauthorized_iff_no_session_witness :
  Routes.serve Fixture.host Fixture.clock Fixture.pool
    (Routes.PostAttendance (Some "token-of-sari") "checkout" None) Fixture.checkedIn
  = ({| Routes.status := 401;
        Routes.json := Routes.Message "Unauthorized access" |}, Fixture.checkedIn).
Proof.
  apply (unauthorized_iff_no_session Fixture.host Fixture.clock Fixture.pool
           (Routes.PostAttendance (Some "token-of-sari") "checkout" None)
           Fixture.checkedIn).
  reflexivity.
Defined.

(** ** A day of attendance *)

Lemma post_attendance_checkin host clock note user storage :
  Routes.post_attendance host clock "checkin" note user storage
  = match MemStorage.getTodayAttendanceByUserId host (clock 0%nat)
            (Routes.UserProfile.id user) storage with
    | Some _ =>
        ({| Routes.status := 400;
            Routes.json := Routes.Message "Already checked in today" |}, storage)
    | None =>
        let created :=
          MemStorage.createAttendance (clock 2%nat)
            {| InsertAttendance.user_id := Routes.UserProfile.id user;
               InsertAttendance.check_in := clock 1%nat;
               InsertAttendance.check_out := None;
               InsertAttendance.location := "Office - Jakarta Headquarters";
               InsertAttendance.note := if truthy_opt_string note then note else None |}
            storage in
        ({| Routes.status := 201;
            Routes.json :=
              Routes.CheckedIn (Attendance.id (fst created))
                (Utils.formatTime host (Some (Attendance.check_in (fst created))))
                "Check-in successful" |}, snd created)
    end.
Proof. reflexivity. Qed.

Lemma post_attendance_checkout host clock note user storage :
  Routes.post_attendance host clock "checkout" note user storage
  = match MemStorage.getTodayAttendanceByUserId host (clock 0%nat)
            (Routes.UserProfile.id user) storage with
    | None =>
        ({| Routes.status := 400;
            Routes.json := Routes.Message "No check-in record found for today" |},
         storage)
    | Some existingRecord =>
        match Attendance.check_out existingRecord with
        | Some _ =>
            ({| Routes.status := 400;
                Routes.json := Routes.Message "Already checked out today" |}, storage)
        | None =>
            match MemStorage.updateAttendance (Attendance.id existingRecord)
                    {| PartialAttendance.user_id := None;
                       PartialAttendance.check_in := None;
                       PartialAttendance.location := None;
                       PartialAttendance.check_out := Some (Some (clock 1%nat));
                       PartialAttendance.note :=
                         Some (Routes.checkoutNote note (Attendance.note existingRecord)) |}
                    storage with
            | (Throw message, storage') =>
                ({| Routes.status := 400; Routes.json := Routes.Message message |},
                 storage')
            | (Normal updated, storage') =>
                ({| Routes.status := 200;
                    Routes.json :=
                      Routes.CheckedOut (Attendance.id updated)
                        (Utils.formatTime host (Attendance.check_out updated))
                        (Utils.calculateWorkingHours host
                           (Utils.DateObj (Attendance.check_in updated))
                           (Utils.ofOption (Attendance.check_out updated)))
                        "Check-out successful" |}, storage')
            end
        end
    end.
Proof. reflexivity. Qed.

Lemma getToday_after_create host now now' userId record k c storage :
  MemStorage.getTodayAttendanceByUserId host now userId storage = None ->
  Host.startOfDay host now' = Host.startOfDay host now ->
  Attendance.user_id record = userId ->
  Host.startOfDay host now <= Attendance.check_in record
    < Host.nextDay host (Host.startOfDay host now) ->
  MemStorage.getTodayAttendanceByUserId host now' userId
    (MemStorage.with_attendance (Map.set k record (MemStorage.attendance storage))
       c storage)
  = Some record.
Proof.
  intros Hnone Hday Hu Hin. unfold MemStorage.getTodayAttendanceByUserId in *.
  simpl. rewrite Hday. apply find_only.
  - apply Map_values_set_new.
  - simpl. rewrite Hu, Z.eqb_refl. simpl. apply andb_true_intro. split; lia.
  - intros x Hx Hpx. apply Map_values_set_In in Hx. destruct Hx as [Hx|Hx]; [exact Hx|].
    pose proof (find_none _ _ Hnone x Hx) as Hf. simpl in Hf, Hpx. congruence.
Qed.

(** X9 — after a check-in answered with 201 whose check-in time lies in the
    day of the request, for every later request of the same day: a second
    check-in is refused with 400 "Already checked in today" and changes
    nothing, [GET /api/attendance/today] reports "In Progress" with the
    check-in time and neither check-out time nor working hours, and a
    check-out answers 200 with the id of the record and the working hours
    from the check-in to the check-out. *)
Theorem checkin_then_in_progress (host : Host.t) (clock clock' : Routes.Clock)
    (note note' : option string) (user : Routes.UserProfile.t)
    (storage : MemStorage.t) :
  let checkin := Routes.post_attendance host clock "checkin" note user storage in
  Routes.status (fst checkin) = 201 ->
  Host.startOfDay host (clock 0%nat) <= clock 1%nat
    < Host.nextDay host (Host.startOfDay host (clock 0%nat)) ->
  Host.startOfDay host (clock' 0%nat) = Host.startOfDay host (clock 0%nat) ->
  Routes.post_attendance host clock' "checkin" note' user (snd checkin)
  = ({| Routes.status := 400;
        Routes.json := Routes.Message "Already checked in today" |}, snd checkin)
  /\ Reads.get_attendance_today host clock' user (snd checkin)
     = {| Reads.Today.checkInTime := Some (Host.formatTime host (clock 1%nat));
          Reads.Today.checkOutTime := None;
          Reads.Today.workingHours := None;
          Reads.Today.status := "In Progress" |}
  /\ fst (Routes.post_attendance host clock' "checkout" note' user (snd checkin))
     = {| Routes.status := 200;
          Routes.json :=
            Routes.CheckedOut (MemStorage.attendanceIdCounter storage)
              (Host.formatTime host (clock' 1%nat))
              (Utils.calculateWorkingHours host
                 (Utils.DateObj (clock 1%nat)) (Utils.DateObj (clock' 1%nat)))
              "Check-out successful" |}.
Proof.
  intros checkin. subst checkin. rewrite post_attendance_checkin.
  destruct (MemStorage.getTodayAttendanceByUserId host (clock 0%nat)
              (Routes.UserProfile.id user) storage) eqn:Hnone; [simpl; discriminate|].
  intros _ Hin Hday. cbv zeta.
  set (created := MemStorage.createAttendance _ _ storage).
  assert (Htoday : MemStorage.getTodayAttendanceByUserId host (clock' 0%nat)
                     (Routes.UserProfile.id user) (snd created) = Some (fst created)).
  { subst created. unfold MemStorage.createAttendance. cbv zeta. cbn [fst snd].
    now apply (getToday_after_create host (clock 0%nat)). }
  cbn [fst snd]. split; [|split].
  - rewrite post_attendance_checkin. now rewrite Htoday.
  - unfold Reads.get_attendance_today. now rewrite Htoday.
  - rewrite post_attendance_checkout, Htoday.
    assert (Hget : Map.get (Attendance.id (fst created))
                     (MemStorage.attendance (snd created)) = Some (fst created)).
    { subst created. simpl. apply Map_get_set_same. }
    cbn [Attendance.check_out fst created MemStorage.createAttendance
           InsertAttendance.check_out].
    rewrite (updateAttendance_found _ _ _ _ Hget). reflexivity.
Qed.

Lemma checkin_then_in_progress_witness :
  Reads.get_attendance_today Fixture.host Fixture.evening
    {| Routes.UserProfile.id := 1; Routes.UserProfile.username := "sari";
       Routes.UserProfile.role := "karyawan"; Routes.UserProfile.avatar_url := None;
       Routes.UserProfile.full_name := Some "Sari Dewi";
       Routes.UserProfile.email := "sari@example.com" |}
    (snd (Routes.post_attendance Fixture.host Fixture.clock "checkin" None
            {| Routes.UserProfile.id := 1; Routes.UserProfile.username := "sari";
               Routes.UserProfile.role := "karyawan";
               Routes.UserProfile.avatar_url := None;
               Routes.UserProfile.full_name := Some "Sari Dewi";
               Routes.UserProfile.email := "sari@example.com" |}
            Fixture.registered))
  = {| Reads.Today.checkInTime :=
         Some (Host.formatTime Fixture.host (Fixture.clock 1%nat));
       Reads.Today.checkOutTime := None;
       Reads.Today.workingHours := None;
       Reads.Today.status := "In Progress" |}.
Proof.
  apply (checkin_then_in_progress Fixture.host Fixture.clock Fixture.evening None None).
  - reflexivity.
  - vm_compute. split; [discriminate | reflexivity].
  - reflexivity.
Defined.

Lemma find_map_preserved {A : Type} (p : A -> bool) (f : A -> A) (l : list A) :
  (forall x, In x l -> p (f x) = p x) ->
  List.find p (List.map f l) = option_map f (List.find p l).
Proof.
  induction l as [|a l IH]; intros Hp; [reflexivity|]. simpl.
  rewrite (Hp a) by now left. destruct (p a); [reflexivity|].
  apply IH. intros x Hx. apply Hp. now right.
Qed.

Lemma getToday_after_update host now now' userId record updated c storage :
  Corresponds.keyed Attendance.id (MemStorage.attendance storage)
    (MemStorage.attendanceIdCounter storage) ->
  MemStorage.getTodayAttendanceByUserId host now userId storage = Some record ->
  Host.startOfDay host now' = Host.startOfDay host now ->
  Attendance.id updated = Attendance.id record ->
  Attendance.user_id updated = Attendance.user_id record ->
  Attendance.check_in updated = Attendance.check_in record ->
  MemStorage.getTodayAttendanceByUserId host now' userId
    (MemStorage.with_attendance
       (Map.set (Attendance.id record) updated (MemStorage.attendance storage))
       c storage)
  = Some updated.
Proof.
  intros Hk Htoday Hday Hid Hu Hin.
  destruct (getToday_Some _ _ _ _ _ Htoday) as (Hrec & _).
  pose proof (keyed_get_In Attendance.id _ _ _ Hk Hrec) as Hget.
  destruct (keyed_update Attendance.id _ _ _ _ updated Hk Hget Hid) as (_ & Hv & _).
  unfold MemStorage.getTodayAttendanceByUserId in *. simpl. rewrite Hv, Hday.
  rewrite find_map_preserved.
  - rewrite Htoday. simpl. now rewrite Z.eqb_refl.
  - intros x Hx. destruct (Attendance.id x =? Attendance.id record) eqn:E; [|reflexivity].
    apply Z.eqb_eq in E.
    pose proof (keyed_get_In Attendance.id _ _ _ Hk Hx) as Hgx.
    rewrite E, Hget in Hgx. injection Hgx as <-. now rewrite Hu, Hin.
Qed.

(** X10 — in a store the server can be in, the status
    [GET /api/attendance/today] reports decides what [POST /api/attendance]
    answers at the same time: "Not Started" — a check-in gets 201 and a
    check-out 400 "No check-in record found for today"; "In Progress" — a
    check-in gets 400 "Already checked in today" and a check-out 200;
    "Completed" — a check-in gets 400 "Already checked in today" and a
    check-out 400 "Already checked out today". *)
Theorem today_status_decides (host : Host.t) (clock : Routes.Clock)
    (note : option string) (user : Routes.UserProfile.t) (storage : MemStorage.t) :
  Routes.served host storage ->
  let today := Reads.get_attendance_today host clock user storage in
  let checkin := fst (Routes.post_attendance host clock "checkin" note user storage) in
  let checkout := fst (Routes.post_attendance host clock "checkout" note user storage) in
  (Reads.Today.status today = "Not Started"
   /\ Routes.status checkin = 201
   /\ checkout = {| Routes.status := 400;
                    Routes.json :=
                      Routes.Message "No check-in record found for today" |})
  \/ (Reads.Today.status today = "In Progress"
      /\ checkin = {| Routes.status := 400;
                      Routes.json := Routes.Message "Already checked in today" |}
      /\ Routes.status checkout = 200)
  \/ (Reads.Today.status today = "Completed"
      /\ checkin = {| Routes.status := 400;
                      Routes.json := Routes.Message "Already checked in today" |}
      /\ checkout = {| Routes.status := 400;
                       Routes.json := Routes.Message "Already checked out today" |}).
Proof.
  intros Hserved today checkin checkout. subst today checkin checkout.
  unfold Reads.get_attendance_today.
  destruct (MemStorage.getTodayAttendanceByUserId host (clock 0%nat)
              (Routes.UserProfile.id user) storage) as [record|] eqn:Htoday.
  - destruct (Attendance.check_out record) as [out|] eqn:Hout.
    + right. right. rewrite post_attendance_checkin, post_attendance_checkout.
      rewrite Htoday, Hout. auto.
    + right. left.
      destruct (post_attendance_checkout_open host clock note user storage record
                  Hserved Htoday Hout) as [_ Hresult].
      rewrite Hresult, post_attendance_checkin, Htoday. auto.
  - left. rewrite post_attendance_checkin, post_attendance_checkout, Htoday. auto.
Qed.

Lemma today_status_decides_witness :
  Reads.Today.status
    (Reads.get_attendance_today Fixture.host Fixture.evening
       (Routes.UserProfile.Build_t 1 "sari" "karyawan" None None "sari@example.com")
       Fixture.checkedIn) = "In Progress"
  /\ Routes.status
       (fst (Routes.post_attendance Fixture.host Fixture.evening "checkout" None
               (Routes.UserProfile.Build_t 1 "sari" "karyawan" None None
                  "sari@example.com") Fixture.checkedIn)) = 200.
Proof.
  destruct (today_status_decides Fixture.host Fixture.evening None
              (Routes.UserProfile.Build_t 1 "sari" "karyawan" None None
                 "sari@example.com") Fixture.checkedIn)
    as [(H & _)|[(H1 & _ & H2)|(H & _)]].
  - unfold Fixture.checkedIn, Fixture.registered.
    repeat apply Routes.served_step. apply Routes.served_new.
  - vm_compute in H. discriminate.
  - split; [exact H1 | exact H2].
  - vm_compute in H. discriminate.
Defined.

(** X11 — after a check-out answered with 200, for every later request of
    the same day: a check-out is refused with 400 "Already checked out
    today", a check-in with 400 "Already checked in today", both without
    changing the store, and [GET /api/attendance/today] reports "Completed"
    with the check-out time and the working hours that the check-out
    answered. *)
Theorem checkout_then_completed (host : Host.t) (clock clock' : Routes.Clock)
    (note note' : option string) (user : Routes.UserProfile.t)
    (storage : MemStorage.t) :
  Routes.served host storage ->
  let checkout := Routes.post_attendance host clock "checkout" note user storage in
  Routes.status (fst checkout) = 200 ->
  Host.startOfDay host (clock' 0%nat) = Host.startOfDay host (clock 0%nat) ->
  exists record,
    MemStorage.getTodayAttendanceByUserId host (clock 0%nat)
      (Routes.UserProfile.id user) storage = Some record
    /\ Attendance.check_out record = None
    /\ Routes.json (fst checkout)
       = Routes.CheckedOut (Attendance.id record)
           (Host.formatTime host (clock 1%nat))
           (Utils.calculateWorkingHours host
              (Utils.DateObj (Attendance.check_in record))
              (Utils.DateObj (clock 1%nat)))
           "Check-out successful"
    /\ Routes.post_attendance host clock' "checkout" note' user (snd checkout)
       = ({| Routes.status := 400;
             Routes.json := Routes.Message "Already checked out today" |},
          snd checkout)
    /\ Routes.post_attendance host clock' "checkin" note' user (snd checkout)
       = ({| Routes.status := 400;
             Routes.json := Routes.Message "Already checked in today" |},
          snd checkout)
    /\ Reads.get_attendance_today host clock' user (snd checkout)
       = {| Reads.Today.checkInTime :=
              Some (Host.formatTime host (Attendance.check_in record));
            Reads.Today.checkOutTime := Some (Host.formatTime host (clock 1%nat));
            Reads.Today.workingHours :=
              Some (Utils.calculateWorkingHours host
                      (Utils.DateObj (Attendance.check_in record))
                      (Utils.DateObj (clock 1%nat)));
            Reads.Today.status := "Completed" |}.
Proof.
  intros Hserved checkout H200 Hday. subst checkout.
  destruct (MemStorage.getTodayAttendanceByUserId host (clock 0%nat)
              (Routes.UserProfile.id user) storage) as [record|] eqn:Htoday;
    [|rewrite post_attendance_checkout, Htoday in H200; simpl in H200; discriminate].
  destruct (Attendance.check_out record) as [out|] eqn:Hout;
    [rewrite post_attendance_checkout, Htoday, Hout in H200; simpl in H200;
     discriminate|].
  clear H200. exists record.
  destruct (post_attendance_checkout_open host clock note user storage record
              Hserved Htoday Hout) as [_ Hresult].
  cbv zeta in Hresult. rewrite Hresult. cbn [fst snd Routes.json].
  match goal with
  | |- context [Map.set _ ?u _] => set (updated := u)
  end.
  assert (Hafter : MemStorage.getTodayAttendanceByUserId host (clock' 0%nat)
                     (Routes.UserProfile.id user)
                     (MemStorage.with_attendance
                        (Map.set (Attendance.id record) updated
                           (MemStorage.attendance storage))
                        (MemStorage.attendanceIdCounter storage) storage)
                   = Some updated).
  { apply (getToday_after_update host (clock 0%nat)); try reflexivity; try assumption.
    exact (served_attendance_keyed host storage Hserved). }
  split; [reflexivity|]. split; [exact Hout|]. split; [reflexivity|].
  split; [|split].
  - rewrite post_attendance_checkout, Hafter. reflexivity.
  - rewrite post_attendance_checkin, Hafter. reflexivity.
  - unfold Reads.get_attendance_today. rewrite Hafter. reflexivity.
Qed.

Lemma checkout_then_completed_witness :
  exists record,
    Attendance.check_out record = None
    /\ Reads.Today.status
         (Reads.get_attendance_today Fixture.host Fixture.evening
            (Routes.UserProfile.Build_t 1 "sari" "karyawan" None None "sari@example.com")
            (snd (Routes.post_attendance Fixture.host Fixture.evening "checkout" None
                    (Routes.UserProfile.Build_t 1 "sari" "karyawan" None None
                       "sari@example.com") Fixture.checkedIn)))
       = "Completed".
Proof.
  destruct (checkout_then_completed Fixture.host Fixture.evening Fixture.evening
              None None
              (Routes.UserProfile.Build_t 1 "sari" "karyawan" None None
                 "sari@example.com") Fixture.checkedIn)
    as (record & _ & Hout & _ & _ & _ & Htoday).
  - unfold Fixture.checkedIn, Fixture.registered.
    repeat apply Routes.served_step. apply Routes.served_new.
  - reflexivity.
  - reflexivity.
  - exists record. split; [exact Hout|]. now rewrite Htoday.
Defined.

(** ** Sales and their items *)

Lemma parse_validItem host saleId item :
  match Routes.insertSaleItemSchema_parse saleId
          (Host.parseInt host (Routes.ProductItem.productId item))
          (Routes.ProductItem.quantity item) (Routes.ProductItem.price item) with
  | Normal d =>
      Invariant.validItem host saleId item = true
      /\ InsertSaleItem.sale_id d = saleId
      /\ (Some (InsertSaleItem.product_id d), InsertSaleItem.quantity d,
          InsertSaleItem.unit_price d) = Invariant.submitted host item
  | Throw message =>
      Invariant.validItem host saleId item = false /\ message = Routes.zodError
  end.
Proof.
  unfold Routes.insertSaleItemSchema_parse, Invariant.validItem, Invariant.submitted.
  destruct (Host.parseInt host _); [|tauto].
  destruct (_ && _); simpl; tauto.
Qed.

Lemma createSaleItems_stored host clock saleId items :
  forall n storage,
    let r := Routes.createSaleItems host clock n saleId items storage in
    fst r = (if List.forallb (Invariant.validItem host saleId) items
             then Normal tt else Throw Routes.zodError)
    /\ exists created,
         MemStorage.getSaleItemsBySaleId saleId (snd r)
         = MemStorage.getSaleItemsBySaleId saleId storage ++ created
         /\ List.map Invariant.stored created
            = List.map (Invariant.submitted host)
                (Invariant.accepted host saleId items)
         /\ Forall (fun it => SaleItem.sale_id it = saleId) created
         /\ (forall i it,
                List.nth_error created i = Some it ->
                SaleItem.id it = MemStorage.saleItemIdCounter storage + Z.of_nat i
                /\ SaleItem.created_at it = clock (n + i)%nat).
Proof.
  induction items as [|item rest IH]; intros n storage r; subst r.
  - simpl. split; [reflexivity|]. exists []. rewrite app_nil_r.
    repeat split; try constructor. all: destruct i; discriminate.
  - cbn [Routes.createSaleItems List.forallb Invariant.accepted].
    pose proof (parse_validItem host saleId item) as Hparse.
    destruct (Routes.insertSaleItemSchema_parse _ _ _ _) as [d|message].
    + destruct Hparse as (Hvalid & Hsale & Hsub). rewrite Hvalid.
      set (created1 := MemStorage.createSaleItem (clock n) d storage).
      destruct (IH (S n) (snd created1)) as (Hfst & created & Hget & Hmap & Hall & Hnth).
      change (let (_, storage') := created1 in
              Routes.createSaleItems host clock (S n) saleId rest storage')
        with (Routes.createSaleItems host clock (S n) saleId rest (snd created1)).
      split; [exact Hfst|]. exists (fst created1 :: created).
      assert (Hfirst : MemStorage.getSaleItemsBySaleId saleId (snd created1)
                       = MemStorage.getSaleItemsBySaleId saleId storage ++ [fst created1]).
      { subst created1. unfold MemStorage.createSaleItem. cbv zeta. cbn [fst snd].
        rewrite Hsale. unfold MemStorage.getSaleItemsBySaleId at 1. simpl.
        now rewrite Map_get_set_same. }
      split; [rewrite Hget, Hfirst, <- app_assoc; reflexivity|].
      split; [simpl; rewrite Hmap; f_equal; rewrite <- Hsub; reflexivity|].
      split; [constructor; [exact Hsale | exact Hall]|].
      intros [|i] it Hit.
      * injection Hit as <-. simpl. rewrite Nat.add_0_r. split; [lia | reflexivity].
      * destruct (Hnth i it Hit) as [Hid Hat]. rewrite Hid, Hat. simpl.
        split; [lia | f_equal; lia].
    + destruct Hparse as (Hvalid & ->). rewrite Hvalid. simpl.
      split; [reflexivity|]. exists []. rewrite app_nil_r.
      repeat split; try constructor. all: destruct i; discriminate.
Qed.

Lemma Map_keys_set_In {V : Type} k (v : V) m x :
  In x (Map.keys (Map.set k v m)) -> x = k \/ In x (Map.keys m).
Proof.
  induction m as [|[k' v'] m IH]; simpl.
  - intros [H|[]]. now left.
  - destruct (k' =? k) eqn:E; simpl.
    + apply Z.eqb_eq in E. intros [H|H]; [left; congruence | right; now right].
    + intros [H|H]; [right; now left|]. destruct (IH H); [now left | right; now right].
Qed.

Lemma createSaleItems_keys host clock saleId items bound :
  forall n storage,
    saleId < bound ->
    Forall (fun k => k < bound) (Map.keys (MemStorage.saleItems storage)) ->
    Forall (fun k => k < bound)
      (Map.keys (MemStorage.saleItems
                   (snd (Routes.createSaleItems host clock n saleId items storage)))).
Proof.
  induction items as [|item rest IH]; intros n storage Hlt Hall; [exact Hall|].
  cbn [Routes.createSaleItems].
  pose proof (parse_validItem host saleId item) as Hparse.
  destruct (Routes.insertSaleItemSchema_parse _ _ _ _) as [d|message]; [|exact Hall].
  destruct Hparse as (_ & Hsale & _).
  change (let (_, storage') := MemStorage.createSaleItem (clock n) d storage in
          Routes.createSaleItems host clock (S n) saleId rest storage')
    with (Routes.createSaleItems host clock (S n) saleId rest
            (snd (MemStorage.createSaleItem (clock n) d storage))).
  apply IH; [exact Hlt|]. simpl. rewrite Hsale.
  rewrite Forall_forall in *. intros x Hx.
  apply Map_keys_set_In in Hx. destruct Hx as [->|Hx]; [exact Hlt | now apply Hall].
Qed.

Lemma post_sales_parsed host clock pool body user storage :
  Routes.post_sales host clock pool body user storage
  = match Invariant.parsedSale host pool body user with
    | Throw message =>
        ({| Routes.status := 400; Routes.json := Routes.Message message |}, storage)
    | Normal saleData =>
        let created :=
          MemStorage.createSale (clock 0%nat) (fun i => pool (6 + i)%nat)
            saleData storage in
        let stored :=
          Routes.createSaleItems host clock 1 (Sale.id (fst created))
            (Routes.SalesFormData.productItems body) (snd created) in
        match fst stored with
        | Throw message =>
            ({| Routes.status := 400; Routes.json := Routes.Message message |},
             snd stored)
        | Normal _ =>
            ({| Routes.status := 201;
                Routes.json :=
                  Routes.SaleRecorded (Sale.id (fst created))
                    (Sale.invoice_number (fst created))
                    (Routes.totalAmountOf
                       (Routes.subtotalOf (Routes.SalesFormData.productItems body)))
                    "Sale recorded successfully" |}, snd stored)
        end
    end.
Proof.
  unfold Routes.post_sales, Invariant.parsedSale. cbv zeta.
  destruct (Routes.insertSaleSchema_parse _ _ _ _ _ _ _ _ _ _) as [d|e]; [|reflexivity].
  unfold MemStorage.createSale. cbv zeta. cbn [fst snd].
  destruct (Routes.createSaleItems _ _ _ _ _ _) as [[[]|e] s2]; reflexivity.
Qed.

Lemma served_itemsOfSales host storage :
  Routes.served host storage -> Invariant.itemsOfSales storage.
Proof.
  induction 1 as [now|storage clock pool request Hserved IH].
  - constructor.
  - unfold Invariant.itemsOfSales in *.
    pose proof (serve_frame host clock pool request storage) as (_ & Hframe).
    destruct request as [body|a|a ty note|a body|a body].
    + destruct Hframe as (_ & (_ & Hc & Hi & _) & _). now rewrite Hc, Hi.
    + cbv zeta in Hframe. now rewrite Hframe.
    + destruct Hframe as (_ & (_ & Hc & Hi & _) & _). now rewrite Hc, Hi.
    + clear Hframe. simpl. unfold Routes.protectedRoute.
      destruct (Routes.validateSession _ _ _) as [user|]; [|exact IH].
      rewrite post_sales_parsed.
      destruct (Invariant.parsedSale host pool body user) as [d|e]; [|exact IH].
      cbv zeta.
      set (created := MemStorage.createSale _ _ d storage).
      pose proof (createSaleItems_touches_items host clock (Sale.id (fst created))
                    (Routes.SalesFormData.productItems body) 1%nat (snd created))
        as (_ & _ & _ & _ & _ & Hcounter).
      pose proof (createSaleItems_keys host clock (Sale.id (fst created))
                    (Routes.SalesFormData.productItems body)
                    (MemStorage.saleIdCounter storage + 1) 1%nat (snd created)) as Hkeys.
      assert (Hall : Forall (fun k => k < MemStorage.saleIdCounter storage + 1)
                       (Map.keys (MemStorage.saleItems
                          (snd (Routes.createSaleItems host clock 1
                                  (Sale.id (fst created))
                                  (Routes.SalesFormData.productItems body)
                                  (snd created)))))).
      { apply Hkeys; [subst created; simpl; lia|].
        subst created. simpl. eapply Forall_impl; [|exact IH]. simpl. intros; lia. }
      assert (Hc : MemStorage.saleIdCounter
                     (snd (Routes.createSaleItems host clock 1 (Sale.id (fst created))
                             (Routes.SalesFormData.productItems body) (snd created)))
                   = MemStorage.saleIdCounter storage + 1)
        by (rewrite Hcounter; reflexivity).
      destruct (fst (Routes.createSaleItems _ _ _ _ _ _)); cbn [snd]; now rewrite Hc.
    + destruct Hframe as (_ & _ & (_ & Hc & Hi & _)). now rewrite Hc, Hi.
Qed.

Lemma subtotal_stored host (items : list SaleItem.t) :
  forall (productItems : list Routes.ProductItem.t),
    List.map Invariant.stored items = List.map (Invariant.submitted host) productItems ->
    Invariant.subtotalOfStored items = Routes.subtotalOf productItems.
Proof.
  unfold Invariant.subtotalOfStored, Routes.subtotalOf. generalize 0%float.
  induction items as [|it items IH]; intros acc [|p ps] Hmap; try discriminate;
    [reflexivity|].
  simpl in Hmap. injection Hmap as _ Hq Hp Htail.
  simpl. rewrite Hq, Hp. now apply IH.
Qed.

Lemma accepted_all host saleId items :
  List.forallb (Invariant.validItem host saleId) items = true ->
  Invariant.accepted host saleId items = items.
Proof.
  induction items as [|item rest IH]; [reflexivity|]. simpl.
  destruct (Invariant.validItem host saleId item); [|discriminate].
  simpl. intros H. now rewrite IH.
Qed.

Lemma accepted_some host saleId items :
  List.forallb (Invariant.validItem host saleId) items = false ->
  (List.length (Invariant.accepted host saleId items) < List.length items)%nat.
Proof.
  induction items as [|item rest IH]; [discriminate|]. simpl.
  destruct (Invariant.validItem host saleId item); simpl; [|lia].
  intros H. apply IH in H. lia.
Qed.

(** What [POST /api/sales] leaves behind once the sale passed validation. *)
Lemma post_sales_stored host clock pool body user storage saleData :
  Routes.served host storage ->
  Invariant.parsedSale host pool body user = Normal saleData ->
  let result := Routes.post_sales host clock pool body user storage in
  let productItems := Routes.SalesFormData.productItems body in
  exists sale,
    sale = fst (MemStorage.createSale (clock 0%nat) (fun i => pool (6 + i)%nat)
                  saleData storage)
    /\ MemStorage.getSaleById (MemStorage.saleIdCounter storage) storage = None
    /\ MemStorage.getSaleById (MemStorage.saleIdCounter storage) (snd result) = Some sale
    /\ MemStorage.sales (snd result)
       = MemStorage.sales storage ++ [(MemStorage.saleIdCounter storage, sale)]
    /\ fst result
       = (if List.forallb
               (Invariant.validItem host (MemStorage.saleIdCounter storage))
               productItems
          then {| Routes.status := 201;
                  Routes.json :=
                    Routes.SaleRecorded (Sale.id sale) (Sale.invoice_number sale)
                      (Routes.totalAmountOf (Routes.subtotalOf productItems))
                      "Sale recorded successfully" |}
          else {| Routes.status := 400;
                  Routes.json := Routes.Message Routes.zodError |})
    /\ let items :=
         MemStorage.getSaleItemsBySaleId (MemStorage.saleIdCounter storage)
           (snd result) in
       List.map Invariant.stored items
       = List.map (Invariant.submitted host)
           (Invariant.accepted host (MemStorage.saleIdCounter storage) productItems)
       /\ Forall (fun it => SaleItem.sale_id it = MemStorage.saleIdCounter storage) items
       /\ (forall i it,
              List.nth_error items i = Some it ->
              SaleItem.id it = MemStorage.saleItemIdCounter storage + Z.of_nat i
              /\ SaleItem.created_at it = clock (1 + i)%nat).
Proof.
  intros Hserved Hparse result productItems. subst result productItems.
  rewrite post_sales_parsed, Hparse. cbv zeta.
  set (created := MemStorage.createSale _ _ saleData storage).
  exists (fst created). split; [reflexivity|].
  destruct (served_keyed host storage Hserved) as (_ & _ & Hs & _).
  destruct (keyed_create_get Sale.id _ _ (fst created) Hs eq_refl)
    as (Hnone & Hsome & _ & _).
  destruct (keyed_create Sale.id _ _ (fst created) Hs eq_refl) as (Hset & _).
  pose proof (createSaleItems_touches_items host clock (Sale.id (fst created))
                (Routes.SalesFormData.productItems body) 1%nat (snd created))
    as (_ & _ & _ & _ & Hsales & _).
  destruct (createSaleItems_stored host clock (Sale.id (fst created))
              (Routes.SalesFormData.productItems body) 1%nat (snd created))
    as (Hfst & items & Hget & Hmap & Hall & Hnth).
  cbv zeta in Hsales, Hfst, Hget.
  assert (Hempty : MemStorage.getSaleItemsBySaleId (Sale.id (fst created)) (snd created)
                   = []).
  { unfold MemStorage.getSaleItemsBySaleId. subst created. simpl.
    rewrite Map_get_None; [reflexivity|].
    pose proof (served_itemsOfSales host storage Hserved) as Hkeys.
    unfold Invariant.itemsOfSales in Hkeys. rewrite Forall_forall in Hkeys.
    intros Hin. apply Hkeys in Hin. lia. }
  rewrite Hempty in Hget. change ([] ++ items) with items in Hget.
  set (stored := Routes.createSaleItems host clock 1 (Sale.id (fst created))
                   (Routes.SalesFormData.productItems body) (snd created)) in *.
  assert (Hsnd : snd (match fst stored with
                      | Normal _ =>
                          ({| Routes.status := 201;
                              Routes.json :=
                                Routes.SaleRecorded (Sale.id (fst created))
                                  (Sale.invoice_number (fst created))
                                  (Routes.totalAmountOf
                                     (Routes.subtotalOf
                                        (Routes.SalesFormData.productItems body)))
                                  "Sale recorded successfully" |}, snd stored)
                      | Throw message =>
                          ({| Routes.status := 400;
                              Routes.json := Routes.Message message |}, snd stored)
                      end) = snd stored) by (destruct (fst stored); reflexivity).
  rewrite Hsnd. split; [exact Hnone|].
  split; [unfold MemStorage.getSaleById; rewrite Hsales; exact Hsome|].
  split; [rewrite Hsales; exact Hset|].
  split.
  { rewrite Hfst. destruct (List.forallb _ _); [|reflexivity].
    destruct (fst created); reflexivity. }
  cbv zeta.
  change (MemStorage.getSaleItemsBySaleId (MemStorage.saleIdCounter storage)
            (snd stored))
    with (MemStorage.getSaleItemsBySaleId (Sale.id (fst created)) (snd stored)).
  rewrite Hget. split; [exact Hmap|]. split; [exact Hall|]. exact Hnth.
Qed.

Lemma parsedSale_Normal host pool body user saleData :
  Invariant.parsedSale host pool body user = Normal saleData ->
  let subtotal := Routes.subtotalOf (Routes.SalesFormData.productItems body) in
  Some (InsertSale.sale_date saleData)
  = Host.Date_parse host (Routes.SalesFormData.saleDate body)
  /\ InsertSale.user_id saleData = Routes.UserProfile.id user
  /\ InsertSale.customer_name saleData = Routes.SalesFormData.customerName body
  /\ InsertSale.status saleData = "completed"
  /\ InsertSale.total_amount saleData = Routes.totalAmountOf subtotal
  /\ InsertSale.tax_amount saleData = Routes.taxAmountOf subtotal
  /\ InsertSale.discount_amount saleData = Routes.discountAmount.
Proof.
  unfold Invariant.parsedSale, Routes.insertSaleSchema_parse. cbv zeta.
  destruct (Host.Date_parse host _) as [date|]; [|discriminate].
  destruct (_ && _); [|discriminate].
  intros [= <-]. simpl. tauto.
Qed.

Lemma post_sales_201 host clock pool body user storage :
  Routes.status (fst (Routes.post_sales host clock pool body user storage)) = 201 ->
  (exists saleData, Invariant.parsedSale host pool body user = Normal saleData)
  /\ List.forallb (Invariant.validItem host (MemStorage.saleIdCounter storage))
       (Routes.SalesFormData.productItems body)
     = true.
Proof.
  rewrite post_sales_parsed.
  destruct (Invariant.parsedSale host pool body user) as [d|e]; [|simpl; discriminate].
  cbv zeta.
  destruct (createSaleItems_stored host clock
              (Sale.id (fst (MemStorage.createSale (clock 0%nat)
                               (fun i => pool (6 + i)%nat) d storage)))
              (Routes.SalesFormData.productItems body) 1%nat
              (snd (MemStorage.createSale (clock 0%nat)
                      (fun i => pool (6 + i)%nat) d storage))) as (Hfst & _).
  cbv zeta in Hfst. rewrite Hfst.
  destruct (List.forallb _ _); [|simpl; discriminate].
  intros _. split; [now exists d | reflexivity].
Qed.

(** X12 — when [POST /api/sales] answers 201 in a store the server can be
    in, the sale is stored under a new id, for the user, with status
    "completed", the submitted customer and the parsed sale date; the items
    stored for it are exactly the submitted product items, in their order,
    with consecutive ids and the sale's id; and the stored tax and total are
    those computed from the stored items. *)
Theorem sale_items_stored (host : Host.t) (clock : Routes.Clock) (pool : nat -> Z)
    (body : Routes.SalesFormData.t) (user : Routes.UserProfile.t)
    (storage : MemStorage.t) :
  Routes.served host storage ->
  let result := Routes.post_sales host clock pool body user storage in
  Routes.status (fst result) = 201 ->
  exists sale,
    Routes.json (fst result)
    = Routes.SaleRecorded (Sale.id sale) (Sale.invoice_number sale)
        (Sale.total_amount sale) "Sale recorded successfully"
    /\ MemStorage.getSaleById (Sale.id sale) storage = None
    /\ MemStorage.getSaleById (Sale.id sale) (snd result) = Some sale
    /\ Sale.user_id sale = Routes.UserProfile.id user
    /\ Sale.status sale = "completed"
    /\ Sale.customer_name sale = Routes.SalesFormData.customerName body
    /\ Some (Sale.sale_date sale)
       = Host.Date_parse host (Routes.SalesFormData.saleDate body)
    /\ let items := MemStorage.getSaleItemsBySaleId (Sale.id sale) (snd result) in
       List.map Invariant.stored items
       = List.map (Invariant.submitted host) (Routes.SalesFormData.productItems body)
       /\ Forall (fun it => SaleItem.sale_id it = Sale.id sale) items
       /\ (forall i it,
              List.nth_error items i = Some it ->
              SaleItem.id it = MemStorage.saleItemIdCounter storage + Z.of_nat i
              /\ SaleItem.created_at it = clock (1 + i)%nat)
       /\ Sale.tax_amount sale = Routes.taxAmountOf (Invariant.subtotalOfStored items)
       /\ Sale.total_amount sale
          = Routes.totalAmountOf (Invariant.subtotalOfStored items).
Proof.
  intros Hserved result H201. subst result.
  destruct (post_sales_201 _ _ _ _ _ _ H201) as ((saleData & Hparse) & Hvalid).
  destruct (post_sales_stored host clock pool body user storage saleData Hserved Hparse)
    as (sale & Hsale & Hnone & Hsome & _ & Hfst & Hmap & Hall & Hnth).
  cbv zeta in *. rewrite Hvalid in Hfst. rewrite (accepted_all _ _ _ Hvalid) in Hmap.
  destruct (parsedSale_Normal _ _ _ _ _ Hparse)
    as (Hdate & Huser & Hcustomer & Hstatus & Htotal & Htax & _).
  cbv zeta in *.
  assert (Hid : Sale.id sale = MemStorage.saleIdCounter storage)
    by (rewrite Hsale; reflexivity).
  exists sale. rewrite Hid, (subtotal_stored host _ _ Hmap).
  split; [rewrite Hfst, Hsale; simpl; now rewrite Htotal|].
  split; [exact Hnone|]. split; [exact Hsome|].
  split; [rewrite Hsale; exact Huser|]. split; [rewrite Hsale; exact Hstatus|].
  split; [rewrite Hsale; exact Hcustomer|]. split; [rewrite Hsale; exact Hdate|].
  split; [exact Hmap|]. split; [exact Hall|]. split; [exact Hnth|].
  split; rewrite Hsale; [exact Htax | exact Htotal].
Qed.

Lemma sale_items_stored_witness :
  exists sale,
    MemStorage.getSaleById (Sale.id sale)
      (snd (Routes.post_sales Fixture.host Fixture.clock Fixture.pool Fixture.sale
              Sample.sari Fixture.checkedIn)) = Some sale
    /\ Sale.status sale = "completed".
Proof.
  destruct (sale_items_stored Fixture.host Fixture.clock Fixture.pool Fixture.sale
              Sample.sari Fixture.checkedIn)
    as (sale & _ & _ & Hsome & _ & Hstatus & _).
  - unfold Fixture.checkedIn, Fixture.registered.
    repeat apply Routes.served_step. apply Routes.served_new.
  - vm_compute. reflexivity.
  - exists sale. split; [exact Hsome | exact Hstatus].
Defined.


(** The sale passes [insertSaleSchema.parse] exactly when its date is a
    date, the id of the user fits an [integer] column and the total and the
    tax fit a [real] column. *)
Lemma parsedSale_passes host pool body user :
  let subtotal := Routes.subtotalOf (Routes.SalesFormData.productItems body) in
  (exists saleData, Invariant.parsedSale host pool body user = Normal saleData)
  <-> (exists date,
          Host.Date_parse host (Routes.SalesFormData.saleDate body) = Some date)
      /\ Routes.zodInteger (Routes.UserProfile.id user) = true
      /\ Routes.zodReal (Routes.totalAmountOf subtotal) = true
      /\ Routes.zodReal (Routes.taxAmountOf subtotal) = true.
Proof.
  unfold Invariant.parsedSale, Routes.insertSaleSchema_parse. cbv zeta.
  destruct (Host.Date_parse host _) as [date|].
  - destruct (Routes.zodInteger _); cbn [andb].
    + destruct (Routes.zodReal (Routes.totalAmountOf _)); cbn [andb].
      * destruct (Routes.zodReal (Routes.taxAmountOf _)); cbn [andb].
        -- change (Routes.zodReal Routes.discountAmount) with true. cbv iota.
           split; [intros _; repeat split; eauto | intros _; eauto].
        -- split; [intros (d & H); discriminate | intros (_ & _ & _ & H); discriminate].
      * split; [intros (d & H); discriminate | intros (_ & _ & H & _); discriminate].
    + split; [intros (d & H); discriminate | intros (_ & H & _); discriminate].
  - split; [intros (d & H); discriminate | intros ((d & H) & _); discriminate].
Qed.

(** What the validation refuses: a total above the range of a [real]
    column, a quantity that is not an integer, a product id that is not a
    number. *)
Lemma validation_refuses :
  Routes.zodReal 16650055.5 = false
  /\ Routes.zodReal 8388607 = true
  /\ Routes.zodIntegerNumber 1.5 = false
  /\ Invariant.validItem Fixture.host 1
       {| Routes.ProductItem.productId := "1";
          Routes.ProductItem.quantity := 1.5; Routes.ProductItem.price := 100 |}
     = false
  /\ Invariant.validItem Fixture.host 1
       {| Routes.ProductItem.productId := "1";
          Routes.ProductItem.quantity := 2; Routes.ProductItem.price := 100 |}
     = true
  /\ Invariant.validItem Fixture.host 1
       {| Routes.ProductItem.productId := "x";
          Routes.ProductItem.quantity := 1; Routes.ProductItem.price := 50 |}
     = false.
Proof. repeat split; vm_compute; reflexivity. Qed.

(** X13 — [POST /api/sales] is not atomic: when the sale passes
    [insertSaleSchema.parse] (its date is a date, the user id fits an
    [integer] column, the total and the tax fit a [real] column) and some
    product item does not pass [insertSaleItemSchema.parse] (its product id
    is not a number, an id or the quantity is not an integer of an [integer]
    column, or the price is outside a [real] column), the answer is 400 and
    yet the sale is stored under a new id, with the total of all submitted
    items, together with the items before the first refused one, which are
    fewer than the submitted ones. *)
Theorem sale_kept_when_item_refused (host : Host.t) (clock : Routes.Clock)
    (pool : nat -> Z) (body : Routes.SalesFormData.t) (user : Routes.UserProfile.t)
    (storage : MemStorage.t) (date : Z) :
  let productItems := Routes.SalesFormData.productItems body in
  let subtotal := Routes.subtotalOf productItems in
  Routes.served host storage ->
  Host.Date_parse host (Routes.SalesFormData.saleDate body) = Some date ->
  Routes.zodInteger (Routes.UserProfile.id user) = true ->
  Routes.zodReal (Routes.totalAmountOf subtotal) = true ->
  Routes.zodReal (Routes.taxAmountOf subtotal) = true ->
  List.forallb (Invariant.validItem host (MemStorage.saleIdCounter storage))
    productItems = false ->
  let result := Routes.post_sales host clock pool body user storage in
  let items :=
    MemStorage.getSaleItemsBySaleId (MemStorage.saleIdCounter storage) (snd result) in
  Routes.status (fst result) = 400
  /\ (exists message, Routes.json (fst result) = Routes.Message message)
  /\ MemStorage.getSaleById (MemStorage.saleIdCounter storage) storage = None
  /\ (exists sale,
         MemStorage.getSaleById (MemStorage.saleIdCounter storage) (snd result)
         = Some sale
         /\ Sale.sale_date sale = date
         /\ Sale.total_amount sale = Routes.totalAmountOf subtotal)
  /\ List.map Invariant.stored items
     = List.map (Invariant.submitted host)
         (Invariant.accepted host (MemStorage.saleIdCounter storage) productItems)
  /\ (List.length items < List.length productItems)%nat.
Proof.
  intros productItems subtotal Hserved Hdate Huser Htotal Htax Hvalid result items.
  subst result items productItems subtotal.
  destruct (proj2 (parsedSale_passes host pool body user)) as (saleData & Hparse).
  { cbv zeta. split; [now exists date|]. split; [exact Huser|].
    split; [exact Htotal | exact Htax]. }
  destruct (post_sales_stored host clock pool body user storage saleData Hserved Hparse)
    as (sale & Hsale & Hnone & Hsome & _ & Hfst & Hmap & _).
  cbv zeta in *. rewrite Hvalid in Hfst.
  destruct (parsedSale_Normal _ _ _ _ _ Hparse) as (Hd & _ & _ & _ & Ht & _).
  split; [now rewrite Hfst|]. split; [rewrite Hfst; now eexists|].
  split; [exact Hnone|].
  split.
  { exists sale. split; [exact Hsome|]. rewrite Hsale. cbn [fst MemStorage.createSale].
    split; [|exact Ht]. rewrite Hdate in Hd. now injection Hd. }
  split; [exact Hmap|].
  apply (f_equal (@List.length _)) in Hmap. rewrite !List.length_map in Hmap.
  rewrite Hmap. now apply accepted_some.
Qed.

Lemma sale_kept_when_item_refused_witness :
  Routes.status
    (fst (Routes.post_sales Fixture.host Fixture.clock Fixture.pool Sample.refusedSale
            Sample.sari Fixture.checkedIn)) = 400
  /\ exists sale,
       MemStorage.getSaleById (MemStorage.saleIdCounter Fixture.checkedIn)
         (snd (Routes.post_sales Fixture.host Fixture.clock Fixture.pool
                 Sample.refusedSale Sample.sari Fixture.checkedIn)) = Some sale
       /\ Sale.total_amount sale = 277.5%float.
Proof.
  destruct (sale_kept_when_item_refused Fixture.host Fixture.clock Fixture.pool
              Sample.refusedSale Sample.sari Fixture.checkedIn 1705276800000)
    as (Hfst & _ & _ & (sale & Hsome & _ & Htotal) & _).
  - unfold Fixture.checkedIn, Fixture.registered.
    repeat apply Routes.served_step. apply Routes.served_new.
  - reflexivity.
  - reflexivity.
  - vm_compute. reflexivity.
  - vm_compute. reflexivity.
  - vm_compute. reflexivity.
  - split; [exact Hfst|]. exists sale. split; [exact Hsome|].
    rewrite Htotal. vm_compute. reflexivity.
Defined.


Lemma sumTotalAmount_snoc (l : list Sale.t) (sale : Sale.t) :
  MemStorage.sumTotalAmount (l ++ [sale])
  = PrimFloat.add (MemStorage.sumTotalAmount l) (Sale.total_amount sale).
Proof. unfold MemStorage.sumTotalAmount. now rewrite fold_left_app. Qed.

(** X14 — once the sale has passed [insertSaleSchema.parse] (its date is a
    date, the user id fits an [integer] column, the total and the tax fit a
    [real] column), whether or not its items are accepted,
    [getDailySalesByDate] counts it for the days that contain its sale date,
    adding its total to the sum and one to the transactions, and answers as
    before for every other day. *)
Theorem sale_counts_in_its_day (host : Host.t) (clock : Routes.Clock)
    (pool : nat -> Z) (body : Routes.SalesFormData.t) (user : Routes.UserProfile.t)
    (storage : MemStorage.t) (saleDate : Z) :
  let subtotal := Routes.subtotalOf (Routes.SalesFormData.productItems body) in
  Routes.served host storage ->
  Host.Date_parse host (Routes.SalesFormData.saleDate body) = Some saleDate ->
  Routes.zodInteger (Routes.UserProfile.id user) = true ->
  Routes.zodReal (Routes.totalAmountOf subtotal) = true ->
  Routes.zodReal (Routes.taxAmountOf subtotal) = true ->
  let result := Routes.post_sales host clock pool body user storage in
  forall date,
    let before := MemStorage.getDailySalesByDate host date storage in
    MemStorage.getDailySalesByDate host date (snd result)
    = if Spec.during host date saleDate
      then (PrimFloat.add (fst before) (Routes.totalAmountOf subtotal),
            snd before + 1)
      else before.
Proof.
  intros subtotal Hserved Hdate Huser Htotal Htax result. subst result subtotal.
  destruct (proj2 (parsedSale_passes host pool body user)) as (saleData & Hparse).
  { cbv zeta. split; [now exists saleDate|]. split; [exact Huser|].
    split; [exact Htotal | exact Htax]. }
  destruct (post_sales_stored host clock pool body user storage saleData Hserved Hparse)
    as (sale & Hsale & _ & _ & Hsales & _).
  cbv zeta in *.
  destruct (parsedSale_Normal _ _ _ _ _ Hparse) as (Hd & _ & _ & _ & Ht & _).
  cbv zeta in Ht. rewrite Hdate in Hd. injection Hd as Hd. intros date.
  unfold MemStorage.getDailySalesByDate, Spec.during. cbv zeta. rewrite Hsales.
  unfold Map.values. rewrite List.map_app, List.filter_app.
  cbn [List.map List.filter snd fst].
  replace (Sale.sale_date sale) with saleDate
    by (rewrite Hsale; cbn [fst MemStorage.createSale Sale.sale_date]; exact (eq_sym Hd)).
  destruct ((Host.startOfDay host date <=? saleDate)
            && (saleDate <=? Host.endOfDay host date)).
  - rewrite sumTotalAmount_snoc, List.length_app.
    replace (Sale.total_amount sale) with (InsertSale.total_amount saleData)
      by (rewrite Hsale; reflexivity).
    rewrite Ht. f_equal. simpl List.length. lia.
  - now rewrite app_nil_r.
Qed.

Lemma sale_counts_in_its_day_witness :
  MemStorage.getDailySalesByDate Fixture.host 1705339800000 Fixture.checkedIn
  = (0%float, 0)
  /\ MemStorage.getDailySalesByDate Fixture.host 1705339800000
       (snd (Routes.post_sales Fixture.host Fixture.clock Fixture.pool Fixture.sale
               Sample.sari Fixture.checkedIn))
     = (277.5%float, 1).
Proof.
  split; [vm_compute; reflexivity|].
  rewrite (sale_counts_in_its_day Fixture.host Fixture.clock Fixture.pool Fixture.sale
             Sample.sari Fixture.checkedIn 1705276800000).
  - vm_compute. reflexivity.
  - unfold Fixture.checkedIn, Fixture.registered.
    repeat apply Routes.served_step. apply Routes.served_new.
  - reflexivity.
  - reflexivity.
  - vm_compute. reflexivity.
  - vm_compute. reflexivity.
Defined.


(** X15 — the summary the sales page shows, [calculateSummary], is what the
    server computes from the same product items (for no items, and for an
    undefined list, all zeros); when [POST /api/sales] answers 201, the
    total it returns and the total, tax and discount it stores are those of
    the summary. *)
Theorem client_summary_is_recorded (host : Host.t) (clock : Routes.Clock)
    (pool : nat -> Z) (body : Routes.SalesFormData.t) (user : Routes.UserProfile.t)
    (storage : MemStorage.t) :
  let summary :=
    SalesPage.calculateSummary (Some (Routes.SalesFormData.productItems body)) in
  let result := Routes.post_sales host clock pool body user storage in
  summary
  = {| SalesPage.Summary.subtotal :=
         Routes.subtotalOf (Routes.SalesFormData.productItems body);
       SalesPage.Summary.tax :=
         Routes.taxAmountOf (Routes.subtotalOf (Routes.SalesFormData.productItems body));
       SalesPage.Summary.discount := Routes.discountAmount;
       SalesPage.Summary.total :=
         Routes.totalAmountOf
           (Routes.subtotalOf (Routes.SalesFormData.productItems body)) |}
  /\ SalesPage.calculateSummary None = SalesPage.calculateSummary (Some [])
  /\ (Routes.status (fst result) = 201 ->
      exists sale,
        Map.get (Sale.id sale) (MemStorage.sales (snd result)) = Some sale
        /\ Routes.json (fst result)
           = Routes.SaleRecorded (Sale.id sale) (Sale.invoice_number sale)
               (SalesPage.Summary.total summary) "Sale recorded successfully"
        /\ Sale.total_amount sale = SalesPage.Summary.total summary
        /\ Sale.tax_amount sale = SalesPage.Summary.tax summary
        /\ Sale.discount_amount sale = SalesPage.Summary.discount summary).
Proof.
  intros summary result.
  assert (Hsummary : summary
    = {| SalesPage.Summary.subtotal :=
           Routes.subtotalOf (Routes.SalesFormData.productItems body);
         SalesPage.Summary.tax :=
           Routes.taxAmountOf
             (Routes.subtotalOf (Routes.SalesFormData.productItems body));
         SalesPage.Summary.discount := Routes.discountAmount;
         SalesPage.Summary.total :=
           Routes.totalAmountOf
             (Routes.subtotalOf (Routes.SalesFormData.productItems body)) |}).
  { subst summary. destruct (Routes.SalesFormData.productItems body); reflexivity. }
  split; [exact Hsummary|]. split; [reflexivity|].
  intros H201. subst result.
  destruct (post_sales_201 _ _ _ _ _ _ H201) as ((saleData & Hparse) & Hvalid).
  destruct (parsedSale_Normal _ _ _ _ _ Hparse)
    as (_ & _ & _ & _ & Htotal & Htax & Hdiscount).
  cbv zeta in *. rewrite Hsummary. cbn [SalesPage.Summary.total SalesPage.Summary.tax
                                          SalesPage.Summary.discount].
  rewrite post_sales_parsed, Hparse. cbv zeta.
  set (created := MemStorage.createSale _ _ saleData storage).
  pose proof (createSaleItems_touches_items host clock (Sale.id (fst created))
                (Routes.SalesFormData.productItems body) 1%nat (snd created))
    as (_ & _ & _ & _ & Hsales & _).
  destruct (createSaleItems_stored host clock (Sale.id (fst created))
              (Routes.SalesFormData.productItems body) 1%nat (snd created))
    as (Hfst & _).
  cbv zeta in Hsales, Hfst.
  change (MemStorage.saleIdCounter storage) with (Sale.id (fst created)) in Hvalid.
  rewrite Hfst, Hvalid. cbn [fst snd Routes.json].
  exists (fst created). rewrite Hsales.
  split; [subst created; simpl; apply Map_get_set_same|].
  split; [reflexivity|].
  split; [exact Htotal|]. split; [exact Htax | exact Hdiscount].
Qed.

Lemma client_summary_is_recorded_witness :
  exists sale,
    Map.get (Sale.id sale)
      (MemStorage.sales
         (snd (Routes.post_sales Fixture.host Fixture.clock Fixture.pool Fixture.sale
                 Sample.sari Fixture.checkedIn))) = Some sale
    /\ Sale.total_amount sale
       = SalesPage.Summary.total
           (SalesPage.calculateSummary
              (Some (Routes.SalesFormData.productItems Fixture.sale))).
Proof.
  destruct (client_summary_is_recorded Fixture.host Fixture.clock Fixture.pool
              Fixture.sale Sample.sari Fixture.checkedIn) as (_ & _ & H).
  destruct H as (sale & Hget & _ & Htotal & _).
  - vm_compute. reflexivity.
  - exists sale. split; [exact Hget | exact Htotal].
Defined.


(** ** Working hours *)

(** X16 — [calculateWorkingHours]: "-- hrs -- mins" when either argument is
    missing or the empty string; "NaN hrs NaN mins" when a non-empty string
    is not a date; a string that is a date counts as that date; for two dates
    with the check-out not before the check-in the hours are not negative,
    the minutes are between 0 and 59, and together they are the difference
    rounded down to the minute, exactly so up to a difference of 2^53
    milliseconds and at most one millisecond above the difference beyond;
    for a check-out less than a minute before the check-in the result is
    "-1 hrs -1 mins". *)
Theorem calculateWorkingHours_edges (host : Host.t) :
  (forall other,
      Utils.calculateWorkingHours host Utils.Missing other = "-- hrs -- mins"
      /\ Utils.calculateWorkingHours host other Utils.Missing = "-- hrs -- mins"
      /\ Utils.calculateWorkingHours host (Utils.DateStr "") other = "-- hrs -- mins"
      /\ Utils.calculateWorkingHours host other (Utils.DateStr "") = "-- hrs -- mins")
  /\ (forall s other,
         s <> "" -> Utils.truthy other = true -> Host.Date_parse host s = None ->
         Utils.calculateWorkingHours host (Utils.DateStr s) other = "NaN hrs NaN mins"
         /\ Utils.calculateWorkingHours host other (Utils.DateStr s)
            = "NaN hrs NaN mins")
  /\ (forall s t other,
         s <> "" -> Host.Date_parse host s = Some t ->
         Utils.calculateWorkingHours host (Utils.DateStr s) other
         = Utils.calculateWorkingHours host (Utils.DateObj t) other
         /\ Utils.calculateWorkingHours host other (Utils.DateStr s)
            = Utils.calculateWorkingHours host other (Utils.DateObj t))
  /\ (forall check_in check_out,
         timeValue check_in -> timeValue check_out -> check_in <= check_out ->
         exists hours minutes,
           Utils.calculateWorkingHours host (Utils.DateObj check_in)
             (Utils.DateObj check_out)
           = (string_of_Z hours ++ " hrs " ++ string_of_Z minutes ++ " mins")%string
           /\ 0 <= hours /\ 0 <= minutes < 60
           /\ hours * 3600000 + minutes * 60000 - 1 <= check_out - check_in
              < hours * 3600000 + minutes * 60000 + 60000
           /\ (check_out - check_in <= 2 ^ 53 ->
               hours * 3600000 + minutes * 60000 <= check_out - check_in))
  /\ (forall check_in check_out,
         timeValue check_in -> timeValue check_out ->
         - 60000 < check_out - check_in < 0 ->
         Utils.calculateWorkingHours host (Utils.DateObj check_in)
           (Utils.DateObj check_out) = "-1 hrs -1 mins").
Proof.
  assert (Htruthy : forall s, s <> "" -> truthy_string s = true).
  { intros s Hs. unfold truthy_string. destruct (String.eqb_spec s ""); [contradiction|].
    reflexivity. }
  split; [|split; [|split; [|split]]].
  - intros other. unfold Utils.calculateWorkingHours. simpl.
    repeat split; try reflexivity; now rewrite orb_true_r.
  - intros s other Hs Hother Hparse. unfold Utils.calculateWorkingHours. simpl.
    rewrite (Htruthy s Hs), Hother, Hparse. simpl.
    split; [reflexivity|]. now destruct (Utils.getTime host other).
  - intros s t other Hs Hparse. unfold Utils.calculateWorkingHours. simpl.
    now rewrite (Htruthy s Hs), Hparse.
  - intros check_in check_out Hin Hout Hle. unfold timeValue in Hin, Hout.
    assert (Hd : 0 <= check_out - check_in <= 17280000000000000) by lia.
    rewrite calculateWorkingHours_rounded by exact Hd.
    pose proof (round_difference _ Hd) as Hround.
    change (2 ^ 53) with 9007199254740992 in *.
    set (d := check_out - check_in) in *.
    set (n := Number.round d) in *.
    exists (n / 3600000), (n mod 3600000 / 60000).
    split; [reflexivity|].
    assert (Hm4 := Z.mod_pos_bound d 4 ltac:(lia)).
    assert (Hd4 := Z.div_mod d 4 ltac:(lia)).
    destruct (9007199254740992 <? d) eqn:Hbig; cbn [andb] in Hround.
    + destruct (d mod 4 =? 3) eqn:H3;
        [|destruct (d mod 4 =? 1) eqn:H1]; rewrite Hround;
        repeat split; try (Z.div_mod_to_equations; lia).
    + rewrite Hround. repeat split; Z.div_mod_to_equations; lia.
  - intros check_in check_out Hin Hout Hdiff.
    unfold Utils.calculateWorkingHours.
    cbn [Utils.truthy Utils.getTime negb orb]. cbv zeta.
    change (1000 * 60 * 60) with 3600000. change (1000 * 60) with 60000.
    unfold Number.sub.
    rewrite round_exact
      by (change (2 ^ 53) with 9007199254740992; lia).
    rewrite (floorDiv_small_negative (check_out - check_in) 3600000) by lia.
    replace (Z.rem (check_out - check_in) 3600000) with (check_out - check_in)
      by (Z.to_euclidean_division_equations; lia).
    rewrite (floorDiv_small_negative (check_out - check_in) 60000) by lia.
    reflexivity.
Qed.

Lemma calculateWorkingHours_edges_witness :
  Utils.calculateWorkingHours Fixture.host (Utils.DateStr "yesterday")
    (Utils.DateObj 1705339800000) = "NaN hrs NaN mins"
  /\ Utils.calculateWorkingHours Fixture.host (Utils.DateObj 1705339800000)
       (Utils.DateObj 1705339799999) = "-1 hrs -1 mins"
  /\ exists hours minutes,
       Utils.calculateWorkingHours Fixture.host (Utils.DateObj (-8640000000000000))
         (Utils.DateObj 8639999999999999)
       = (string_of_Z hours ++ " hrs " ++ string_of_Z minutes ++ " mins")%string
       /\ 0 <= minutes < 60.
Proof.
  destruct (calculateWorkingHours_edges Fixture.host) as (_ & Hnan & _ & Hpos & Hneg).
  split; [|split].
  - apply Hnan; [discriminate | reflexivity | reflexivity].
  - apply Hneg; unfold timeValue; lia.
  - destruct (Hpos (-8640000000000000) 8639999999999999) as (h & m & Heq & _ & Hm & _);
      try (unfold timeValue; lia).
    exists h, m. split; [exact Heq | exact Hm].
Defined.

(** ** The page bar *)

Lemma pagesFromTo_In start end_ entry :
  In entry (DataTablePagination.pagesFromTo start end_)
  <-> exists n, entry = DataTablePagination.Page n /\ start <= n <= end_.
Proof.
  unfold DataTablePagination.pagesFromTo. rewrite in_map_iff. split.
  - intros (k & <- & Hk). apply in_seq in Hk. eexists. split; [reflexivity|]. lia.
  - intros (n & -> & Hn). exists (Z.to_nat (n - start)). split; [f_equal; lia|].
    apply in_seq. lia.
Qed.

Lemma sorted_app {A : Type} (R : A -> A -> Prop) (l1 l2 : list A) :
  StronglySorted R l1 -> StronglySorted R l2 ->
  (forall x y, In x l1 -> In y l2 -> R x y) ->
  StronglySorted R (l1 ++ l2).
Proof.
  induction 1 as [|a l1 Hs IH Hall]; intros H2 Hcross; [exact H2|]. simpl.
  constructor.
  - apply IH; [exact H2|]. intros x y Hx Hy. apply Hcross; [now right | exact Hy].
  - apply Forall_app. split; [exact Hall|].
    apply Forall_forall. intros y Hy. apply Hcross; [now left | exact Hy].
Qed.

Lemma pageNumbers_pagesFromTo start end_ :
  Invariant.pageNumbers (DataTablePagination.pagesFromTo start end_)
  = List.map (fun k => start + Z.of_nat k) (List.seq 0 (Z.to_nat (end_ - start + 1))).
Proof.
  unfold DataTablePagination.pagesFromTo, Invariant.pageNumbers.
  induction (List.seq 0 (Z.to_nat (end_ - start + 1))) as [|k l IH]; [reflexivity|].
  simpl. now rewrite IH.
Qed.

Lemma seq_sorted start : forall n a,
  StronglySorted Z.lt (List.map (fun k => start + Z.of_nat k) (List.seq a n)).
Proof.
  induction n as [|n IH]; intros a; [constructor|]. simpl. constructor; [apply IH|].
  apply Forall_forall. intros y Hy. apply in_map_iff in Hy.
  destruct Hy as (k & <- & Hk). apply in_seq in Hk. lia.
Qed.

(** X17 — the page bar of [DataTablePagination], for a current page between
    1 and the number of pages: it starts with page 1 and ends with the last
    page; it lists exactly the first page, the last page and the pages within
    one of the current page; the page numbers are strictly increasing; an
    ellipsis is shown exactly when the current page is after page 3 or more
    than two before the last; and the bar has at most 7 entries. *)
Theorem getPageNumbers_bar (totalPages currentPage : Z) :
  1 <= currentPage <= totalPages ->
  let bar := DataTablePagination.getPageNumbers totalPages currentPage in
  List.hd_error bar = Some (DataTablePagination.Page 1)
  /\ List.last bar DataTablePagination.Ellipsis = DataTablePagination.Page totalPages
  /\ (forall n,
         In (DataTablePagination.Page n) bar
         <-> 1 <= n <= totalPages
             /\ (n = 1 \/ n = totalPages \/ currentPage - 1 <= n <= currentPage + 1))
  /\ StronglySorted Z.lt (Invariant.pageNumbers bar)
  /\ (In DataTablePagination.Ellipsis bar
      <-> 3 < currentPage \/ currentPage < totalPages - 2)
  /\ (List.length bar <= 7)%nat.
Proof.
  intros Hcp bar. subst bar. unfold DataTablePagination.getPageNumbers. cbv zeta.
  set (start := Z.max 2 (currentPage - 1)).
  set (end_ := Z.min (totalPages - 1) (currentPage + 1)).
  assert (Hstart : start = Z.max 2 (currentPage - 1)) by reflexivity.
  assert (Hend : end_ = Z.min (totalPages - 1) (currentPage + 1)) by reflexivity.
  clearbody start end_.
  split; [reflexivity|]. split; [|split; [|split; [|split]]].
  - rewrite !app_assoc. destruct (1 <? totalPages) eqn:Htp.
    + apply last_last.
    + apply Z.ltb_ge in Htp. assert (totalPages = 1) by lia. subst totalPages.
      rewrite app_nil_r.
      assert (Hnone : DataTablePagination.pagesFromTo start end_ = []).
      { unfold DataTablePagination.pagesFromTo.
        replace (Z.to_nat (end_ - start + 1)) with 0%nat by lia. reflexivity. }
      rewrite Hnone.
      replace (2 <? start) with false by (symmetry; apply Z.ltb_ge; lia).
      replace (end_ <? 1 - 1) with false by (symmetry; apply Z.ltb_ge; lia).
      reflexivity.
  - intros n. rewrite !in_app_iff, pagesFromTo_In. simpl. split.
    + intros [[H|[]]|[H|[H|[H|H]]]].
      * injection H as <-. lia.
      * destruct (2 <? start); [destruct H as [H|[]]|destruct H]; discriminate.
      * destruct H as (m & [= ->] & Hm). lia.
      * destruct (end_ <? totalPages - 1); [destruct H as [H|[]]|destruct H];
          discriminate.
      * destruct (1 <? totalPages); [|destruct H]. destruct H as [H|[]].
        injection H as <-. lia.
    + intros (Hn & Hcases).
      destruct (Z.eq_dec n 1) as [->|Hn1]; [left; now left|]. right.
      destruct (Z.eq_dec n totalPages) as [->|Hntp].
      * right. right. right.
        replace (1 <? totalPages) with true by (symmetry; apply Z.ltb_lt; lia).
        now left.
      * right. left. exists n. split; [reflexivity|]. lia.
  - unfold Invariant.pageNumbers. rewrite !flat_map_app.
    fold (Invariant.pageNumbers (DataTablePagination.pagesFromTo start end_)).
    rewrite pageNumbers_pagesFromTo.
    assert (Hmid : forall y,
      In y (List.map (fun k => start + Z.of_nat k)
              (List.seq 0 (Z.to_nat (end_ - start + 1)))) -> start <= y <= end_).
    { intros y Hy. apply in_map_iff in Hy. destruct Hy as (k & <- & Hk).
      apply in_seq in Hk. lia. }
    apply sorted_app; [repeat constructor| |].
    + apply sorted_app; [destruct (2 <? start); constructor| |].
      * apply sorted_app; [apply seq_sorted| |].
        -- apply sorted_app;
             [destruct (end_ <? totalPages - 1); constructor
             |destruct (1 <? totalPages); repeat constructor|].
           intros x y Hx. destruct (end_ <? totalPages - 1); destruct Hx.
        -- intros x y Hx Hy. apply Hmid in Hx. apply in_app_iff in Hy.
           destruct Hy as [Hy|Hy].
           ++ destruct (end_ <? totalPages - 1); destruct Hy.
           ++ destruct (1 <? totalPages); [|destruct Hy].
              destruct Hy as [<-|[]]. lia.
      * intros x y Hx. destruct (2 <? start); destruct Hx.
    + intros x y [<-|[]] Hy. rewrite !in_app_iff in Hy.
      destruct Hy as [Hy|[Hy|[Hy|Hy]]].
      * destruct (2 <? start); destruct Hy.
      * apply Hmid in Hy. lia.
      * destruct (end_ <? totalPages - 1); destruct Hy.
      * destruct (1 <? totalPages) eqn:E; [|destruct Hy].
        destruct Hy as [<-|[]]. now apply Z.ltb_lt.
  - rewrite !in_app_iff, pagesFromTo_In. simpl. split.
    + intros [[H|[]]|[H|[H|[H|H]]]]; try discriminate.
      * destruct (2 <? start) eqn:E; [|destruct H]. apply Z.ltb_lt in E. lia.
      * destruct H as (m & H & _). discriminate.
      * destruct (end_ <? totalPages - 1) eqn:E; [|destruct H].
        apply Z.ltb_lt in E. lia.
      * destruct (1 <? totalPages); [|destruct H]. destruct H as [H|[]]. discriminate.
    + intros [H|H].
      * right. left.
        replace (2 <? start) with true by (symmetry; apply Z.ltb_lt; lia). now left.
      * right. right. right. left.
        replace (end_ <? totalPages - 1) with true by (symmetry; apply Z.ltb_lt; lia).
        now left.
  - rewrite !List.length_app. unfold DataTablePagination.pagesFromTo.
    rewrite List.length_map, List.length_seq.
    destruct (2 <? start), (end_ <? totalPages - 1), (1 <? totalPages); simpl; lia.
Qed.

Lemma getPageNumbers_bar_witness :
  StronglySorted Z.lt
    (Invariant.pageNumbers (DataTablePagination.getPageNumbers 9 5))
  /\ In DataTablePagination.Ellipsis (DataTablePagination.getPageNumbers 9 5).
Proof.
  destruct (getPageNumbers_bar 9 5) as (_ & _ & _ & Hsorted & Hellipsis & _); [lia|].
  split; [exact Hsorted|]. apply Hellipsis. lia.
Defined.

Lemma paginateRows_showing {A : Type} (owner key : A -> Z) (rows : list A)
    (userId currentPage pageSize : Z) :
  0 < pageSize -> 1 <= currentPage ->
  Invariant.showing (Invariant.paginateRows owner key rows userId currentPage pageSize)
    currentPage pageSize.
Proof.
  intros Hps Hcp. unfold Invariant.showing, Invariant.paginateRows. cbv zeta.
  cbn [fst snd].
  set (records := sort_desc key (List.filter (fun x => owner x =? userId) rows)).
  rewrite slice_window by lia.
  unfold DataTablePagination.totalPages, DataTablePagination.endItem,
    DataTablePagination.startItem, DataTablePagination.previousPage,
    DataTablePagination.nextPage.
  set (N := Z.of_nat (List.length records)).
  assert (HN : 0 <= N) by (subst N; lia).
  assert (Hpages : (- (- N / pageSize) - 1) * pageSize < N <= - (- N / pageSize) * pageSize).
  { Z.div_mod_to_equations. nia. }
  set (pages := - (- N / pageSize)) in *. clearbody pages.
  split; [exact Hpages|]. split; [|split; [|split]].
  - intros Hle.
    assert (Hoff : (currentPage - 1) * pageSize < N) by nia.
    assert (Hlen : Z.of_nat (List.length
                     (firstn (Z.to_nat pageSize)
                        (skipn (Z.to_nat ((currentPage - 1) * pageSize)) records)))
                   = Z.min (currentPage * pageSize) N
                     - ((currentPage - 1) * pageSize + 1) + 1).
    { rewrite List.length_firstn, List.length_skipn. fold N in HN. subst N. nia. }
    split; [|exact Hlen].
    intros Hnil. rewrite Hnil in Hlen. simpl in Hlen. nia.
  - intros Hgt. rewrite skipn_all2; [apply firstn_nil|]. subst N. nia.
  - lia.
  - intros Hle. lia.
Qed.

(** X18 — what [DataTablePagination] shows for the answer of
    [getAttendanceByUserId], [getSalesByUserId] or [getWorkReportsByUserId]
    asked for the current page with the page size as limit: [totalPages] is
    the least number of pages that hold [totalCount] rows; on a page up to
    the last the rows are not empty and as many as "Showing startItem to
    endItem" says; past the last page there are none; Previous and Next stay
    between 1 and the last page. *)
Theorem showing_matches_page (userId currentPage pageSize : Z) (this : MemStorage.t) :
  0 < pageSize -> 1 <= currentPage ->
  Invariant.showing (MemStorage.getAttendanceByUserId userId currentPage pageSize this)
    currentPage pageSize
  /\ Invariant.showing (MemStorage.getSalesByUserId userId currentPage pageSize this)
       currentPage pageSize
  /\ Invariant.showing (MemStorage.getWorkReportsByUserId userId currentPage pageSize this)
       currentPage pageSize.
Proof.
  intros Hps Hcp. split; [|split].
  - exact (paginateRows_showing Attendance.user_id Attendance.check_in _ userId
             currentPage pageSize Hps Hcp).
  - exact (paginateRows_showing Sale.user_id Sale.created_at _ userId
             currentPage pageSize Hps Hcp).
  - exact (paginateRows_showing WorkReport.user_id WorkReport.created_at _ userId
             currentPage pageSize Hps Hcp).
Qed.

Lemma showing_matches_page_witness :
  Invariant.showing (MemStorage.getAttendanceByUserId 1 1 4 Fixture.checkedIn) 1 4.
Proof. apply (showing_matches_page 1 1 4 Fixture.checkedIn); lia. Defined.

(** ** User names *)

Lemma find_app_Some {A : Type} (p : A -> bool) (l l' : list A) x :
  List.find p l = Some x -> List.find p (l ++ l') = Some x.
Proof.
  induction l as [|a l IH]; simpl; [discriminate|]. now destruct (p a).
Qed.

(** X20 — [POST /api/users] does not check the user name: in a store the
    server can be in, a valid body with a new e-mail address and the user
    name of a stored user is answered with 201; the new user has another
    id, both are found by id, and [getUserByUsername] keeps returning the
    earlier user. *)
Theorem username_not_checked (host : Host.t) (clock : Routes.Clock)
    (body : Routes.UserBody.t) (userData : InsertUser.t) (old : User.t)
    (storage : MemStorage.t) :
  Routes.served host storage ->
  Routes.insertUserSchema_parse body = Normal userData ->
  MemStorage.getUserByEmail (InsertUser.email userData) storage = None ->
  MemStorage.getUserByUsername (InsertUser.username userData) storage = Some old ->
  let result := Routes.post_users clock body storage in
  exists user,
    fst result = {| Routes.status := 201; Routes.json := Routes.UserRow user |}
    /\ User.username user = User.username old
    /\ User.id user <> User.id old
    /\ MemStorage.getUser (User.id old) (snd result) = Some old
    /\ MemStorage.getUser (User.id user) (snd result) = Some user
    /\ MemStorage.getUserByUsername (User.username user) (snd result) = Some old.
Proof.
  intros Hserved Hparse Hemail Hname result. subst result.
  unfold Routes.post_users. rewrite Hparse, Hemail.
  set (created := MemStorage.createUser (clock 0%nat) userData storage).
  change (let (user, storage') := created in
          ({| Routes.status := 201; Routes.json := Routes.UserRow user |}, storage'))
    with ({| Routes.status := 201; Routes.json := Routes.UserRow (fst created) |},
          snd created).
  cbn [fst snd]. exists (fst created).
  destruct (served_keyed host storage Hserved) as (Hu & _).
  destruct (keyed_create_get User.id _ _ (fst created) Hu eq_refl)
    as (_ & Hnew & Hkept & Hvalues).
  pose proof Hname as Hfound. apply find_some in Hfound.
  destruct Hfound as [Hin Heq]. apply String.eqb_eq in Heq.
  pose proof (keyed_get_In User.id _ _ _ Hu Hin) as Hget.
  destruct (keyed_ids User.id _ _ Hu) as [_ Hlt]. rewrite Forall_forall in Hlt.
  specialize (Hlt old Hin).
  split; [reflexivity|]. split; [now rewrite Heq|].
  split; [subst created; simpl; lia|].
  split; [now apply Hkept|]. split; [exact Hnew|].
  unfold MemStorage.getUserByUsername in *. subst created. simpl in *.
  rewrite Hvalues. now apply find_app_Some.
Qed.

Lemma username_not_checked_witness :
  exists user,
    fst (Routes.post_users Fixture.evening
           {| Routes.UserBody.username := Some "sari";
              Routes.UserBody.password := Some "other";
              Routes.UserBody.email := Some "sari@example.org";
              Routes.UserBody.role := Some "admin";
              Routes.UserBody.full_name := None;
              Routes.UserBody.avatar_url := None |} Fixture.registered)
    = {| Routes.status := 201; Routes.json := Routes.UserRow user |}
    /\ User.username user = "sari" /\ User.id user <> 1.
Proof.
  destruct (username_not_checked Fixture.host Fixture.evening
              {| Routes.UserBody.username := Some "sari";
                 Routes.UserBody.password := Some "other";
                 Routes.UserBody.email := Some "sari@example.org";
                 Routes.UserBody.role := Some "admin";
                 Routes.UserBody.full_name := None;
                 Routes.UserBody.avatar_url := None |}
              {| InsertUser.username := "sari"; InsertUser.password := "other";
                 InsertUser.email := "sari@example.org"; InsertUser.role := "admin";
                 InsertUser.full_name := None; InsertUser.avatar_url := None |}
              {| User.id := 1; User.username := "sari"; User.password := "secret";
                 User.email := "sari@example.com"; User.role := "karyawan";
                 User.full_name := Some "Sari Dewi"; User.avatar_url := None;
                 User.created_at := Fixture.clock 0%nat |}
              Fixture.registered)
    as (user & Hfst & Hname & Hid & _).
  - unfold Fixture.registered. apply Routes.served_step. apply Routes.served_new.
  - reflexivity.
  - reflexivity.
  - reflexivity.
  - exists user. split; [exact Hfst|]. split; [exact Hname | exact Hid].
Defined.

(** ** The catalogue *)






(** ** Work reports *)

Lemma truthy_provided (s : option string) :
  (if truthy_opt_string s then s else None) = Spec.provided s.
Proof. destruct s as [[|c s]|]; reflexivity. Qed.

(** X22 — in a store the server can be in, [POST /api/reports] answers 201
    with a new id, the title and the status "submitted"; the report is
    stored under that id with the submitted fields, with [challenges] and
    [next_steps] null when absent or empty, for the user and at the time of
    the request; the reports stored before are unchanged, the lists of the
    other users too, and the user's [totalCount] grows by one. *)
Theorem report_submitted (host : Host.t) (clock : Routes.Clock)
    (body : Routes.WorkReportFormData.t) (user : Routes.UserProfile.t)
    (storage : MemStorage.t) :
  Routes.served host storage ->
  let result := Routes.post_reports clock body user storage in
  exists report,
    fst result
    = {| Routes.status := 201;
         Routes.json :=
           Routes.ReportSubmitted (MemStorage.reportIdCounter storage)
             (Routes.WorkReportFormData.title body) "submitted"
             "Work report submitted successfully" |}
    /\ MemStorage.getWorkReportById (MemStorage.reportIdCounter storage) storage = None
    /\ MemStorage.getWorkReportById (MemStorage.reportIdCounter storage) (snd result)
       = Some report
    /\ report
       = {| WorkReport.id := MemStorage.reportIdCounter storage;
            WorkReport.user_id := Routes.UserProfile.id user;
            WorkReport.title := Routes.WorkReportFormData.title body;
            WorkReport.report_type := Routes.WorkReportFormData.reportType body;
            WorkReport.department := Routes.WorkReportFormData.department body;
            WorkReport.tasks := Routes.WorkReportFormData.tasks body;
            WorkReport.outcomes := Routes.WorkReportFormData.outcomes body;
            WorkReport.challenges :=
              Spec.provided (Routes.WorkReportFormData.challenges body);
            WorkReport.next_steps :=
              Spec.provided (Routes.WorkReportFormData.nextSteps body);
            WorkReport.status := "submitted";
            WorkReport.created_at := clock 0%nat |}
    /\ (forall id other,
           MemStorage.getWorkReportById id storage = Some other ->
           MemStorage.getWorkReportById id (snd result) = Some other)
    /\ Invariant.listedAfterCreate MemStorage.getWorkReportsByUserId
         WorkReport.user_id WorkReport.created_at
         (Map.values (MemStorage.workReports storage)) report storage (snd result).
Proof.
  intros Hserved result. subst result. unfold Routes.post_reports. cbv zeta.
  rewrite !truthy_provided.
  set (created := MemStorage.createWorkReport _ _ storage).
  change (let (report, storage') := created in
          ({| Routes.status := 201;
              Routes.json :=
                Routes.ReportSubmitted (WorkReport.id report) (WorkReport.title report)
                  (WorkReport.status report) "Work report submitted successfully" |},
           storage'))
    with ({| Routes.status := 201;
             Routes.json :=
               Routes.ReportSubmitted (WorkReport.id (fst created))
                 (WorkReport.title (fst created)) (WorkReport.status (fst created))
                 "Work report submitted successfully" |}, snd created).
  cbn [fst snd]. exists (fst created).
  destruct (served_keyed host storage Hserved) as (_ & _ & _ & Hr).
  destruct (keyed_create_get WorkReport.id _ _ (fst created) Hr eq_refl)
    as (Hnone & Hsome & Hkept & Hv).
  split; [reflexivity|]. split; [exact Hnone|]. split; [exact Hsome|].
  split; [reflexivity|]. split; [exact Hkept|].
  pose proof (paginateRows_after_create WorkReport.user_id WorkReport.created_at
                (Map.values (MemStorage.workReports storage)) (fst created)) as H.
  unfold Invariant.listedAfterCreate, MemStorage.getWorkReportsByUserId.
  subst created. simpl in *. rewrite Hv. exact H.
Qed.

Lemma report_submitted_witness :
  exists report,
    MemStorage.getWorkReportById 1
      (snd (Routes.post_reports Fixture.evening
              {| Routes.WorkReportFormData.title := "Week 3";
                 Routes.WorkReportFormData.reportType := "weekly";
                 Routes.WorkReportFormData.department := "Sales";
                 Routes.WorkReportFormData.tasks := "Visits";
                 Routes.WorkReportFormData.outcomes := "Two orders";
                 Routes.WorkReportFormData.challenges := Some "";
                 Routes.WorkReportFormData.nextSteps := None |}
              Sample.sari Fixture.checkedIn)) = Some report
    /\ WorkReport.challenges report = None
    /\ WorkReport.status report = "submitted".
Proof.
  destruct (report_submitted Fixture.host Fixture.evening
              {| Routes.WorkReportFormData.title := "Week 3";
                 Routes.WorkReportFormData.reportType := "weekly";
                 Routes.WorkReportFormData.department := "Sales";
                 Routes.WorkReportFormData.tasks := "Visits";
                 Routes.WorkReportFormData.outcomes := "Two orders";
                 Routes.WorkReportFormData.challenges := Some "";
                 Routes.WorkReportFormData.nextSteps := None |}
              Sample.sari Fixture.checkedIn)
    as (report & _ & _ & Hsome & Hreport & _).
  - unfold Fixture.checkedIn, Fixture.registered.
    repeat apply Routes.served_step. apply Routes.served_new.
  - exists report. split; [exact Hsome|]. rewrite Hreport. split; reflexivity.
Defined.
